(** * Raiden event handler: effect execution and settlement reconciliation

    A shallow embedding of [raiden/raiden_event_handler.py] and of the
    event classes of [raiden/transfer/mediated_transfer/events.py].

    Python objects become records, the class hierarchy below [Event]
    becomes a tagged union, and a handler becomes a function in a small
    monad that threads the payment-status registry (the only object the
    handlers mutate), collects the calls made to collaborators in program
    order, and stops at the first raised exception.

    What a collaborator returns is a parameter of the development.  An
    exception raised inside a collaborator passes through a handler
    unchanged and is not modelled.  The formatting of log fields and of
    error messages ([pex], [to_hex], [to_checksum_address]) is left out, and
    so is the decorator [PFSFeedbackEventHandler]. *)

From Stdlib Require Import ZArith String List.
From Stdlib.Strings Require Import Byte.
From stdpp Require Import base decidable countable gmap list strings.

Local Open Scope Z_scope.

(** ** Bytes and scalar types ([raiden.utils.typing]) *)

#[global] Instance byte_eq_decision : EqDecision byte := Byte.byte_eq_dec.

#[global] Instance byte_countable : Countable byte.
Proof.
  refine (inj_countable' Byte.to_N (fun n => default x00 (Byte.of_N n)) _).
  intros b. rewrite Byte.of_to_N. reflexivity.
Defined.

(** Every [NewType] over [bytes] is the same carrier; the names are kept
    for reading the signatures. *)
Abbreviation bytes := (list byte) (only parsing).
Abbreviation Address := (list byte) (only parsing).
Abbreviation TargetAddress := (list byte) (only parsing).
Abbreviation TokenAddress := (list byte) (only parsing).
Abbreviation TokenNetworkAddress := (list byte) (only parsing).
Abbreviation Keccak256 := (list byte) (only parsing).
Abbreviation Locksroot := (list byte) (only parsing).
Abbreviation BalanceHash := (list byte) (only parsing).
Abbreviation AdditionalHash := (list byte) (only parsing).
Abbreviation Signature := (list byte) (only parsing).
Abbreviation Secret := (list byte) (only parsing).
Abbreviation SecretHash := (list byte) (only parsing).
Abbreviation BlockHash := (list byte) (only parsing).

(** Python integers. *)
Abbreviation ChainID := Z (only parsing).
Abbreviation ChannelID := Z (only parsing).
Abbreviation MessageID := Z (only parsing).
Abbreviation PaymentID := Z (only parsing).
Abbreviation Nonce := Z (only parsing).
Abbreviation TokenAmount := Z (only parsing).
Abbreviation BlockExpiration := Z (only parsing).
Abbreviation StateChangeID := Z (only parsing).

(** ** Identifiers and channel state

    The two modules embedded here import these classes from
    [raiden.transfer.identifiers] and [raiden.transfer.state].  The records
    carry the fields that section 3 of the specification lists for them, under
    the names of the attributes that the handlers read. *)

(** Modelled from the spec: [CanonicalIdentifier] (section 3), the key of
    every history lookup. *)
Record CanonicalIdentifier := {
  chain_identifier : ChainID;
  token_network_address : TokenNetworkAddress;
  channel_identifier : ChannelID;
}.

(** Modelled from the spec: [QueueIdentifier], recipient and channel
    (section 3, on the message intents). *)
Record QueueIdentifier := {
  queue_recipient : Address;
  queue_channel_identifier : ChannelID;
}.

(** Modelled from the spec: the balance proof (section 3), with
    [message_hash] for the additional hash and with the canonical identifier
    that the update handler reads from it. *)
Record BalanceProof := {
  nonce : Nonce;
  transferred_amount : TokenAmount;
  locked_amount : TokenAmount;
  locksroot : Locksroot;
  balance_hash : BalanceHash;
  message_hash : AdditionalHash;
  signature : Signature;
  canonical_identifier : CanonicalIdentifier;
}.

(** Modelled from the spec: a pending hashed time-locked transfer. *)
Record HashTimeLockState := {
  lock_amount : TokenAmount;
  lock_expiration : BlockExpiration;
  lock_secrethash : SecretHash;
}.

(** Modelled from the spec: one side of a channel (section 3). *)
Record NettingChannelEndState := {
  address : Address;
  onchain_locksroot : Locksroot;
  pending_locks : list HashTimeLockState;
  end_balance_proof : option BalanceProof;
}.

(** Modelled from the spec: a channel has exactly two end-states. *)
Record NettingChannelState := {
  channel_canonical_identifier : CanonicalIdentifier;
  our_state : NettingChannelEndState;
  partner_state : NettingChannelEndState;
}.

(** Modelled from the spec: the in-memory state of the node, of which the
    handlers read the chain identifier and look up channels. *)
Record ChainState := {
  chain_id : ChainID;
  chain_channels : list NettingChannelState;
}.

(** Modelled from the spec: the result of [get_batch_unlock_gain]
    (section 4.6). *)
Record UnlockGain := {
  from_our_locks : TokenAmount;
  from_partner_locks : TokenAmount;
}.

(** Modelled from the spec: the transfer carried by a locked-transfer or
    refund intent, which no handler inspects. *)
Record LockedTransferUnsignedState := {
  transfer_payment_identifier : PaymentID;
  transfer_token : TokenAddress;
  transfer_balance_proof : BalanceProof;
  transfer_lock : HashTimeLockState;
  transfer_initiator : Address;
  transfer_target : Address;
}.

(** ** Events ([raiden/transfer/mediated_transfer/events.py])

    One module per dataclass, so that the attributes keep their names. *)

(** [CHANNEL_IDENTIFIER_GLOBAL_QUEUE] *)
Definition CHANNEL_IDENTIFIER_GLOBAL_QUEUE : ChannelID := 0.

(** Modelled from the spec: the base class of the message events, of
    [raiden.transfer.architecture].  Each message intent carries a queue
    identifier made of recipient and channel (section 3); [__post_init__]
    sets it once from [recipient] and [channel_identifier] (compare
    [refund_from_sendmediated], which reads the channel back from it), so
    the attribute is a function of the other two. *)
Module SendMessageEvent.
Record t := {
  recipient : Address;
  channel_identifier : ChannelID;
  message_identifier : MessageID;
}.
Definition queue_identifier (self : t) : QueueIdentifier :=
  {| queue_recipient := recipient self;
     queue_channel_identifier := channel_identifier self |}.
End SendMessageEvent.

Module SendLockExpired.
Record t := {
  base : SendMessageEvent.t;
  balance_proof : BalanceProof;
  secrethash : SecretHash;
}.
End SendLockExpired.

(** [SendLockedTransfer]; its [__post_init__] rejects a [transfer] that
    is not a [LockedTransferUnsignedState], which the type of the field
    excludes here. *)
Module SendLockedTransfer.
Record t := {
  base : SendMessageEvent.t;
  transfer : LockedTransferUnsignedState;
}.
Definition balance_proof (self : t) : BalanceProof :=
  transfer_balance_proof (transfer self).
End SendLockedTransfer.

Module SendSecretReveal.
Record t := {
  base : SendMessageEvent.t;
  secret : Secret;
  secrethash : SecretHash;
}.
End SendSecretReveal.

Module SendBalanceProof.
Record t := {
  base : SendMessageEvent.t;
  payment_identifier : PaymentID;
  token_address : TokenAddress;
  balance_proof : BalanceProof;
  secret : Secret;
  secrethash : SecretHash;
}.
End SendBalanceProof.

Module SendSecretRequest.
Record t := {
  base : SendMessageEvent.t;
  payment_identifier : PaymentID;
  amount : TokenAmount;
  expiration : BlockExpiration;
  secrethash : SecretHash;
}.
End SendSecretRequest.

Module SendRefundTransfer.
Record t := {
  base : SendMessageEvent.t;
  transfer : LockedTransferUnsignedState;
}.
Definition balance_proof (self : t) : BalanceProof :=
  transfer_balance_proof (transfer self).
End SendRefundTransfer.

Module EventUnlockSuccess.
Record t := { identifier : PaymentID; secrethash : SecretHash }.
End EventUnlockSuccess.

Module EventUnlockFailed.
Record t := { identifier : PaymentID; secrethash : SecretHash; reason : string }.
End EventUnlockFailed.

Module EventUnlockClaimSuccess.
Record t := { identifier : PaymentID; secrethash : SecretHash }.
End EventUnlockClaimSuccess.

Module EventUnlockClaimFailed.
Record t := { identifier : PaymentID; secrethash : SecretHash; reason : string }.
End EventUnlockClaimFailed.

Module EventUnexpectedSecretReveal.
Record t := { secrethash : SecretHash; reason : string }.
End EventUnexpectedSecretReveal.

Module EventRouteFailed.
Record t := {
  secrethash : SecretHash;
  route : list Address;
  token_network_address : TokenNetworkAddress;
}.
End EventRouteFailed.

(** ** Events of [raiden.transfer.events]

    The handler imports these classes; each record has the attributes that
    its handler reads. *)

(** Modelled from the spec: the message intent [SendProcessed]. *)
Module SendProcessed.
Record t := { base : SendMessageEvent.t }.
End SendProcessed.

(** Modelled from the spec: the outcome marker [EventPaymentSentSuccess],
    keyed by target and payment identifier (section 9). *)
Module EventPaymentSentSuccess.
Record t := {
  token_network_address : TokenNetworkAddress;
  identifier : PaymentID;
  target : TargetAddress;
  route : list Address;
}.
End EventPaymentSentSuccess.

(** Modelled from the spec: the outcome marker [EventPaymentSentFailed]. *)
Module EventPaymentSentFailed.
Record t := {
  token_network_address : TokenNetworkAddress;
  identifier : PaymentID;
  target : TargetAddress;
  reason : string;
}.
End EventPaymentSentFailed.

(** Modelled from the spec: the contract intent [ContractSendSecretReveal]
    (section 4.3). *)
Module ContractSendSecretReveal.
Record t := { secret : Secret; triggered_by_block_hash : BlockHash }.
End ContractSendSecretReveal.

(** Modelled from the spec: the contract intent [ContractSendChannelClose],
    whose balance proof may be absent (section 4.3). *)
Module ContractSendChannelClose.
Record t := {
  token_network_address : TokenNetworkAddress;
  channel_identifier : ChannelID;
  balance_proof : option BalanceProof;
  triggered_by_block_hash : BlockHash;
}.
End ContractSendChannelClose.

(** Modelled from the spec: the contract intent
    [ContractSendChannelUpdateTransfer] (section 4.3). *)
Module ContractSendChannelUpdateTransfer.
Record t := {
  balance_proof : option BalanceProof;
  triggered_by_block_hash : BlockHash;
}.
End ContractSendChannelUpdateTransfer.

(** Modelled from the spec: the contract intent
    [ContractSendChannelBatchUnlock]; [sender] is the participant of section
    4.4. *)
Module ContractSendChannelBatchUnlock.
Record t := {
  canonical_identifier : CanonicalIdentifier;
  sender : Address;
  triggered_by_block_hash : BlockHash;
}.
End ContractSendChannelBatchUnlock.

(** Modelled from the spec: the contract intent [ContractSendChannelSettle]
    (section 4.7). *)
Module ContractSendChannelSettle.
Record t := {
  token_network_address : TokenNetworkAddress;
  channel_identifier : ChannelID;
  triggered_by_block_hash : BlockHash;
}.
End ContractSendChannelSettle.

(** The classes below [Event].  The eight outcome markers of
    [UNEVENTFUL_EVENTS] whose attributes no handler reads carry none here;
    [OtherEvent] stands for an instance of any class the dispatcher does not
    name, identified by the name of its class. *)
Inductive Event :=
| Event_SendLockExpired (e : SendLockExpired.t)
| Event_SendLockedTransfer (e : SendLockedTransfer.t)
| Event_SendSecretReveal (e : SendSecretReveal.t)
| Event_SendBalanceProof (e : SendBalanceProof.t)
| Event_SendSecretRequest (e : SendSecretRequest.t)
| Event_SendRefundTransfer (e : SendRefundTransfer.t)
| Event_SendProcessed (e : SendProcessed.t)
| Event_EventPaymentSentSuccess (e : EventPaymentSentSuccess.t)
| Event_EventPaymentSentFailed (e : EventPaymentSentFailed.t)
| Event_EventUnlockFailed (e : EventUnlockFailed.t)
| Event_ContractSendSecretReveal (e : ContractSendSecretReveal.t)
| Event_ContractSendChannelClose (e : ContractSendChannelClose.t)
| Event_ContractSendChannelUpdateTransfer (e : ContractSendChannelUpdateTransfer.t)
| Event_ContractSendChannelBatchUnlock (e : ContractSendChannelBatchUnlock.t)
| Event_ContractSendChannelSettle (e : ContractSendChannelSettle.t)
| Event_EventPaymentReceivedSuccess
| Event_EventUnlockSuccess (e : EventUnlockSuccess.t)
| Event_EventUnlockClaimFailed (e : EventUnlockClaimFailed.t)
| Event_EventUnlockClaimSuccess (e : EventUnlockClaimSuccess.t)
| Event_EventInvalidReceivedLockedTransfer
| Event_EventInvalidReceivedLockExpired
| Event_EventInvalidReceivedTransferRefund
| Event_EventInvalidReceivedUnlock
| Event_EventUnexpectedSecretReveal (e : EventUnexpectedSecretReveal.t)
| Event_EventRouteFailed (e : EventRouteFailed.t)
| OtherEvent (class_name : string).

(** The class objects that [type(event)] is compared with. *)
Inductive EventClass :=
| SendLockExpired
| SendLockedTransfer
| SendSecretReveal
| SendBalanceProof
| SendSecretRequest
| SendRefundTransfer
| SendProcessed
| EventPaymentSentSuccess
| EventPaymentSentFailed
| EventUnlockFailed
| ContractSendSecretReveal
| ContractSendChannelClose
| ContractSendChannelUpdateTransfer
| ContractSendChannelBatchUnlock
| ContractSendChannelSettle
| EventPaymentReceivedSuccess
| EventUnlockSuccess
| EventUnlockClaimFailed
| EventUnlockClaimSuccess
| EventInvalidReceivedLockedTransfer
| EventInvalidReceivedLockExpired
| EventInvalidReceivedTransferRefund
| EventInvalidReceivedUnlock
| EventUnexpectedSecretReveal
| EventRouteFailed
| OtherClass (class_name : string).

#[global] Instance EventClass_eq_dec : EqDecision EventClass.
Proof. solve_decision. Defined.

(** [type(event)] *)
Definition type (event : Event) : EventClass :=
  match event with
  | Event_SendLockExpired _ => SendLockExpired
  | Event_SendLockedTransfer _ => SendLockedTransfer
  | Event_SendSecretReveal _ => SendSecretReveal
  | Event_SendBalanceProof _ => SendBalanceProof
  | Event_SendSecretRequest _ => SendSecretRequest
  | Event_SendRefundTransfer _ => SendRefundTransfer
  | Event_SendProcessed _ => SendProcessed
  | Event_EventPaymentSentSuccess _ => EventPaymentSentSuccess
  | Event_EventPaymentSentFailed _ => EventPaymentSentFailed
  | Event_EventUnlockFailed _ => EventUnlockFailed
  | Event_ContractSendSecretReveal _ => ContractSendSecretReveal
  | Event_ContractSendChannelClose _ => ContractSendChannelClose
  | Event_ContractSendChannelUpdateTransfer _ => ContractSendChannelUpdateTransfer
  | Event_ContractSendChannelBatchUnlock _ => ContractSendChannelBatchUnlock
  | Event_ContractSendChannelSettle _ => ContractSendChannelSettle
  | Event_EventPaymentReceivedSuccess => EventPaymentReceivedSuccess
  | Event_EventUnlockSuccess _ => EventUnlockSuccess
  | Event_EventUnlockClaimFailed _ => EventUnlockClaimFailed
  | Event_EventUnlockClaimSuccess _ => EventUnlockClaimSuccess
  | Event_EventInvalidReceivedLockedTransfer => EventInvalidReceivedLockedTransfer
  | Event_EventInvalidReceivedLockExpired => EventInvalidReceivedLockExpired
  | Event_EventInvalidReceivedTransferRefund => EventInvalidReceivedTransferRefund
  | Event_EventInvalidReceivedUnlock => EventInvalidReceivedUnlock
  | Event_EventUnexpectedSecretReveal _ => EventUnexpectedSecretReveal
  | Event_EventRouteFailed _ => EventRouteFailed
  | OtherEvent class_name => OtherClass class_name
  end.

(** [UNEVENTFUL_EVENTS] *)
Definition UNEVENTFUL_EVENTS : list EventClass :=
  [ EventPaymentReceivedSuccess;
    EventUnlockSuccess;
    EventUnlockClaimFailed;
    EventUnlockClaimSuccess;
    EventInvalidReceivedLockedTransfer;
    EventInvalidReceivedLockExpired;
    EventInvalidReceivedTransferRefund;
    EventInvalidReceivedUnlock ].

(** ** Construction of the events that carry a secret

    A dataclass instance is built by the generated [__init__], which stores
    its arguments and then runs [__post_init__].  [sha256] is
    [hashlib.sha256(...).digest()], and [EMPTY_SECRETHASH] the default of
    the [secrethash] argument ([raiden.constants]). *)
Section EventConstruction.
Variable sha256 : bytes -> bytes.
Variable EMPTY_SECRETHASH : SecretHash.

(** [SendSecretReveal.__post_init__]; [super().__post_init__()] only
    fixes the queue identifier, which is derived from [base]. *)
Definition SendSecretReveal_post_init (self : SendSecretReveal.t) : SendSecretReveal.t :=
  {| SendSecretReveal.base := SendSecretReveal.base self;
     SendSecretReveal.secret := SendSecretReveal.secret self;
     SendSecretReveal.secrethash := sha256 (SendSecretReveal.secret self) |}.

(** [SendSecretReveal(recipient, channel_identifier, message_identifier,
    secret, secrethash=EMPTY_SECRETHASH)]; [None] is the omitted argument. *)
Definition SendSecretReveal_init (recipient : Address) (channel_identifier : ChannelID)
    (message_identifier : MessageID) (secret : Secret)
    (secrethash : option SecretHash) : SendSecretReveal.t :=
  SendSecretReveal_post_init
    {| SendSecretReveal.base :=
         {| SendMessageEvent.recipient := recipient;
            SendMessageEvent.channel_identifier := channel_identifier;
            SendMessageEvent.message_identifier := message_identifier |};
       SendSecretReveal.secret := secret;
       SendSecretReveal.secrethash := default EMPTY_SECRETHASH secrethash |}.

(** [SendBalanceProof.__post_init__] *)
Definition SendBalanceProof_post_init (self : SendBalanceProof.t) : SendBalanceProof.t :=
  {| SendBalanceProof.base := SendBalanceProof.base self;
     SendBalanceProof.payment_identifier := SendBalanceProof.payment_identifier self;
     SendBalanceProof.token_address := SendBalanceProof.token_address self;
     SendBalanceProof.balance_proof := SendBalanceProof.balance_proof self;
     SendBalanceProof.secret := SendBalanceProof.secret self;
     SendBalanceProof.secrethash := sha256 (SendBalanceProof.secret self) |}.

(** [SendBalanceProof(recipient, channel_identifier, message_identifier,
    payment_identifier, token_address, balance_proof, secret,
    secrethash=EMPTY_SECRETHASH)] *)
Definition SendBalanceProof_init (recipient : Address) (channel_identifier : ChannelID)
    (message_identifier : MessageID) (payment_identifier : PaymentID)
    (token_address : TokenAddress) (balance_proof : BalanceProof) (secret : Secret)
    (secrethash : option SecretHash) : SendBalanceProof.t :=
  SendBalanceProof_post_init
    {| SendBalanceProof.base :=
         {| SendMessageEvent.recipient := recipient;
            SendMessageEvent.channel_identifier := channel_identifier;
            SendMessageEvent.message_identifier := message_identifier |};
       SendBalanceProof.payment_identifier := payment_identifier;
       SendBalanceProof.token_address := token_address;
       SendBalanceProof.balance_proof := balance_proof;
       SendBalanceProof.secret := secret;
       SendBalanceProof.secrethash := default EMPTY_SECRETHASH secrethash |}.
End EventConstruction.

(** [refund_from_sendmediated] *)
Definition refund_from_sendmediated (send_lockedtransfer_event : SendLockedTransfer.t)
    : SendRefundTransfer.t :=
  let base := SendLockedTransfer.base send_lockedtransfer_event in
  {| SendRefundTransfer.base :=
       {| SendMessageEvent.recipient := SendMessageEvent.recipient base;
          SendMessageEvent.channel_identifier :=
            queue_channel_identifier (SendMessageEvent.queue_identifier base);
          SendMessageEvent.message_identifier := SendMessageEvent.message_identifier base |};
     SendRefundTransfer.transfer := SendLockedTransfer.transfer send_lockedtransfer_event |}.

(** ** The service object and its collaborators *)

(** Modelled from the spec: what a history lookup returns (section 3,
    the history record), a position in the log and the logged object, of
    which the handlers read [data.balance_proof]. *)
Record HistoryData := { data_balance_proof : BalanceProof }.

(** Modelled from the spec: the record of a logged state change. *)
Module StateChangeRecord.
Record t := { state_change_identifier : StateChangeID; data : HistoryData }.
End StateChangeRecord.

(** Modelled from the spec: the record of a logged event, with the
    position of the state change that produced it. *)
Module EventRecord.
Record t := {
  event_identifier : Z;
  state_change_identifier : StateChangeID;
  data : HistoryData;
}.
End EventRecord.

(** Modelled from the spec: the append-only log, as the two sequences of
    records that the lookups query (section 6). *)
Record SerializedSQLiteStorage := {
  logged_state_changes : list StateChangeRecord.t;
  logged_events : list EventRecord.t;
}.

(** Modelled from the spec: [raiden.wal], which holds the storage. *)
Record WriteAheadLog := { storage : SerializedSQLiteStorage }.

(** Modelled from the spec: the attributes of [RaidenService] that the
    handlers read and never write.  [wal] is [None] until the service is
    started; [network_id] is [raiden.chain.network_id]. *)
Record RaidenService := {
  raiden_address : Address;
  wal : option WriteAheadLog;
  network_id : ChainID;
}.

(** Modelled from the spec: an entry of the payment-status registry
    (section 9); [payment_done] names the [AsyncResult] on which the caller of
    the payment waits. *)
Record PaymentStatus := {
  status_payment_identifier : PaymentID;
  status_amount : TokenAmount;
  payment_done : Z;
}.

(** Modelled from the spec: [raiden.targets_to_identifiers_to_statuses],
    which [raiden_service.py] declares.  Section 9 describes it as a mutable
    registry of payment statuses per target address and payment identifier
    from which the handlers read and remove entries.  It is a dictionary of
    dictionaries in which indexing an unknown target yields a new empty inner
    dictionary (a [defaultdict(dict)]). *)
Abbreviation Registry := (gmap TargetAddress (gmap PaymentID PaymentStatus)) (only parsing).

(** Modelled from the spec: the chain proxy of one channel (section 6);
    its [token_network] proxy and that proxy's [client] are reached through
    it. *)
Record PaymentChannel := {
  proxy_canonical_identifier : CanonicalIdentifier;
  participant1 : Address;
  participant2 : Address;
}.

(** Modelled from the spec: the details of one participant as recorded
    on-chain (section 6). *)
Module ParticipantDetails.
Record t := {
  address : Address;
  deposit : TokenAmount;
  withdrawn : TokenAmount;
  is_closer : bool;
  balance_hash : BalanceHash;
  nonce : Nonce;
  locksroot : Locksroot;
  locked_amount : TokenAmount;
}.
End ParticipantDetails.

(** Modelled from the spec: the result of [detail_participants]. *)
Record ParticipantsDetails := {
  our_details : ParticipantDetails.t;
  partner_details : ParticipantDetails.t;
}.

(** The exceptions that the handlers raise: the typed fatal error of
    [raiden.exceptions] (section 7), and Python's own for a failed [assert]
    and for a missing dictionary key. *)
Inductive Exception :=
| RaidenUnrecoverableError (message : string)
| AssertionError (message : string)
| KeyError (key : PaymentID).

Inductive Result (A : Type) :=
| Ok (value : A)
| Raise (exc : Exception).
Arguments Ok {A} value.
Arguments Raise {A} exc.

(** The levels of the [structlog] calls. *)
Inductive LogLevel := DEBUG | WARNING | ERROR | CRITICAL.

(** * Effects *)

Section Effects.
Context {Message : Type}.

(** ** Calls to collaborators

    One constructor per operation, with the arguments of the call.  The
    keyword arguments of the log calls are left out.  [Message] is the
    class of the wire messages ([raiden.messages]). *)
Inductive Call :=
| Call_log (level : LogLevel) (event : string)
| Call_message_from_sendevent (send_event : Event)
| Call_sign (message : Message)
| Call_send_async (queue_identifier : QueueIdentifier) (message : Message)
| Call_reveal_secret_with_resolver (secret_request_event : SendSecretRequest.t)
| Call_payment_done_set (payment_status : PaymentStatus) (event : Event)
| Call_register_secret (secret : Secret)
| Call_signer_sign (data : bytes)
| Call_payment_channel (canonical_identifier : CanonicalIdentifier)
| Call_close (proxy : PaymentChannel) (nonce : Nonce) (balance_hash : BalanceHash)
    (additional_hash : AdditionalHash) (signature : Signature)
    (block_identifier : BlockHash)
| Call_update_transfer (proxy : PaymentChannel) (nonce : Nonce)
    (balance_hash : BalanceHash) (additional_hash : AdditionalHash)
    (partner_signature : Signature) (signature : Signature)
    (block_identifier : BlockHash)
| Call_unlock (proxy : PaymentChannel) (sender receiver : Address)
    (merkle_tree_locks : option (list HashTimeLockState))
    (given_block_identifier : BlockHash)
| Call_settle (proxy : PaymentChannel)
    (transferred_amount locked_amount : TokenAmount) (locksroot : Locksroot)
    (partner_transferred_amount partner_locked_amount : TokenAmount)
    (partner_locksroot : Locksroot) (block_identifier : BlockHash)
| Call_can_query_state_for_block (proxy : PaymentChannel) (block : BlockHash)
| Call_blockhash_from_blocknumber (proxy : PaymentChannel) (block_number : string)
| Call_detail_participants (proxy : PaymentChannel) (participant1 participant2 : Address)
    (block_identifier : BlockHash) (channel_identifier : ChannelID)
| Call_get_state_change_with_balance_proof_by_locksroot
    (storage : SerializedSQLiteStorage) (canonical_identifier : CanonicalIdentifier)
    (locksroot : Locksroot) (sender : Address)
| Call_get_event_with_balance_proof_by_locksroot
    (storage : SerializedSQLiteStorage) (canonical_identifier : CanonicalIdentifier)
    (locksroot : Locksroot) (recipient : Address)
| Call_get_state_change_with_balance_proof_by_balance_hash
    (storage : SerializedSQLiteStorage) (canonical_identifier : CanonicalIdentifier)
    (balance_hash : BalanceHash) (sender : Address)
| Call_get_event_with_balance_proof_by_balance_hash
    (storage : SerializedSQLiteStorage) (canonical_identifier : CanonicalIdentifier)
    (balance_hash : BalanceHash)
| Call_channel_state_until_state_change
    (canonical_identifier : CanonicalIdentifier) (state_change_identifier : StateChangeID).

(** ** The handler monad

    A computation starts from a registry and yields a result or a raised
    exception, the registry it leaves behind, and the calls it made, in
    order.  What was done before an exception stays done. *)
Record Outcome (A : Type) := {
  result : Result A;
  registry : Registry;
  calls : list Call;
}.
Arguments result {A} _.
Arguments registry {A} _.
Arguments calls {A} _.

Definition M (A : Type) : Type := Registry -> Outcome A.

#[global] Instance M_ret : MRet M := fun A value reg =>
  {| result := Ok value; registry := reg; calls := [] |}.

#[global] Instance M_bind : MBind M := fun A B f m reg =>
  let first := m reg in
  match result first with
  | Ok value =>
      let second := f value (registry first) in
      {| result := result second;
         registry := registry second;
         calls := calls first ++ calls second |}
  | Raise exc =>
      {| result := Raise exc; registry := registry first; calls := calls first |}
  end.

Definition raise {A : Type} (exc : Exception) : M A := fun reg =>
  {| result := Raise exc; registry := reg; calls := [] |}.

Definition call (c : Call) : M unit := fun reg =>
  {| result := Ok (); registry := reg; calls := [c] |}.

(** [assert value, message] on an optional value; yields the value. *)
Definition assert_some {A : Type} (value : option A) (message : string) : M A :=
  match value with
  | Some a => mret a
  | None => raise (AssertionError message)
  end.

(** Truth value of an optional list: [None] and [[]] are false. *)
Definition truthy {A : Type} (value : option (list A)) : bool :=
  match value with
  | Some (_ :: _) => true
  | _ => false
  end.

(** [assert condition, message] *)
Definition assert (condition : bool) (message : string) : M unit :=
  if condition then mret () else raise (AssertionError message).
End Effects.

Arguments Call Message : clear implicits.
Arguments Outcome Message A : clear implicits.
Arguments M Message A : clear implicits.
Arguments result {Message A} _.
Arguments registry {Message A} _.
Arguments calls {Message A} _.

(** Code that the handler imports from other modules of the package, and
    the services it talks to, taken as parameters.  The constants and the
    pure functions keep their names.  For a call whose effect is outside
    the process (log, transport, chain, resolver, database) the field
    [f_returns] gives what the call returns; the call itself is recorded
    (see [Call] below). *)
Class Collaborators := {
  (** [raiden.messages.Message] *)
  Message : Type;
  (** [raiden.constants] *)
  EMPTY_HASH : Keccak256;
  EMPTY_BALANCE_HASH : BalanceHash;
  EMPTY_MESSAGE_HASH : AdditionalHash;
  EMPTY_SIGNATURE : Signature;
  (** [raiden.transfer.views], [raiden.transfer.channel],
      [raiden.transfer.balance_proof] *)
  get_channelstate_by_token_network_and_partner :
    ChainState -> TokenNetworkAddress -> Address -> option NettingChannelState;
  get_batch_unlock : NettingChannelEndState -> option (list HashTimeLockState);
  get_batch_unlock_gain : NettingChannelState -> UnlockGain;
  pack_balance_proof_update :
    Nonce -> BalanceHash -> AdditionalHash -> CanonicalIdentifier -> Signature -> bytes;
  (** [raiden.messages], [raiden.sign] (the message after it was signed in
      place), [raiden.signer.sign], the resolver *)
  message_from_sendevent_returns : Event -> Message;
  sign_returns : RaidenService -> Message -> Message;
  signer_sign_returns : RaidenService -> bytes -> Signature;
  reveal_secret_with_resolver_returns : RaidenService -> SendSecretRequest.t -> bool;
  (** [raiden.chain.payment_channel] and the proxies *)
  payment_channel_returns : RaidenService -> CanonicalIdentifier -> PaymentChannel;
  can_query_state_for_block_returns : PaymentChannel -> BlockHash -> bool;
  blockhash_from_blocknumber_returns : PaymentChannel -> BlockHash;
  detail_participants_returns :
    PaymentChannel -> Address -> Address -> BlockHash -> ChannelID -> ParticipantsDetails;
  (** [raiden.storage.restore] *)
  get_state_change_with_balance_proof_by_locksroot_returns :
    SerializedSQLiteStorage -> CanonicalIdentifier -> Locksroot -> Address ->
    option StateChangeRecord.t;
  get_event_with_balance_proof_by_locksroot_returns :
    SerializedSQLiteStorage -> CanonicalIdentifier -> Locksroot -> Address ->
    option EventRecord.t;
  get_state_change_with_balance_proof_by_balance_hash_returns :
    SerializedSQLiteStorage -> CanonicalIdentifier -> BalanceHash -> Address ->
    option StateChangeRecord.t;
  get_event_with_balance_proof_by_balance_hash_returns :
    SerializedSQLiteStorage -> CanonicalIdentifier -> BalanceHash ->
    option EventRecord.t;
  channel_state_until_state_change_returns :
    RaidenService -> CanonicalIdentifier -> StateChangeID -> option NettingChannelState;
}.

Section Handler.
Context {collaborators : Collaborators}.

Local Abbreviation Call := (Call Message).
Local Abbreviation Outcome := (Outcome Message).
Local Abbreviation M := (M Message).

(** *** The collaborators as computations *)

Definition log_warning (event : string) : M unit := call (Call_log WARNING event).
Definition log_error (event : string) : M unit := call (Call_log ERROR event).
Definition log_critical (event : string) : M unit := call (Call_log CRITICAL event).

Definition message_from_sendevent (send_event : Event) : M Message :=
  call (Call_message_from_sendevent send_event);;
  mret (message_from_sendevent_returns send_event).

(** [raiden.sign(message)] signs the message object in place; the
    computation yields that object as it is afterwards. *)
Definition sign (raiden : RaidenService) (message : Message) : M Message :=
  call (Call_sign message);;
  mret (sign_returns raiden message).

Definition send_async (queue_identifier : QueueIdentifier) (message : Message) : M unit :=
  call (Call_send_async queue_identifier message).

Definition reveal_secret_with_resolver (raiden : RaidenService)
    (secret_request_event : SendSecretRequest.t) : M bool :=
  call (Call_reveal_secret_with_resolver secret_request_event);;
  mret (reveal_secret_with_resolver_returns raiden secret_request_event).

Definition signer_sign (raiden : RaidenService) (data : bytes) : M Signature :=
  call (Call_signer_sign data);;
  mret (signer_sign_returns raiden data).

Definition payment_channel (raiden : RaidenService)
    (canonical_identifier : CanonicalIdentifier) : M PaymentChannel :=
  call (Call_payment_channel canonical_identifier);;
  mret (payment_channel_returns raiden canonical_identifier).

Definition can_query_state_for_block (proxy : PaymentChannel) (block : BlockHash) : M bool :=
  call (Call_can_query_state_for_block proxy block);;
  mret (can_query_state_for_block_returns proxy block).

Definition blockhash_from_blocknumber (proxy : PaymentChannel) (block_number : string)
    : M BlockHash :=
  call (Call_blockhash_from_blocknumber proxy block_number);;
  mret (blockhash_from_blocknumber_returns proxy).

Definition detail_participants (proxy : PaymentChannel) (participant1 participant2 : Address)
    (block_identifier : BlockHash) (channel_identifier : ChannelID) : M ParticipantsDetails :=
  call (Call_detail_participants proxy participant1 participant2 block_identifier
          channel_identifier);;
  mret (detail_participants_returns proxy participant1 participant2 block_identifier
          channel_identifier).

Definition get_state_change_with_balance_proof_by_locksroot
    (storage : SerializedSQLiteStorage) (canonical_identifier : CanonicalIdentifier)
    (locksroot : Locksroot) (sender : Address) : M (option StateChangeRecord.t) :=
  call (Call_get_state_change_with_balance_proof_by_locksroot storage canonical_identifier
          locksroot sender);;
  mret (get_state_change_with_balance_proof_by_locksroot_returns storage
          canonical_identifier locksroot sender).

Definition get_event_with_balance_proof_by_locksroot
    (storage : SerializedSQLiteStorage) (canonical_identifier : CanonicalIdentifier)
    (locksroot : Locksroot) (recipient : Address) : M (option EventRecord.t) :=
  call (Call_get_event_with_balance_proof_by_locksroot storage canonical_identifier
          locksroot recipient);;
  mret (get_event_with_balance_proof_by_locksroot_returns storage canonical_identifier
          locksroot recipient).

Definition get_state_change_with_balance_proof_by_balance_hash
    (storage : SerializedSQLiteStorage) (canonical_identifier : CanonicalIdentifier)
    (balance_hash : BalanceHash) (sender : Address) : M (option StateChangeRecord.t) :=
  call (Call_get_state_change_with_balance_proof_by_balance_hash storage
          canonical_identifier balance_hash sender);;
  mret (get_state_change_with_balance_proof_by_balance_hash_returns storage
          canonical_identifier balance_hash sender).

Definition get_event_with_balance_proof_by_balance_hash
    (storage : SerializedSQLiteStorage) (canonical_identifier : CanonicalIdentifier)
    (balance_hash : BalanceHash) : M (option EventRecord.t) :=
  call (Call_get_event_with_balance_proof_by_balance_hash storage canonical_identifier
          balance_hash);;
  mret (get_event_with_balance_proof_by_balance_hash_returns storage canonical_identifier
          balance_hash).

Definition channel_state_until_state_change (raiden : RaidenService)
    (canonical_identifier : CanonicalIdentifier) (state_change_identifier : StateChangeID)
    : M (option NettingChannelState) :=
  call (Call_channel_state_until_state_change canonical_identifier state_change_identifier);;
  mret (channel_state_until_state_change_returns raiden canonical_identifier
          state_change_identifier).

(** *** The payment-status registry *)

(** [raiden.targets_to_identifiers_to_statuses[target]]: an unknown
    target gets a new empty inner dictionary, which is stored. *)
Definition statuses_of_target (target : TargetAddress) : M (gmap PaymentID PaymentStatus) :=
  fun reg =>
    match reg !! target with
    | Some statuses => {| result := Ok statuses; registry := reg; calls := [] |}
    | None => {| result := Ok ∅; registry := <[target := ∅]> reg; calls := [] |}
    end.

(** Removal of [key] from the inner dictionary [statuses] of [target].
    The inner dictionary is the object held by the registry, so the
    registry sees the removal. *)
Definition remove_status (target : TargetAddress) (key : PaymentID)
    (statuses : gmap PaymentID PaymentStatus) : M unit :=
  fun reg =>
    {| result := Ok (); registry := <[target := delete key statuses]> reg; calls := [] |}.

(** [raiden.targets_to_identifiers_to_statuses[target].pop(key)]: a
    missing key raises [KeyError]. *)
Definition pop (target : TargetAddress) (key : PaymentID) : M PaymentStatus :=
  statuses ← statuses_of_target target;
  match statuses !! key with
  | Some payment_status =>
      remove_status target key statuses;;
      mret payment_status
  | None => raise (KeyError key)
  end.

(** [....pop(key, None)] *)
Definition pop_default (target : TargetAddress) (key : PaymentID)
    : M (option PaymentStatus) :=
  statuses ← statuses_of_target target;
  match statuses !! key with
  | Some payment_status =>
      remove_status target key statuses;;
      mret (Some payment_status)
  | None => mret None
  end.

(** ** [raiden_event_handler.py] *)

(** [unlock] *)
Definition unlock (payment_channel : PaymentChannel) (end_state : NettingChannelEndState)
    (sender receiver : Address) (given_block_identifier : BlockHash) : M unit :=
  let merkle_tree_locks := get_batch_unlock end_state in
  assert (truthy merkle_tree_locks) "merkle tree is missing";;
  call (Call_unlock payment_channel sender receiver merkle_tree_locks
          given_block_identifier).

(** [RaidenEventHandler.handle_send_lockexpired] *)
Definition handle_send_lockexpired (raiden : RaidenService)
    (send_lock_expired : SendLockExpired.t) : M unit :=
  lock_expired_message ← message_from_sendevent (Event_SendLockExpired send_lock_expired);
  lock_expired_message ← sign raiden lock_expired_message;
  send_async (SendMessageEvent.queue_identifier (SendLockExpired.base send_lock_expired))
    lock_expired_message.

(** [RaidenEventHandler.handle_send_lockedtransfer] *)
Definition handle_send_lockedtransfer (raiden : RaidenService)
    (send_locked_transfer : SendLockedTransfer.t) : M unit :=
  mediated_transfer_message ←
    message_from_sendevent (Event_SendLockedTransfer send_locked_transfer);
  mediated_transfer_message ← sign raiden mediated_transfer_message;
  send_async
    (SendMessageEvent.queue_identifier (SendLockedTransfer.base send_locked_transfer))
    mediated_transfer_message.

(** [RaidenEventHandler.handle_send_secretreveal] *)
Definition handle_send_secretreveal (raiden : RaidenService)
    (reveal_secret_event : SendSecretReveal.t) : M unit :=
  reveal_secret_message ← message_from_sendevent (Event_SendSecretReveal reveal_secret_event);
  reveal_secret_message ← sign raiden reveal_secret_message;
  send_async (SendMessageEvent.queue_identifier (SendSecretReveal.base reveal_secret_event))
    reveal_secret_message.

(** [RaidenEventHandler.handle_send_balanceproof] *)
Definition handle_send_balanceproof (raiden : RaidenService)
    (balance_proof_event : SendBalanceProof.t) : M unit :=
  unlock_message ← message_from_sendevent (Event_SendBalanceProof balance_proof_event);
  unlock_message ← sign raiden unlock_message;
  send_async (SendMessageEvent.queue_identifier (SendBalanceProof.base balance_proof_event))
    unlock_message.

(** [RaidenEventHandler.handle_send_secretrequest] *)
Definition handle_send_secretrequest (raiden : RaidenService)
    (secret_request_event : SendSecretRequest.t) : M unit :=
  handled ← reveal_secret_with_resolver raiden secret_request_event;
  if (handled : bool) then mret ()
  else
    secret_request_message ←
      message_from_sendevent (Event_SendSecretRequest secret_request_event);
    secret_request_message ← sign raiden secret_request_message;
    send_async
      (SendMessageEvent.queue_identifier (SendSecretRequest.base secret_request_event))
      secret_request_message.

(** [RaidenEventHandler.handle_send_refundtransfer] *)
Definition handle_send_refundtransfer (raiden : RaidenService)
    (refund_transfer_event : SendRefundTransfer.t) : M unit :=
  refund_transfer_message ←
    message_from_sendevent (Event_SendRefundTransfer refund_transfer_event);
  refund_transfer_message ← sign raiden refund_transfer_message;
  send_async
    (SendMessageEvent.queue_identifier (SendRefundTransfer.base refund_transfer_event))
    refund_transfer_message.

(** [RaidenEventHandler.handle_send_processed] *)
Definition handle_send_processed (raiden : RaidenService)
    (processed_event : SendProcessed.t) : M unit :=
  processed_message ← message_from_sendevent (Event_SendProcessed processed_event);
  processed_message ← sign raiden processed_message;
  send_async (SendMessageEvent.queue_identifier (SendProcessed.base processed_event))
    processed_message.

(** [RaidenEventHandler.handle_paymentsentsuccess] *)
Definition handle_paymentsentsuccess (raiden : RaidenService)
    (payment_sent_success_event : EventPaymentSentSuccess.t) : M unit :=
  let target := EventPaymentSentSuccess.target payment_sent_success_event in
  let payment_identifier := EventPaymentSentSuccess.identifier payment_sent_success_event in
  payment_status ← pop target payment_identifier;
  call (Call_payment_done_set payment_status
          (Event_EventPaymentSentSuccess payment_sent_success_event)).

(** [RaidenEventHandler.handle_paymentsentfailed]; a [PaymentStatus] is
    a named tuple with fields, so it is true whenever it is not [None]. *)
Definition handle_paymentsentfailed (raiden : RaidenService)
    (payment_sent_failed_event : EventPaymentSentFailed.t) : M unit :=
  let target := EventPaymentSentFailed.target payment_sent_failed_event in
  let payment_identifier := EventPaymentSentFailed.identifier payment_sent_failed_event in
  payment_status ← pop_default target payment_identifier;
  match payment_status with
  | Some payment_status =>
      call (Call_payment_done_set payment_status
              (Event_EventPaymentSentFailed payment_sent_failed_event))
  | None => mret ()
  end.

(** [RaidenEventHandler.handle_unlockfailed] *)
Definition handle_unlockfailed (raiden : RaidenService)
    (unlock_failed_event : EventUnlockFailed.t) : M unit :=
  log_error "UnlockFailed!".

(** [RaidenEventHandler.handle_contract_send_secretreveal] *)
Definition handle_contract_send_secretreveal (raiden : RaidenService)
    (channel_reveal_secret_event : ContractSendSecretReveal.t) : M unit :=
  call (Call_register_secret (ContractSendSecretReveal.secret channel_reveal_secret_event)).

(** [RaidenEventHandler.handle_contract_send_channelclose] *)
Definition handle_contract_send_channelclose (raiden : RaidenService)
    (chain_state : ChainState) (channel_close_event : ContractSendChannelClose.t) : M unit :=
  let balance_proof := ContractSendChannelClose.balance_proof channel_close_event in
  let '(nonce, balance_hash, signature, message_hash) :=
    match balance_proof with
    | Some balance_proof =>
        (nonce balance_proof, balance_hash balance_proof,
         signature balance_proof, message_hash balance_proof)
    | None => (0, EMPTY_BALANCE_HASH, EMPTY_SIGNATURE, EMPTY_MESSAGE_HASH)
    end in
  channel_proxy ←
    payment_channel raiden
      {| chain_identifier := chain_id chain_state;
         token_network_address :=
           ContractSendChannelClose.token_network_address channel_close_event;
         channel_identifier :=
           ContractSendChannelClose.channel_identifier channel_close_event |};
  call (Call_close channel_proxy nonce balance_hash message_hash signature
          (ContractSendChannelClose.triggered_by_block_hash channel_close_event)).

(** [RaidenEventHandler.handle_contract_send_channelupdate] *)
Definition handle_contract_send_channelupdate (raiden : RaidenService)
    (channel_update_event : ContractSendChannelUpdateTransfer.t) : M unit :=
  let balance_proof := ContractSendChannelUpdateTransfer.balance_proof channel_update_event in
  match balance_proof with
  | Some balance_proof =>
      let canonical_identifier := canonical_identifier balance_proof in
      channel ← payment_channel raiden canonical_identifier;
      let non_closing_data :=
        pack_balance_proof_update (nonce balance_proof) (balance_hash balance_proof)
          (message_hash balance_proof) canonical_identifier (signature balance_proof) in
      our_signature ← signer_sign raiden non_closing_data;
      call (Call_update_transfer channel (nonce balance_proof) (balance_hash balance_proof)
              (message_hash balance_proof) (signature balance_proof) our_signature
              (ContractSendChannelUpdateTransfer.triggered_by_block_hash
                 channel_update_event))
  | None => mret ()
  end.

(** [RaidenEventHandler.handle_contract_send_channelunlock].  The
    formatted details of the error messages are left out. *)
Definition handle_contract_send_channelunlock (raiden : RaidenService)
    (chain_state : ChainState) (channel_unlock_event : ContractSendChannelBatchUnlock.t)
    : M unit :=
  wal ← assert_some (wal raiden) "The Raiden Service must be initialize to handle events";
  let canonical_identifier :=
    ContractSendChannelBatchUnlock.canonical_identifier channel_unlock_event in
  let token_network_address := token_network_address canonical_identifier in
  let participant := ContractSendChannelBatchUnlock.sender channel_unlock_event in
  payment_channel ← payment_channel raiden canonical_identifier;
  let channel_state :=
    get_channelstate_by_token_network_and_partner chain_state token_network_address
      participant in
  match channel_state with
  | None => raise (RaidenUnrecoverableError "Failed to find channel state with partner")
  | Some channel_state =>
      let our_address := address (our_state channel_state) in
      let our_locksroot := onchain_locksroot (our_state channel_state) in
      let partner_address := address (partner_state channel_state) in
      let partner_locksroot := onchain_locksroot (partner_state channel_state) in
      let search_events := bool_decide (our_locksroot ≠ EMPTY_HASH) in
      let search_state_changes := bool_decide (partner_locksroot ≠ EMPTY_HASH) in
      if negb search_events && negb search_state_changes then
        log_warning "Onchain unlock already mined"
      else
        (if search_state_changes then
           state_change_record ←
             get_state_change_with_balance_proof_by_locksroot (storage wal)
               canonical_identifier partner_locksroot partner_address;
           match state_change_record with
           | None =>
               raise (RaidenUnrecoverableError
                        "Failed to find state that matches the current channel locksroots.")
           | Some state_change_record =>
               let state_change_identifier :=
                 StateChangeRecord.state_change_identifier state_change_record in
               restored_channel_state ←
                 channel_state_until_state_change raiden canonical_identifier
                   state_change_identifier;
               restored_channel_state ← assert_some restored_channel_state "";
               let gain := get_batch_unlock_gain restored_channel_state in
               let skip_unlock :=
                 bool_decide (address (partner_state restored_channel_state) = participant)
                 && (from_partner_locks gain =? 0) in
               if negb skip_unlock then
                 unlock payment_channel (partner_state restored_channel_state)
                   partner_address our_address
                   (ContractSendChannelBatchUnlock.triggered_by_block_hash
                      channel_unlock_event)
               else mret ()
           end
         else mret ());;
        (if search_events then
           event_record ←
             get_event_with_balance_proof_by_locksroot (storage wal) canonical_identifier
               our_locksroot partner_address;
           match event_record with
           | None =>
               raise (RaidenUnrecoverableError
                        "Failed to find event that match current channel locksroots.")
           | Some event_record =>
               let state_change_identifier :=
                 EventRecord.state_change_identifier event_record in
               restored_channel_state ←
                 channel_state_until_state_change raiden canonical_identifier
                   state_change_identifier;
               restored_channel_state ← assert_some restored_channel_state "";
               let gain := get_batch_unlock_gain restored_channel_state in
               let skip_unlock :=
                 bool_decide (address (our_state restored_channel_state) = participant)
                 && (from_our_locks gain =? 0) in
               if negb skip_unlock then
                 unlock payment_channel (our_state restored_channel_state)
                   our_address partner_address
                   (ContractSendChannelBatchUnlock.triggered_by_block_hash
                      channel_unlock_event)
               else mret ()
           end
         else mret ())
  end.

(** [RaidenEventHandler.handle_contract_send_channelsettle].  The
    dictionary [log_details] only feeds the two critical log calls. *)
Definition handle_contract_send_channelsettle (raiden : RaidenService)
    (channel_settle_event : ContractSendChannelSettle.t) : M unit :=
  wal ← assert_some (wal raiden) "The Raiden Service must be initialize to handle events";
  let canonical_identifier :=
    {| chain_identifier := network_id raiden;
       token_network_address :=
         ContractSendChannelSettle.token_network_address channel_settle_event;
       channel_identifier :=
         ContractSendChannelSettle.channel_identifier channel_settle_event |} in
  let triggered_by_block_hash :=
    ContractSendChannelSettle.triggered_by_block_hash channel_settle_event in
  payment_channel ← payment_channel raiden canonical_identifier;
  let token_network_proxy := payment_channel in
  can_query ← can_query_state_for_block token_network_proxy triggered_by_block_hash;
  triggered_by_block_hash ←
    (if negb can_query then blockhash_from_blocknumber token_network_proxy "latest"
     else mret triggered_by_block_hash);
  participants_details ←
    detail_participants token_network_proxy (participant1 payment_channel)
      (participant2 payment_channel) triggered_by_block_hash
      (ContractSendChannelSettle.channel_identifier channel_settle_event);
  let our_details := our_details participants_details in
  let partner_details := partner_details participants_details in
  '(our_transferred_amount, our_locked_amount, our_locksroot) ←
    (if bool_decide (ParticipantDetails.balance_hash our_details ≠ EMPTY_HASH) then
       event_record ←
         get_event_with_balance_proof_by_balance_hash (storage wal) canonical_identifier
           (ParticipantDetails.balance_hash our_details);
       match event_record with
       | None =>
           log_critical "our balance proof not found";;
           raise (RaidenUnrecoverableError
                    "Our balance proof could not be found in the database")
       | Some event_record =>
           let our_balance_proof := data_balance_proof (EventRecord.data event_record) in
           mret (transferred_amount our_balance_proof,
                 locked_amount our_balance_proof,
                 locksroot our_balance_proof)
       end
     else mret (0, 0, EMPTY_HASH));
  '(partner_transferred_amount, partner_locked_amount, partner_locksroot) ←
    (if bool_decide (ParticipantDetails.balance_hash partner_details ≠ EMPTY_HASH) then
       state_change_record ←
         get_state_change_with_balance_proof_by_balance_hash (storage wal)
           canonical_identifier (ParticipantDetails.balance_hash partner_details)
           (ParticipantDetails.address partner_details);
       match state_change_record with
       | None =>
           log_critical "partner balance proof not found";;
           raise (RaidenUnrecoverableError
                    "Partner balance proof could not be found in the database")
       | Some state_change_record =>
           let partner_balance_proof :=
             data_balance_proof (StateChangeRecord.data state_change_record) in
           mret (transferred_amount partner_balance_proof,
                 locked_amount partner_balance_proof,
                 locksroot partner_balance_proof)
       end
     else mret (0, 0, EMPTY_HASH));
  call (Call_settle payment_channel our_transferred_amount our_locked_amount our_locksroot
          partner_transferred_amount partner_locked_amount partner_locksroot
          triggered_by_block_hash).

(** [assert isinstance(event, cls), MYPY_ANNOTATION] failing. *)
Definition MYPY_ANNOTATION : Exception :=
  AssertionError "This assert is used to tell mypy what is the type of the variable".

(** The [if]/[elif] chain of [RaidenEventHandler.on_raiden_event], in
    order: the condition of each branch and its body.  The last entry is
    the [elif type(event) in UNEVENTFUL_EVENTS: pass] branch. *)
Definition on_raiden_event_branches (raiden : RaidenService) (chain_state : ChainState)
    (event : Event) : list (bool * M unit) :=
  [ (bool_decide (type event = SendLockExpired),
     match event with
     | Event_SendLockExpired event => handle_send_lockexpired raiden event
     | _ => raise MYPY_ANNOTATION
     end);
    (bool_decide (type event = SendLockedTransfer),
     match event with
     | Event_SendLockedTransfer event => handle_send_lockedtransfer raiden event
     | _ => raise MYPY_ANNOTATION
     end);
    (bool_decide (type event = SendSecretReveal),
     match event with
     | Event_SendSecretReveal event => handle_send_secretreveal raiden event
     | _ => raise MYPY_ANNOTATION
     end);
    (bool_decide (type event = SendBalanceProof),
     match event with
     | Event_SendBalanceProof event => handle_send_balanceproof raiden event
     | _ => raise MYPY_ANNOTATION
     end);
    (bool_decide (type event = SendSecretRequest),
     match event with
     | Event_SendSecretRequest event => handle_send_secretrequest raiden event
     | _ => raise MYPY_ANNOTATION
     end);
    (bool_decide (type event = SendRefundTransfer),
     match event with
     | Event_SendRefundTransfer event => handle_send_refundtransfer raiden event
     | _ => raise MYPY_ANNOTATION
     end);
    (bool_decide (type event = SendProcessed),
     match event with
     | Event_SendProcessed event => handle_send_processed raiden event
     | _ => raise MYPY_ANNOTATION
     end);
    (bool_decide (type event = EventPaymentSentSuccess),
     match event with
     | Event_EventPaymentSentSuccess event => handle_paymentsentsuccess raiden event
     | _ => raise MYPY_ANNOTATION
     end);
    (bool_decide (type event = EventPaymentSentFailed),
     match event with
     | Event_EventPaymentSentFailed event => handle_paymentsentfailed raiden event
     | _ => raise MYPY_ANNOTATION
     end);
    (bool_decide (type event = EventUnlockFailed),
     match event with
     | Event_EventUnlockFailed event => handle_unlockfailed raiden event
     | _ => raise MYPY_ANNOTATION
     end);
    (bool_decide (type event = ContractSendSecretReveal),
     match event with
     | Event_ContractSendSecretReveal event => handle_contract_send_secretreveal raiden event
     | _ => raise MYPY_ANNOTATION
     end);
    (bool_decide (type event = ContractSendChannelClose),
     match event with
     | Event_ContractSendChannelClose event =>
         handle_contract_send_channelclose raiden chain_state event
     | _ => raise MYPY_ANNOTATION
     end);
    (bool_decide (type event = ContractSendChannelUpdateTransfer),
     match event with
     | Event_ContractSendChannelUpdateTransfer event =>
         handle_contract_send_channelupdate raiden event
     | _ => raise MYPY_ANNOTATION
     end);
    (bool_decide (type event = ContractSendChannelBatchUnlock),
     match event with
     | Event_ContractSendChannelBatchUnlock event =>
         handle_contract_send_channelunlock raiden chain_state event
     | _ => raise MYPY_ANNOTATION
     end);
    (bool_decide (type event = ContractSendChannelSettle),
     match event with
     | Event_ContractSendChannelSettle event =>
         handle_contract_send_channelsettle raiden event
     | _ => raise MYPY_ANNOTATION
     end);
    (bool_decide (type event ∈ UNEVENTFUL_EVENTS), mret ()) ].

(** An [if]/[elif]/[else] chain runs the body of the first branch whose
    condition holds, and the [else] body when none does. *)
Fixpoint first_branch (branches : list (bool * M unit)) (otherwise : M unit) : M unit :=
  match branches with
  | [] => otherwise
  | (condition, body) :: branches =>
      if condition then body else first_branch branches otherwise
  end.

(** [RaidenEventHandler.on_raiden_event] *)
Definition on_raiden_event (raiden : RaidenService) (chain_state : ChainState)
    (event : Event) : M unit :=
  first_branch (on_raiden_event_branches raiden chain_state event)
    (log_error "Unknown event").

(** ** Vocabulary of the statements *)

Definition is_unlock_call (c : Call) : bool :=
  match c with Call_unlock _ _ _ _ _ => true | _ => false end.

Definition is_settle_call (c : Call) : bool :=
  match c with Call_settle _ _ _ _ _ _ _ _ => true | _ => false end.

(** The operations of the chain proxy (section 6 of the specification). *)
Definition is_chain_proxy_call (c : Call) : bool :=
  match c with
  | Call_close _ _ _ _ _ _ | Call_update_transfer _ _ _ _ _ _ _
  | Call_unlock _ _ _ _ _ | Call_settle _ _ _ _ _ _ _ _
  | Call_can_query_state_for_block _ _ | Call_blockhash_from_blocknumber _ _
  | Call_detail_participants _ _ _ _ _ => true
  | _ => false
  end.

(** The queries of the history log. *)
Definition is_history_lookup (c : Call) : bool :=
  match c with
  | Call_get_state_change_with_balance_proof_by_locksroot _ _ _ _
  | Call_get_event_with_balance_proof_by_locksroot _ _ _ _
  | Call_get_state_change_with_balance_proof_by_balance_hash _ _ _ _
  | Call_get_event_with_balance_proof_by_balance_hash _ _ _
  | Call_channel_state_until_state_change _ _ => true
  | _ => false
  end.

Definition is_state_change_lookup (c : Call) : bool :=
  match c with
  | Call_get_state_change_with_balance_proof_by_locksroot _ _ _ _
  | Call_get_state_change_with_balance_proof_by_balance_hash _ _ _ _ => true
  | _ => false
  end.

Definition is_event_lookup (c : Call) : bool :=
  match c with
  | Call_get_event_with_balance_proof_by_locksroot _ _ _ _
  | Call_get_event_with_balance_proof_by_balance_hash _ _ _ => true
  | _ => false
  end.

Definition is_log (c : Call) : bool :=
  match c with Call_log _ _ => true | _ => false end.

Definition is_send_async (c : Call) : bool :=
  match c with Call_send_async _ _ => true | _ => false end.

Definition is_unrecoverable {A : Type} (r : Result A) : bool :=
  match r with Raise (RaidenUnrecoverableError _) => true | _ => false end.

(** A history lookup that found no record. *)
Definition lookup_found_nothing (c : Call) : bool :=
  match c with
  | Call_get_state_change_with_balance_proof_by_locksroot storage cid locksroot sender =>
      match get_state_change_with_balance_proof_by_locksroot_returns storage cid
              locksroot sender with
      | Some _ => false
      | None => true
      end
  | Call_get_event_with_balance_proof_by_locksroot storage cid locksroot recipient =>
      match get_event_with_balance_proof_by_locksroot_returns storage cid
              locksroot recipient with
      | Some _ => false
      | None => true
      end
  | Call_get_state_change_with_balance_proof_by_balance_hash storage cid balance_hash sender =>
      match get_state_change_with_balance_proof_by_balance_hash_returns storage cid
              balance_hash sender with
      | Some _ => false
      | None => true
      end
  | Call_get_event_with_balance_proof_by_balance_hash storage cid balance_hash =>
      match get_event_with_balance_proof_by_balance_hash_returns storage cid
              balance_hash with
      | Some _ => false
      | None => true
      end
  | _ => false
  end.

(** An unlock call carries a lock list that is neither [None] nor empty. *)
Definition carries_locks (c : Call) : bool :=
  match c with
  | Call_unlock _ _ _ merkle_tree_locks _ => truthy merkle_tree_locks
  | _ => true
  end.

(** The zero-gain skip rule in the words of the specification (section
    4.4, steps 3 and 4): the call for a side is skipped if the gain from
    that side's locks is zero and the reconstructed end-state of that side
    has the address of the live participant. *)
Definition zero_gain_skip (participant : Address)
    (reconstructed_end_state : NettingChannelEndState) (gain : TokenAmount) : bool :=
  bool_decide (gain = 0 ∧ address reconstructed_end_state = participant).

(** The intent union as the specification enumerates it (section 3):
    the message intents, the contract intents and the uneventful outcome
    markers. *)
Definition INTENT_UNION : list EventClass :=
  [ SendLockedTransfer; SendSecretReveal; SendBalanceProof; SendSecretRequest;
    SendRefundTransfer; SendLockExpired; SendProcessed ]
  ++ [ ContractSendChannelClose; ContractSendChannelUpdateTransfer;
       ContractSendChannelBatchUnlock; ContractSendSecretReveal;
       ContractSendChannelSettle ]
  ++ UNEVENTFUL_EVENTS.

(** The classes that the dispatcher names in a branch of its own, in
    the order of the branches. *)
Definition HANDLED_EVENTS : list EventClass :=
  [ SendLockExpired; SendLockedTransfer; SendSecretReveal; SendBalanceProof;
    SendSecretRequest; SendRefundTransfer; SendProcessed; EventPaymentSentSuccess;
    EventPaymentSentFailed; EventUnlockFailed; ContractSendSecretReveal;
    ContractSendChannelClose; ContractSendChannelUpdateTransfer;
    ContractSendChannelBatchUnlock; ContractSendChannelSettle ].

(** The branches of the dispatcher whose condition holds for an event. *)
Definition matching_branches (raiden : RaidenService) (chain_state : ChainState)
    (event : Event) : list (bool * M unit) :=
  filter (fun branch => fst branch = true) (on_raiden_event_branches raiden chain_state event).

(** An outcome with more calls in front. *)
Definition prepend {A : Type} (cs : list Call) (o : Outcome A) : Outcome A :=
  {| result := result o; registry := registry o; calls := cs ++ calls o |}.
End Handler.

(** ** A concrete node

    One instance of the collaborators over a small log, on which the
    handlers can be run: a channel between [us] and [partner], a state change
    of the partner logged at position 5 and an event of ours logged at
    position 4, and the snapshots of the channel at these positions, which
    differ from the live channel; further records serve the corner cases (a
    snapshot without locks at position 6, a lock worth nothing at position
    8). *)
Module Example.
Record SignedMessage := { built_from : Event; signed_by : option Address }.

Definition ZERO32 : bytes := replicate 32 x00.
Definition ZERO65 : bytes := replicate 65 x00.

Definition us : Address := [x0a].
Definition partner : Address := [x0b].
Definition token_network : TokenNetworkAddress := [x70].
Definition partner_root : Locksroot := [xab; xc0].
Definition our_root : Locksroot := [xde; xf0].
Definition stale_root : Locksroot := [x57; xa1].
Definition spent_root : Locksroot := [x5e; x00].
Definition trigger_block : BlockHash := [xb0].
Definition pruned_block : BlockHash := [xff].
Definition latest_block : BlockHash := [x1a].

Definition channel_id : CanonicalIdentifier :=
  {| chain_identifier := 1; token_network_address := token_network; channel_identifier := 7 |}.

Definition lock_at_5 : HashTimeLockState :=
  {| lock_amount := 30; lock_expiration := 100; lock_secrethash := [x05] |}.
Definition lock_at_4 : HashTimeLockState :=
  {| lock_amount := 20; lock_expiration := 90; lock_secrethash := [x04] |}.
Definition live_lock : HashTimeLockState :=
  {| lock_amount := 99; lock_expiration := 200; lock_secrethash := [x09] |}.
Definition worthless_lock : HashTimeLockState :=
  {| lock_amount := 0; lock_expiration := 80; lock_secrethash := [x08] |}.

Definition partner_proof : BalanceProof :=
  {| nonce := 5; transferred_amount := 100; locked_amount := 30; locksroot := partner_root;
     balance_hash := [xb1]; message_hash := [xe1]; signature := [x51];
     canonical_identifier := channel_id |}.
Definition our_proof : BalanceProof :=
  {| nonce := 4; transferred_amount := 40; locked_amount := 20; locksroot := our_root;
     balance_hash := [xb2]; message_hash := [xe2]; signature := [x52];
     canonical_identifier := channel_id |}.
Definition stale_proof : BalanceProof :=
  {| nonce := 6; transferred_amount := 40; locked_amount := 0; locksroot := stale_root;
     balance_hash := [xb3]; message_hash := [xe3]; signature := [x53];
     canonical_identifier := channel_id |}.

Definition spent_proof : BalanceProof :=
  {| nonce := 8; transferred_amount := 130; locked_amount := 0; locksroot := spent_root;
     balance_hash := [xb4]; message_hash := [xe4]; signature := [x54];
     canonical_identifier := channel_id |}.

Definition partner_record : StateChangeRecord.t :=
  {| StateChangeRecord.state_change_identifier := 5;
     StateChangeRecord.data := {| data_balance_proof := partner_proof |} |}.
Definition our_record : EventRecord.t :=
  {| EventRecord.event_identifier := 1;
     EventRecord.state_change_identifier := 4;
     EventRecord.data := {| data_balance_proof := our_proof |} |}.
Definition stale_record : EventRecord.t :=
  {| EventRecord.event_identifier := 2;
     EventRecord.state_change_identifier := 6;
     EventRecord.data := {| data_balance_proof := stale_proof |} |}.

Definition spent_record : StateChangeRecord.t :=
  {| StateChangeRecord.state_change_identifier := 8;
     StateChangeRecord.data := {| data_balance_proof := spent_proof |} |}.

Definition log : SerializedSQLiteStorage :=
  {| logged_state_changes := [partner_record; spent_record];
     logged_events := [our_record; stale_record] |}.

Definition proxy : PaymentChannel :=
  {| proxy_canonical_identifier := channel_id; participant1 := us; participant2 := partner |}.

Definition node : RaidenService :=
  {| raiden_address := us; wal := Some {| storage := log |}; network_id := 1 |}.

Definition node_before_start : RaidenService :=
  {| raiden_address := us; wal := None; network_id := 1 |}.

(** The live channel, with the given locksroots recorded on-chain. *)
Definition live_channel (our_onchain partner_onchain : Locksroot) : NettingChannelState :=
  {| channel_canonical_identifier := channel_id;
     our_state :=
       {| address := us; onchain_locksroot := our_onchain;
          pending_locks := [live_lock]; end_balance_proof := Some stale_proof |};
     partner_state :=
       {| address := partner; onchain_locksroot := partner_onchain;
          pending_locks := [live_lock]; end_balance_proof := Some partner_proof |} |}.

Definition chain (our_onchain partner_onchain : Locksroot) : ChainState :=
  {| chain_id := 1; chain_channels := [live_channel our_onchain partner_onchain] |}.

Definition no_channels : ChainState := {| chain_id := 1; chain_channels := [] |}.

Definition snapshot (our_locks partner_locks : list HashTimeLockState) : NettingChannelState :=
  {| channel_canonical_identifier := channel_id;
     our_state :=
       {| address := us; onchain_locksroot := ZERO32;
          pending_locks := our_locks; end_balance_proof := None |};
     partner_state :=
       {| address := partner; onchain_locksroot := ZERO32;
          pending_locks := partner_locks; end_balance_proof := None |} |}.

Definition snapshots : list (StateChangeID * NettingChannelState) :=
  [ (5, snapshot [] [lock_at_5]); (4, snapshot [lock_at_4] []); (6, snapshot [] []);
    (8, snapshot [] [worthless_lock]) ].

Definition total_amount (locks : list HashTimeLockState) : TokenAmount :=
  foldr (fun lock total => lock_amount lock + total) 0 locks.

Definition unlock_event : ContractSendChannelBatchUnlock.t :=
  {| ContractSendChannelBatchUnlock.canonical_identifier := channel_id;
     ContractSendChannelBatchUnlock.sender := partner;
     ContractSendChannelBatchUnlock.triggered_by_block_hash := trigger_block |}.

Definition settle_event (channel : ChannelID) : ContractSendChannelSettle.t :=
  {| ContractSendChannelSettle.token_network_address := token_network;
     ContractSendChannelSettle.channel_identifier := channel;
     ContractSendChannelSettle.triggered_by_block_hash := trigger_block |}.

Definition details (who : Address) (hash : BalanceHash) : ParticipantDetails.t :=
  {| ParticipantDetails.address := who;
     ParticipantDetails.deposit := 500;
     ParticipantDetails.withdrawn := 0;
     ParticipantDetails.is_closer := bool_decide (who = us);
     ParticipantDetails.balance_hash := hash;
     ParticipantDetails.nonce := 5;
     ParticipantDetails.locksroot := ZERO32;
     ParticipantDetails.locked_amount := 0 |}.

Definition secret_request (amount : TokenAmount) : SendSecretRequest.t :=
  {| SendSecretRequest.base :=
       {| SendMessageEvent.recipient := partner;
          SendMessageEvent.channel_identifier := 7;
          SendMessageEvent.message_identifier := 11 |};
     SendSecretRequest.payment_identifier := 3;
     SendSecretRequest.amount := amount;
     SendSecretRequest.expiration := 100;
     SendSecretRequest.secrethash := [x05] |}.

Definition payment_sent_success : EventPaymentSentSuccess.t :=
  {| EventPaymentSentSuccess.token_network_address := token_network;
     EventPaymentSentSuccess.identifier := 3;
     EventPaymentSentSuccess.target := partner;
     EventPaymentSentSuccess.route := [us; partner] |}.

Definition payment_sent_failed : EventPaymentSentFailed.t :=
  {| EventPaymentSentFailed.token_network_address := token_network;
     EventPaymentSentFailed.identifier := 3;
     EventPaymentSentFailed.target := partner;
     EventPaymentSentFailed.reason := "lock expired" |}.

Definition status : PaymentStatus :=
  {| status_payment_identifier := 3; status_amount := 10; payment_done := 1 |}.

Definition route_failed : EventRouteFailed.t :=
  {| EventRouteFailed.secrethash := [x05];
     EventRouteFailed.route := [us; partner];
     EventRouteFailed.token_network_address := token_network |}.

Definition collaborators : Collaborators :=
  {| Message := SignedMessage;
     EMPTY_HASH := ZERO32;
     EMPTY_BALANCE_HASH := ZERO32;
     EMPTY_MESSAGE_HASH := ZERO32;
     EMPTY_SIGNATURE := ZERO65;
     get_channelstate_by_token_network_and_partner chain_state token_network partner :=
       List.find
         (fun channel =>
            bool_decide
              (token_network_address (channel_canonical_identifier channel) = token_network
               ∧ address (partner_state channel) = partner))
         (chain_channels chain_state);
     get_batch_unlock end_state :=
       match pending_locks end_state with
       | [] => None
       | locks => Some locks
       end;
     get_batch_unlock_gain channel :=
       {| from_our_locks := total_amount (pending_locks (our_state channel));
          from_partner_locks := total_amount (pending_locks (partner_state channel)) |};
     pack_balance_proof_update nonce balance_hash additional_hash canonical_identifier
         partner_signature :=
       balance_hash ++ additional_hash ++ partner_signature;
     message_from_sendevent_returns send_event :=
       {| built_from := send_event; signed_by := None |};
     sign_returns raiden message :=
       {| built_from := built_from message; signed_by := Some (raiden_address raiden) |};
     signer_sign_returns raiden data := raiden_address raiden ++ data;
     reveal_secret_with_resolver_returns raiden secret_request_event :=
       SendSecretRequest.amount secret_request_event =? 0;
     payment_channel_returns raiden canonical_identifier :=
       {| proxy_canonical_identifier := canonical_identifier;
          participant1 := raiden_address raiden;
          participant2 := partner |};
     can_query_state_for_block_returns proxy block := bool_decide (block ≠ pruned_block);
     blockhash_from_blocknumber_returns proxy := latest_block;
     detail_participants_returns proxy participant1 participant2 block channel :=
       {| our_details := details participant1 [xb2];
          partner_details := details participant2 (if channel =? 7 then [xb1] else ZERO32) |};
     get_state_change_with_balance_proof_by_locksroot_returns storage canonical_identifier
         root sender :=
       List.find
         (fun record =>
            bool_decide
              (locksroot (data_balance_proof (StateChangeRecord.data record)) = root))
         (logged_state_changes storage);
     get_event_with_balance_proof_by_locksroot_returns storage canonical_identifier
         root recipient :=
       List.find
         (fun record =>
            bool_decide (locksroot (data_balance_proof (EventRecord.data record)) = root))
         (logged_events storage);
     get_state_change_with_balance_proof_by_balance_hash_returns storage canonical_identifier
         hash sender :=
       List.find
         (fun record =>
            bool_decide
              (balance_hash (data_balance_proof (StateChangeRecord.data record)) = hash))
         (logged_state_changes storage);
     get_event_with_balance_proof_by_balance_hash_returns storage canonical_identifier hash :=
       List.find
         (fun record =>
            bool_decide
              (balance_hash (data_balance_proof (EventRecord.data record)) = hash))
         (logged_events storage);
     channel_state_until_state_change_returns raiden canonical_identifier position :=
       snd <$> List.find (fun entry => fst entry =? position) snapshots |}.
End Example.

(** * Further vocabulary *)

(** The queue on which the message of a message intent is sent: the
    [queue_identifier] of the event, for the seven classes of message
    events. *)
Definition send_queue (event : Event) : option QueueIdentifier :=
  match event with
  | Event_SendLockExpired e =>
      Some (SendMessageEvent.queue_identifier (SendLockExpired.base e))
  | Event_SendLockedTransfer e =>
      Some (SendMessageEvent.queue_identifier (SendLockedTransfer.base e))
  | Event_SendSecretReveal e =>
      Some (SendMessageEvent.queue_identifier (SendSecretReveal.base e))
  | Event_SendBalanceProof e =>
      Some (SendMessageEvent.queue_identifier (SendBalanceProof.base e))
  | Event_SendSecretRequest e =>
      Some (SendMessageEvent.queue_identifier (SendSecretRequest.base e))
  | Event_SendRefundTransfer e =>
      Some (SendMessageEvent.queue_identifier (SendRefundTransfer.base e))
  | Event_SendProcessed e =>
      Some (SendMessageEvent.queue_identifier (SendProcessed.base e))
  | _ => None
  end.

(** The status that a registry records for a target and a payment
    identifier. *)
Definition recorded_status (reg : Registry) (target : TargetAddress)
    (identifier : PaymentID) : option PaymentStatus :=
  reg !! target ≫= (fun statuses => statuses !! identifier).

Section CallKinds.
Context {Message : Type}.

(** The class of contract intent to which an on-chain transaction
    belongs: the transactions are the five calls that write to the chain. *)
Definition transaction_intent (c : Call Message) : option EventClass :=
  match c with
  | Call_register_secret _ => Some ContractSendSecretReveal
  | Call_close _ _ _ _ _ _ => Some ContractSendChannelClose
  | Call_update_transfer _ _ _ _ _ _ _ => Some ContractSendChannelUpdateTransfer
  | Call_unlock _ _ _ _ _ => Some ContractSendChannelBatchUnlock
  | Call_settle _ _ _ _ _ _ _ _ => Some ContractSendChannelSettle
  | _ => None
  end.

Definition is_restore (c : Call Message) : bool :=
  match c with Call_channel_state_until_state_change _ _ => true | _ => false end.

Definition is_payment_done_set (c : Call Message) : bool :=
  match c with Call_payment_done_set _ _ => true | _ => false end.
End CallKinds.

(** The target and the payment identifier of a payment-sent event, under
    which its status is recorded. *)
Definition payment_sent_key (event : Event) : option (TargetAddress * PaymentID) :=
  match event with
  | Event_EventPaymentSentSuccess e =>
      Some (EventPaymentSentSuccess.target e, EventPaymentSentSuccess.identifier e)
  | Event_EventPaymentSentFailed e =>
      Some (EventPaymentSentFailed.target e, EventPaymentSentFailed.identifier e)
  | _ => None
  end.

(** * The feedback decorator ([PFSFeedbackEventHandler]) *)

(** Modelled from the spec: what the decorator reads from the node and is
    declared outside the handler's file.  [raiden.route_to_feeback_token] is
    a dict from the tuple of a route to the feedback token recorded for it (a
    UUID, which is always true as a condition), and
    [raiden.config.get("services")] the configuration of the services, if
    any. *)
Class FeedbackCollaborators := {
  FeedbackToken : Type;
  ServiceConfig : Type;
  route_to_feeback_token : RaidenService -> gmap (list Address) FeedbackToken;
  config_get_services : RaidenService -> option ServiceConfig;
}.

Section FeedbackEffects.
Context {Message Token Config : Type}.

(** The calls of a decorated run: the decorator's own ([log.debug] and
    [post_pfs_feedback], section 6 of the specification: the report is
    best-effort and its failures are not propagated), and those of the
    wrapped handler. *)
Inductive FeedbackCall :=
| Call_log_debug (event : string)
| Call_post_pfs_feedback (token_network_address : TokenNetworkAddress)
    (route : list Address) (token : Token) (succesful : bool)
    (service_config : option Config)
| Call_wrapped (c : Call Message).

Record FeedbackOutcome (A : Type) := {
  feedback_result : Result A;
  feedback_registry : Registry;
  feedback_calls : list FeedbackCall;
}.
Arguments feedback_result {A} _.
Arguments feedback_registry {A} _.
Arguments feedback_calls {A} _.

Definition F (A : Type) : Type := Registry -> FeedbackOutcome A.

#[global] Instance F_ret : MRet F := fun A value reg =>
  {| feedback_result := Ok value; feedback_registry := reg; feedback_calls := [] |}.

#[global] Instance F_bind : MBind F := fun A B f m reg =>
  let first := m reg in
  match feedback_result first with
  | Ok value =>
      let second := f value (feedback_registry first) in
      {| feedback_result := feedback_result second;
         feedback_registry := feedback_registry second;
         feedback_calls := feedback_calls first ++ feedback_calls second |}
  | Raise exc =>
      {| feedback_result := Raise exc; feedback_registry := feedback_registry first;
         feedback_calls := feedback_calls first |}
  end.

Definition feedback_raise {A : Type} (exc : Exception) : F A := fun reg =>
  {| feedback_result := Raise exc; feedback_registry := reg; feedback_calls := [] |}.

Definition feedback_call (c : FeedbackCall) : F unit := fun reg =>
  {| feedback_result := Ok (); feedback_registry := reg; feedback_calls := [c] |}.

(** A computation of the wrapped handler, run inside the decorator. *)
Definition run_wrapped {A : Type} (m : M Message A) : F A := fun reg =>
  let out := m reg in
  {| feedback_result := result out; feedback_registry := registry out;
     feedback_calls := map Call_wrapped (calls out) |}.

Definition is_feedback_post (c : FeedbackCall) : bool :=
  match c with Call_post_pfs_feedback _ _ _ _ _ => true | _ => false end.

Definition is_wrapped_call (c : FeedbackCall) : bool :=
  match c with Call_wrapped _ => true | _ => false end.
End FeedbackEffects.

Arguments FeedbackCall Message Token Config : clear implicits.
Arguments FeedbackOutcome Message Token Config A : clear implicits.
Arguments F Message Token Config A : clear implicits.
Arguments feedback_result {Message Token Config A} _.
Arguments feedback_registry {Message Token Config A} _.
Arguments feedback_calls {Message Token Config A} _.

Module PFSFeedbackEventHandler.
Section Decorator.
Context {collaborators : Collaborators} {feedback : FeedbackCollaborators}.

Local Abbreviation F := (F Message FeedbackToken ServiceConfig).

(** [self.wrapped.on_raiden_event], the handler given to [__init__]. *)
Variable wrapped : RaidenService -> ChainState -> Event -> M Message unit.

Definition log_debug (event : string) : F unit := feedback_call (Call_log_debug event).

Definition post_pfs_feedback (token_network_address : TokenNetworkAddress)
    (route : list Address) (token : FeedbackToken) (succesful : bool)
    (service_config : option ServiceConfig) : F unit :=
  feedback_call
    (Call_post_pfs_feedback token_network_address route token succesful service_config).

(** [PFSFeedbackEventHandler.handle_routefailed] *)
Definition handle_routefailed (raiden : RaidenService)
    (route_failed_event : EventRouteFailed.t) : F unit :=
  let feedback_token :=
    route_to_feeback_token raiden !! EventRouteFailed.route route_failed_event in
  match feedback_token with
  | Some feedback_token =>
      log_debug "Received event for failed route";;
      post_pfs_feedback (EventRouteFailed.token_network_address route_failed_event)
        (EventRouteFailed.route route_failed_event) feedback_token false
        (config_get_services raiden)
  | None => mret ()
  end.

(** [PFSFeedbackEventHandler.handle_paymentsentsuccess] *)
Definition handle_paymentsentsuccess (raiden : RaidenService)
    (payment_sent_success_event : EventPaymentSentSuccess.t) : F unit :=
  let feedback_token :=
    route_to_feeback_token raiden
      !! EventPaymentSentSuccess.route payment_sent_success_event in
  match feedback_token with
  | Some feedback_token =>
      log_debug "Received payment success event";;
      post_pfs_feedback
        (EventPaymentSentSuccess.token_network_address payment_sent_success_event)
        (EventPaymentSentSuccess.route payment_sent_success_event) feedback_token true
        (config_get_services raiden)
  | None => mret ()
  end.

(** [PFSFeedbackEventHandler.on_raiden_event] *)
Definition on_raiden_event (raiden : RaidenService) (chain_state : ChainState)
    (event : Event) : F unit :=
  (if bool_decide (type event = EventRouteFailed) then
     match event with
     | Event_EventRouteFailed event => handle_routefailed raiden event
     | _ => feedback_raise MYPY_ANNOTATION
     end
   else if bool_decide (type event = EventPaymentSentSuccess) then
     match event with
     | Event_EventPaymentSentSuccess event => handle_paymentsentsuccess raiden event
     | _ => feedback_raise MYPY_ANNOTATION
     end
   else mret ());;
  (* Call the decorated event handler *)
  run_wrapped (wrapped raiden chain_state event).
End Decorator.
End PFSFeedbackEventHandler.

(** What the decorator reports about an event: the token network, the route
    and whether the route succeeded. *)
Definition feedback_subject (event : Event)
    : option (TokenNetworkAddress * list Address * bool) :=
  match event with
  | Event_EventRouteFailed e =>
      Some (EventRouteFailed.token_network_address e, EventRouteFailed.route e, false)
  | Event_EventPaymentSentSuccess e =>
      Some (EventPaymentSentSuccess.token_network_address e,
            EventPaymentSentSuccess.route e, true)
  | _ => None
  end.

(** A node on which a feedback token is recorded for the route of the
    example events. *)
Module FeedbackExample.
Definition feedback : FeedbackCollaborators :=
  {| FeedbackToken := Z;
     ServiceConfig := string;
     route_to_feeback_token raiden :=
       if bool_decide (raiden_address raiden = Example.us) then
         {[ [Example.us; Example.partner] := 77 ]}
       else ∅;
     config_get_services _ := Some "pfs" |}.
End FeedbackExample.

(** * Properties *)

Section HandlerProperties.
Context {collaborators : Collaborators}.

Local Abbreviation Call := (Call Message).
Local Abbreviation Outcome := (Outcome Message).
Local Abbreviation M := (M Message).

(** ** Running a computation step by step *)

Lemma run_bind_ret {A B : Type} (v : A) (f : A -> M B) reg :
  ((mret v : M A) ≫= f) reg = f v reg.
Proof.
  cbv [mbind M_bind mret M_ret result registry calls app].
  destruct (f v reg); reflexivity.
Qed.

Lemma run_bind_raise {A B : Type} (e : Exception) (f : A -> M B) reg :
  (raise e ≫= f) reg = {| result := Raise e; registry := reg; calls := [] |}.
Proof. reflexivity. Qed.

Lemma run_bind_call {B : Type} (c : Call) (f : unit -> M B) reg :
  (call c ≫= f) reg = prepend [c] (f () reg).
Proof. reflexivity. Qed.

Lemma run_bind_assoc {A B C : Type} (m : M A) (f : A -> M B) (g : B -> M C) reg :
  ((m ≫= f) ≫= g) reg = (m ≫= (fun x => f x ≫= g)) reg.
Proof.
  cbv [mbind M_bind].
  destruct (m reg) as [[v|e] r c]; cbn [result registry calls]; [|reflexivity].
  destruct (f v r) as [[v'|e'] r' c']; cbn [result registry calls]; [|reflexivity].
  destruct (g v' r') as [res'' r'' c'']; cbn [result registry calls].
  rewrite app_assoc. reflexivity.
Qed.

Lemma run_ret {A : Type} (v : A) reg :
  (mret v : M A) reg = {| result := Ok v; registry := reg; calls := [] |}.
Proof. reflexivity. Qed.

Lemma run_raise {A : Type} (e : Exception) reg :
  (raise e : M A) reg = {| result := Raise e; registry := reg; calls := [] |}.
Proof. reflexivity. Qed.

Lemma run_call (c : Call) reg :
  call c reg = {| result := Ok (); registry := reg; calls := [c] |}.
Proof. reflexivity. Qed.

Ltac unfold_collaborators :=
  unfold log_warning, log_error, log_critical, message_from_sendevent, sign, send_async,
    reveal_secret_with_resolver, signer_sign, payment_channel, can_query_state_for_block,
    blockhash_from_blocknumber, detail_participants,
    get_state_change_with_balance_proof_by_locksroot,
    get_event_with_balance_proof_by_locksroot,
    get_state_change_with_balance_proof_by_balance_hash,
    get_event_with_balance_proof_by_balance_hash,
    channel_state_until_state_change, assert_some, assert, unlock in *.

Ltac step :=
  first [ rewrite run_bind_assoc | rewrite run_bind_call | rewrite run_bind_ret
        | rewrite run_bind_raise | rewrite run_ret | rewrite run_raise | rewrite run_call ];
  cbv beta iota zeta.

Ltac run :=
  unfold_collaborators; cbv beta iota zeta; repeat step;
  cbn [prepend result registry calls app].

(** The run of the secret-request handler. *)
Lemma handle_send_secretrequest_run raiden ev reg :
  handle_send_secretrequest raiden ev reg =
  if reveal_secret_with_resolver_returns raiden ev then
    {| result := Ok (); registry := reg; calls := [Call_reveal_secret_with_resolver ev] |}
  else
    let message := message_from_sendevent_returns (Event_SendSecretRequest ev) in
    {| result := Ok (); registry := reg;
       calls :=
         [ Call_reveal_secret_with_resolver ev;
           Call_message_from_sendevent (Event_SendSecretRequest ev);
           Call_sign message;
           Call_send_async
             (SendMessageEvent.queue_identifier (SendSecretRequest.base ev))
             (sign_returns raiden message) ] |}.
Proof.
  unfold handle_send_secretrequest. run.
  destruct (reveal_secret_with_resolver_returns raiden ev); run; reflexivity.
Qed.

(** C8.  A secret-request intent first consults the resolver.  If the
    resolver reports the secret as handled, that is the only call the
    handler makes, and nothing reaches the transport.  Otherwise the
    handler goes on to build the secret-request message, sign it, and send
    the signed message, once, on the queue of the intent; the resolver call
    comes before the construction and the signature in either case.  The
    dispatcher runs exactly this handler for the intent. *)
Theorem secret_request_consults_resolver_first raiden chain_state ev reg :
  let out := on_raiden_event raiden chain_state (Event_SendSecretRequest ev) reg in
  let message := message_from_sendevent_returns (Event_SendSecretRequest ev) in
  out = handle_send_secretrequest raiden ev reg
  ∧ result out = Ok ()
  ∧ registry out = reg
  ∧ head (calls out) = Some (Call_reveal_secret_with_resolver ev)
  ∧ (if reveal_secret_with_resolver_returns raiden ev
     then calls out = [Call_reveal_secret_with_resolver ev]
     else calls out =
            [ Call_reveal_secret_with_resolver ev;
              Call_message_from_sendevent (Event_SendSecretRequest ev);
              Call_sign message;
              Call_send_async
                (SendMessageEvent.queue_identifier (SendSecretRequest.base ev))
                (sign_returns raiden message) ])
  ∧ List.filter is_send_async (calls out) =
      (if reveal_secret_with_resolver_returns raiden ev then []
       else [ Call_send_async
                (SendMessageEvent.queue_identifier (SendSecretRequest.base ev))
                (sign_returns raiden message) ]).
Proof.
  cbv zeta.
  change (on_raiden_event raiden chain_state (Event_SendSecretRequest ev) reg)
    with (handle_send_secretrequest raiden ev reg).
  rewrite handle_send_secretrequest_run.
  destruct (reveal_secret_with_resolver_returns raiden ev); cbn; auto 10.
Qed.

(** ** The batch-unlock handler *)

(** The helper [unlock] either raises on a missing or empty lock list,
    having called nothing, or makes the one proxy call. *)
Lemma unlock_run proxy end_state sender receiver block reg :
  unlock proxy end_state sender receiver block reg =
  if truthy (get_batch_unlock end_state) then
    {| result := Ok (); registry := reg;
       calls := [Call_unlock proxy sender receiver (get_batch_unlock end_state) block] |}
  else
    {| result := Raise (AssertionError "merkle tree is missing"); registry := reg;
       calls := [] |}.
Proof. run. destruct (truthy (get_batch_unlock end_state)); run; reflexivity. Qed.

(** Case analysis over the paths of the batch-unlock handler, after the
    write-ahead log and the live channel were found. *)
Ltac unlock_paths := repeat (case_match; run); cbn [In List.filter is_unlock_call].

(** C9.  Every unlock call that the batch-unlock handler makes on the
    chain proxy carries a lock list that is present and non-empty.  When
    the lock list derived from the end-state given to the helper [unlock]
    is missing or empty, the helper raises an assertion error, which is not
    the typed unrecoverable error, and calls nothing; and whenever the
    handler ends with that assertion error, the last call it made is the
    reconstruction of the snapshot, so that no proxy call follows it. *)
Theorem unlock_call_carries_locks raiden chain_state ev reg :
  let out := handle_contract_send_channelunlock raiden chain_state ev reg in
  (forall proxy sender receiver locks block,
      In (Call_unlock proxy sender receiver locks block) (calls out) ->
      exists lock more_locks, locks = Some (lock :: more_locks))
  ∧ (forall proxy end_state sender receiver block,
        truthy (get_batch_unlock end_state) = false ->
        unlock proxy end_state sender receiver block reg =
        {| result := Raise (AssertionError "merkle tree is missing"); registry := reg;
           calls := [] |})
  ∧ (result out = Raise (AssertionError "merkle tree is missing") ->
     is_unrecoverable (result out) = false
     ∧ exists canonical_identifier position,
         last (calls out) =
         Some (Call_channel_state_until_state_change canonical_identifier position)).
Proof.
  cbv zeta. split; [|split].
  - intros proxy sender receiver locks block.
    unfold handle_contract_send_channelunlock.
    destruct (wal raiden) as [w|]; run; [|intros []].
    destruct (get_channelstate_by_token_network_and_partner _ _ _) as [live|]; run;
      [|intros [|[]]; discriminate].
    unlock_paths; intros Hin;
      repeat match goal with
        | Hor : _ ∨ _ |- _ => destruct Hor as [Hor|Hor]
        | Heq : _ = Call_unlock _ _ _ _ _ |- _ => try discriminate Heq; injection Heq as <- <- <- <- <-
        | Hf : False |- _ => destruct Hf
        end;
      match goal with
      | Ht : truthy ?locks = true |- exists _ _, ?locks = _ =>
          destruct locks as [[|lock more]|]; try discriminate Ht; eauto
      end.
  - intros proxy end_state sender receiver block Hlocks.
    rewrite unlock_run, Hlocks. reflexivity.
  - unfold handle_contract_send_channelunlock.
    destruct (wal raiden) as [w|]; run; [|discriminate].
    destruct (get_channelstate_by_token_network_and_partner _ _ _) as [live|]; run;
      [|discriminate].
    unlock_paths; intros Hres; try discriminate Hres;
      (split; [reflexivity|]); eexists _, _; reflexivity.
Qed.

(** C1.  Whenever the batch-unlock handler calls unlock on the chain
    proxy, the lock set it passes is the one of an end-state of the
    snapshot reconstructed at the state-change identifier of the history
    record that was found for the on-chain locksroot: the partner's
    end-state of that snapshot for the call from the partner to us, our
    end-state for the call from us to the partner.  The live channel state
    enters the run only through the addresses and the on-chain locksroots
    of its two end-states: two live states that agree on these give the
    same run, whatever else their end-states hold. *)
Theorem unlock_locks_from_reconstructed_snapshot raiden chain_state ev reg :
  let canonical_identifier := ContractSendChannelBatchUnlock.canonical_identifier ev in
  let live_state_of chain_state :=
    get_channelstate_by_token_network_and_partner chain_state
      (token_network_address canonical_identifier)
      (ContractSendChannelBatchUnlock.sender ev) in
  (forall proxy sender receiver locks block,
      In (Call_unlock proxy sender receiver locks block)
        (calls (handle_contract_send_channelunlock raiden chain_state ev reg)) ->
      exists w live restored,
        wal raiden = Some w
        ∧ live_state_of chain_state = Some live
        ∧ ((exists record,
               get_state_change_with_balance_proof_by_locksroot_returns (storage w)
                 canonical_identifier (onchain_locksroot (partner_state live))
                 (address (partner_state live)) = Some record
               ∧ channel_state_until_state_change_returns raiden canonical_identifier
                   (StateChangeRecord.state_change_identifier record) = Some restored
               ∧ locks = get_batch_unlock (partner_state restored)
               ∧ sender = address (partner_state live)
               ∧ receiver = address (our_state live))
           ∨ (exists record,
                 get_event_with_balance_proof_by_locksroot_returns (storage w)
                   canonical_identifier (onchain_locksroot (our_state live))
                   (address (partner_state live)) = Some record
                 ∧ channel_state_until_state_change_returns raiden canonical_identifier
                     (EventRecord.state_change_identifier record) = Some restored
                 ∧ locks = get_batch_unlock (our_state restored)
                 ∧ sender = address (our_state live)
                 ∧ receiver = address (partner_state live))))
  ∧ (forall chain_state' live live',
        live_state_of chain_state = Some live ->
        live_state_of chain_state' = Some live' ->
        address (our_state live') = address (our_state live) ->
        address (partner_state live') = address (partner_state live) ->
        onchain_locksroot (our_state live') = onchain_locksroot (our_state live) ->
        onchain_locksroot (partner_state live') = onchain_locksroot (partner_state live) ->
        handle_contract_send_channelunlock raiden chain_state' ev reg =
        handle_contract_send_channelunlock raiden chain_state ev reg).
Proof.
  cbv zeta. split.
  - intros proxy sender receiver locks block.
    unfold handle_contract_send_channelunlock.
    destruct (wal raiden) as [w|]; run; [|intros []].
    destruct (get_channelstate_by_token_network_and_partner _ _ _) as [live|] eqn:Hlive;
      run; [|intros [|[]]; discriminate].
    unlock_paths; intros Hin;
      repeat match goal with
        | Hor : _ ∨ _ |- _ => destruct Hor as [Hor|Hor]
        | Heq : _ = Call_unlock _ _ _ _ _ |- _ =>
            try discriminate Heq; injection Heq as <- <- <- <- <-
        | Hf : False |- _ => destruct Hf
        end;
      eexists w, live, _; (split; [reflexivity|]); (split; [reflexivity|]);
      solve [ left; eauto 10 | right; eauto 10 ].
  - intros chain_state' live live' Hlive Hlive' Hao Hap Hlo Hlp.
    unfold handle_contract_send_channelunlock.
    destruct (wal raiden) as [w|]; run; [|reflexivity].
    rewrite Hlive, Hlive', Hao, Hap, Hlo, Hlp. reflexivity.
Qed.

(** C4.  With the write-ahead log initialised and the live channel
    state found: if our on-chain locksroot is empty, the handler makes no
    lookup among the logged events, which is how our side starts, and at
    most one unlock call, which is the partner's side's (from the partner
    to us); symmetrically if the partner's on-chain locksroot is empty.  If
    both are empty, the handler obtains the proxy, logs one warning and
    returns: no operation of the chain proxy, no history lookup, no error,
    and the registry as it was. *)
Theorem unlock_skips_sides_already_cleared raiden chain_state ev reg w live :
  wal raiden = Some w ->
  get_channelstate_by_token_network_and_partner chain_state
    (token_network_address (ContractSendChannelBatchUnlock.canonical_identifier ev))
    (ContractSendChannelBatchUnlock.sender ev) = Some live ->
  let out := handle_contract_send_channelunlock raiden chain_state ev reg in
  (onchain_locksroot (our_state live) = EMPTY_HASH ->
   List.filter is_event_lookup (calls out) = []
   ∧ (length (List.filter is_unlock_call (calls out)) <= 1)%nat
   ∧ forall proxy sender receiver locks block,
       In (Call_unlock proxy sender receiver locks block) (calls out) ->
       sender = address (partner_state live) ∧ receiver = address (our_state live))
  ∧ (onchain_locksroot (partner_state live) = EMPTY_HASH ->
     List.filter is_state_change_lookup (calls out) = []
     ∧ (length (List.filter is_unlock_call (calls out)) <= 1)%nat
     ∧ forall proxy sender receiver locks block,
         In (Call_unlock proxy sender receiver locks block) (calls out) ->
         sender = address (our_state live) ∧ receiver = address (partner_state live))
  ∧ (onchain_locksroot (our_state live) = EMPTY_HASH ->
     onchain_locksroot (partner_state live) = EMPTY_HASH ->
     out =
       {| result := Ok (); registry := reg;
          calls :=
            [ Call_payment_channel (ContractSendChannelBatchUnlock.canonical_identifier ev);
              Call_log WARNING "Onchain unlock already mined" ] |}
     ∧ List.filter is_log (calls out) = [Call_log WARNING "Onchain unlock already mined"]
     ∧ List.filter is_chain_proxy_call (calls out) = []
     ∧ List.filter is_history_lookup (calls out) = []).
Proof.
  intros Hwal Hlive. cbv zeta.
  unfold handle_contract_send_channelunlock. rewrite Hwal. run. rewrite Hlive.
  cbv beta iota zeta.
  assert (Hempty : bool_decide (EMPTY_HASH ≠ EMPTY_HASH) = false)
    by (apply bool_decide_false; intros Hne; apply Hne; reflexivity).
  split; [|split].
  - intros ->. rewrite Hempty.
    unlock_paths; cbn [In List.filter is_event_lookup is_unlock_call length];
      (split; [reflexivity|]); (split; [lia|]);
      intros proxy sender receiver locks block Hin;
      repeat match goal with
        | Hor : _ ∨ _ |- _ => destruct Hor as [Hor|Hor]
        | Heq : _ = Call_unlock _ _ _ _ _ |- _ =>
            try discriminate Heq; injection Heq as <- <- <- <- <-
        | Hf : False |- _ => destruct Hf
        end; auto.
  - intros ->. rewrite Hempty.
    unlock_paths; cbn [In List.filter is_state_change_lookup is_unlock_call length];
      (split; [reflexivity|]); (split; [lia|]);
      intros proxy sender receiver locks block Hin;
      repeat match goal with
        | Hor : _ ∨ _ |- _ => destruct Hor as [Hor|Hor]
        | Heq : _ = Call_unlock _ _ _ _ _ |- _ =>
            try discriminate Heq; injection Heq as <- <- <- <- <-
        | Hf : False |- _ => destruct Hf
        end; auto.
  - intros -> ->. rewrite Hempty. run. auto.
Qed.

(** C5.  With the write-ahead log initialised: if the live channel state
    is absent, the handler raises the unrecoverable error having only
    obtained the proxy; if the partner's on-chain locksroot is not empty
    and the log holds no matching state change, it raises the unrecoverable
    error right after that lookup, so that no unlock call is made at all.
    In general, a history lookup of the handler that finds no record is the
    last call the handler makes, the run ends with the unrecoverable error,
    and the registry is as it was.  If our on-chain locksroot is not empty
    and the log holds no matching event, the run does not complete, and an
    unlock call made in it is the partner's side's (from the partner to
    us), never ours. *)
Theorem unlock_raises_without_state_or_record raiden chain_state ev reg w :
  wal raiden = Some w ->
  let canonical_identifier := ContractSendChannelBatchUnlock.canonical_identifier ev in
  let live_state :=
    get_channelstate_by_token_network_and_partner chain_state
      (token_network_address canonical_identifier)
      (ContractSendChannelBatchUnlock.sender ev) in
  let out := handle_contract_send_channelunlock raiden chain_state ev reg in
  (live_state = None ->
   out =
     {| result := Raise (RaidenUnrecoverableError "Failed to find channel state with partner");
        registry := reg;
        calls := [Call_payment_channel canonical_identifier] |})
  ∧ (forall live,
        live_state = Some live ->
        onchain_locksroot (partner_state live) ≠ EMPTY_HASH ->
        get_state_change_with_balance_proof_by_locksroot_returns (storage w)
          canonical_identifier (onchain_locksroot (partner_state live))
          (address (partner_state live)) = None ->
        out =
          {| result :=
               Raise (RaidenUnrecoverableError
                        "Failed to find state that matches the current channel locksroots.");
             registry := reg;
             calls :=
               [ Call_payment_channel canonical_identifier;
                 Call_get_state_change_with_balance_proof_by_locksroot (storage w)
                   canonical_identifier (onchain_locksroot (partner_state live))
                   (address (partner_state live)) ] |})
  ∧ (forall c,
        In c (calls out) ->
        lookup_found_nothing c = true ->
        is_unrecoverable (result out) = true
        ∧ last (calls out) = Some c
        ∧ registry out = reg)
  ∧ (forall live,
        live_state = Some live ->
        onchain_locksroot (our_state live) ≠ EMPTY_HASH ->
        get_event_with_balance_proof_by_locksroot_returns (storage w)
          canonical_identifier (onchain_locksroot (our_state live))
          (address (partner_state live)) = None ->
        result out ≠ Ok ()
        ∧ forall proxy sender receiver locks block,
            In (Call_unlock proxy sender receiver locks block) (calls out) ->
            sender = address (partner_state live) ∧ receiver = address (our_state live)).
Proof.
  intros Hwal. cbv zeta.
  unfold handle_contract_send_channelunlock. rewrite Hwal. run.
  split; [|split; [|split]].
  - intros ->. run. reflexivity.
  - intros live -> Hroot Hnone. cbv beta iota zeta.
    rewrite (bool_decide_true _ Hroot), andb_false_r. run.
    rewrite Hnone. run. reflexivity.
  - destruct (get_channelstate_by_token_network_and_partner _ _ _) as [live|]; run;
      [|intros c [<-|[]]; discriminate].
    unlock_paths; intros c Hin Hnothing;
      repeat match goal with
        | Hor : _ ∨ _ |- _ => destruct Hor as [Hor|Hor]
        | Hf : False |- _ => destruct Hf
        end; subst c; cbn [lookup_found_nothing] in Hnothing;
      repeat match goal with
        | Hret : ?lookup = _, Hn : context [?lookup] |- _ => rewrite Hret in Hn
        end;
      try discriminate Hnothing; auto.
  - intros live -> Hroot Hnone. cbv beta iota zeta.
    rewrite (bool_decide_true _ Hroot). cbn [negb andb].
    unlock_paths; try discriminate Hnone;
      (split; [discriminate|]);
      intros proxy sender receiver locks block Hin;
      repeat match goal with
        | Hor : _ ∨ _ |- _ => destruct Hor as [Hor|Hor]
        | Heq : _ = Call_unlock _ _ _ _ _ |- _ =>
            try discriminate Heq; injection Heq as <- <- <- <- <-
        | Hf : False |- _ => destruct Hf
        end; auto.
Qed.

(** The skip rule of the specification is the test the handler computes. *)
Lemma zero_gain_skip_eq participant end_state gain :
  zero_gain_skip participant end_state gain =
  bool_decide (address end_state = participant) && (gain =? 0).
Proof.
  unfold zero_gain_skip.
  destruct (Z.eqb_spec gain 0) as [->|Hgain];
    repeat case_bool_decide; try reflexivity; intuition congruence.
Qed.

(** C3.  The zero-gain skip check is the same rule on both sides.  Let
    the write-ahead log be initialised, the live channel state be found,
    and for each side whose on-chain locksroot is not empty let the history
    record be found and the snapshot at its state change be reconstructed.
    The rule skips a side when the gain from that side's locks in its
    snapshot is zero and the address of that side's reconstructed end-state
    is the live participant (the sender field of the intent).  Then the
    unlock calls of a run that completes are exactly: the call from the
    partner to us with the locks of the partner's reconstructed end-state,
    if the partner's side is searched and not skipped, followed by the call
    from us to the partner with the locks of our reconstructed end-state,
    if our side is searched and not skipped.  The run completes exactly
    when each of these calls carries a non-empty lock list, and otherwise
    ends in the assertion error of the helper, having made the calls up to
    there. *)
Theorem zero_gain_skip_is_symmetric raiden chain_state ev reg w live
    record_p restored_p record_o restored_o :
  let canonical_identifier := ContractSendChannelBatchUnlock.canonical_identifier ev in
  let participant := ContractSendChannelBatchUnlock.sender ev in
  let block := ContractSendChannelBatchUnlock.triggered_by_block_hash ev in
  let proxy := payment_channel_returns raiden canonical_identifier in
  let our_address := address (our_state live) in
  let partner_address := address (partner_state live) in
  let our_locksroot := onchain_locksroot (our_state live) in
  let partner_locksroot := onchain_locksroot (partner_state live) in
  wal raiden = Some w ->
  get_channelstate_by_token_network_and_partner chain_state
    (token_network_address canonical_identifier) participant = Some live ->
  (partner_locksroot ≠ EMPTY_HASH ->
   get_state_change_with_balance_proof_by_locksroot_returns (storage w)
     canonical_identifier partner_locksroot partner_address = Some record_p
   ∧ channel_state_until_state_change_returns raiden canonical_identifier
       (StateChangeRecord.state_change_identifier record_p) = Some restored_p) ->
  (our_locksroot ≠ EMPTY_HASH ->
   get_event_with_balance_proof_by_locksroot_returns (storage w)
     canonical_identifier our_locksroot partner_address = Some record_o
   ∧ channel_state_until_state_change_returns raiden canonical_identifier
       (EventRecord.state_change_identifier record_o) = Some restored_o) ->
  let skip_partner_side :=
    zero_gain_skip participant (partner_state restored_p)
      (from_partner_locks (get_batch_unlock_gain restored_p)) in
  let skip_our_side :=
    zero_gain_skip participant (our_state restored_o)
      (from_our_locks (get_batch_unlock_gain restored_o)) in
  let partner_side_calls :=
    if bool_decide (partner_locksroot ≠ EMPTY_HASH) && negb skip_partner_side
    then [Call_unlock proxy partner_address our_address
            (get_batch_unlock (partner_state restored_p)) block]
    else [] in
  let our_side_calls :=
    if bool_decide (our_locksroot ≠ EMPTY_HASH) && negb skip_our_side
    then [Call_unlock proxy our_address partner_address
            (get_batch_unlock (our_state restored_o)) block]
    else [] in
  let out := handle_contract_send_channelunlock raiden chain_state ev reg in
  (result out = Ok () ->
   List.filter is_unlock_call (calls out) = partner_side_calls ++ our_side_calls)
  ∧ (result out = Ok () <->
     forallb carries_locks (partner_side_calls ++ our_side_calls) = true)
  ∧ (result out = Ok () ∨ result out = Raise (AssertionError "merkle tree is missing"))
  ∧ List.filter is_unlock_call (calls out) `prefix_of` partner_side_calls ++ our_side_calls.
Proof.
  cbv zeta. intros Hwal Hlive Hpartner Hours.
  rewrite !zero_gain_skip_eq.
  unfold handle_contract_send_channelunlock. rewrite Hwal. run. rewrite Hlive.
  cbv beta iota zeta.
  destruct (bool_decide (onchain_locksroot (partner_state live) ≠ EMPTY_HASH)) eqn:Ep;
    [apply bool_decide_eq_true in Ep; destruct (Hpartner Ep) as [Hp1 Hp2]|];
    (destruct (bool_decide (onchain_locksroot (our_state live) ≠ EMPTY_HASH)) eqn:Eo;
     [apply bool_decide_eq_true in Eo; destruct (Hours Eo) as [Ho1 Ho2]|]);
    clear Hpartner Hours; cbn [negb andb]; run;
    repeat (first [ rewrite Hp1 | rewrite Hp2 | rewrite Ho1 | rewrite Ho2
                  | match goal with
                    | |- context [negb ?skip] => destruct skip eqn:?
                    | |- context [truthy ?locks] => destruct (truthy locks) eqn:?
                    end ];
            cbn [negb andb]; run);
    cbn [In List.filter is_unlock_call app forallb carries_locks andb];
    repeat match goal with
      | Ht : truthy _ = _ |- _ => rewrite Ht
      end;
    cbn [andb];
    try congruence;
    (split; [try discriminate; reflexivity|]);
    (split; [split; intros; first [reflexivity | discriminate]|]);
    (split; [auto|]);
    first [ reflexivity | apply prefix_nil
          | apply prefix_cons_alt; [reflexivity|apply prefix_nil] ].
Qed.

(** ** The settle handler *)

(** C2.  With the write-ahead log initialised, let the participant
    details be those the proxy reports at the trigger block, or at the
    latest block when the trigger block cannot be queried.  In every settle
    call of the handler, for each side: if the balance hash recorded
    on-chain is not empty, the transferred amount, locked amount and
    locksroot are those of the balance proof of the history record found
    by that balance hash (the logged event for our side, the logged state
    change of the partner for the partner's side); if it is empty, they are
    0, 0 and the empty hash.  A side whose balance hash is empty causes no
    lookup in the log.  If the record is found for each side whose balance
    hash is not empty, the handler completes and makes exactly one settle
    call, at that block. *)
Theorem settle_amounts_from_history_records raiden ev reg w :
  wal raiden = Some w ->
  let canonical_identifier :=
    {| chain_identifier := network_id raiden;
       token_network_address := ContractSendChannelSettle.token_network_address ev;
       channel_identifier := ContractSendChannelSettle.channel_identifier ev |} in
  let trigger := ContractSendChannelSettle.triggered_by_block_hash ev in
  let proxy := payment_channel_returns raiden canonical_identifier in
  let block :=
    if can_query_state_for_block_returns proxy trigger then trigger
    else blockhash_from_blocknumber_returns proxy in
  let details :=
    detail_participants_returns proxy (participant1 proxy) (participant2 proxy) block
      (ContractSendChannelSettle.channel_identifier ev) in
  let our_hash := ParticipantDetails.balance_hash (our_details details) in
  let partner_hash := ParticipantDetails.balance_hash (partner_details details) in
  let our_record :=
    get_event_with_balance_proof_by_balance_hash_returns (storage w) canonical_identifier
      our_hash in
  let partner_record :=
    get_state_change_with_balance_proof_by_balance_hash_returns (storage w)
      canonical_identifier partner_hash
      (ParticipantDetails.address (partner_details details)) in
  let out := handle_contract_send_channelsettle raiden ev reg in
  (forall p ours_transferred ours_locked ours_locksroot
          partners_transferred partners_locked partners_locksroot at_block,
      In (Call_settle p ours_transferred ours_locked ours_locksroot
            partners_transferred partners_locked partners_locksroot at_block) (calls out) ->
      (p = proxy ∧ at_block = block)
      ∧ (our_hash ≠ EMPTY_HASH ->
         exists record,
           our_record = Some record
           ∧ ours_transferred =
               transferred_amount (data_balance_proof (EventRecord.data record))
           ∧ ours_locked = locked_amount (data_balance_proof (EventRecord.data record))
           ∧ ours_locksroot = locksroot (data_balance_proof (EventRecord.data record)))
      ∧ (our_hash = EMPTY_HASH ->
         ours_transferred = 0 ∧ ours_locked = 0 ∧ ours_locksroot = EMPTY_HASH)
      ∧ (partner_hash ≠ EMPTY_HASH ->
         exists record,
           partner_record = Some record
           ∧ partners_transferred =
               transferred_amount (data_balance_proof (StateChangeRecord.data record))
           ∧ partners_locked =
               locked_amount (data_balance_proof (StateChangeRecord.data record))
           ∧ partners_locksroot =
               locksroot (data_balance_proof (StateChangeRecord.data record)))
      ∧ (partner_hash = EMPTY_HASH ->
         partners_transferred = 0 ∧ partners_locked = 0
         ∧ partners_locksroot = EMPTY_HASH))
  ∧ (our_hash = EMPTY_HASH -> List.filter is_event_lookup (calls out) = [])
  ∧ (partner_hash = EMPTY_HASH -> List.filter is_state_change_lookup (calls out) = [])
  ∧ ((our_hash ≠ EMPTY_HASH -> is_Some our_record) ->
     (partner_hash ≠ EMPTY_HASH -> is_Some partner_record) ->
     result out = Ok ()
     ∧ registry out = reg
     ∧ length (List.filter is_settle_call (calls out)) = 1%nat).
Proof.
  intros Hwal. cbv zeta.
  unfold handle_contract_send_channelsettle. rewrite Hwal. run.
  destruct (can_query_state_for_block_returns _ _); cbn [negb]; run.
  all: repeat (case_match; run).
  all: cbn [In List.filter is_event_lookup is_state_change_lookup is_settle_call length].
  all: repeat match goal with
         | Hd : bool_decide _ = true |- _ => apply bool_decide_eq_true in Hd
         | Hd : bool_decide _ = false |- _ => apply bool_decide_eq_false in Hd
         end.
  all: split; [|split; [|split]].
  all: try (intros p ot ol olr pt pl plr blk Hin;
            repeat match goal with
              | Hor : _ ∨ _ |- _ => destruct Hor as [Hor|Hor]
              | Heq : _ = Call_settle _ _ _ _ _ _ _ _ |- _ =>
                  try discriminate Heq; injection Heq as <- <- <- <- <- <- <- <-
              | Hf : False |- _ => destruct Hf
              end).
  all: try solve [ repeat split; intros; try contradiction; try congruence; eauto 10 ].
  all: try solve [ intros Hours Hpartner; exfalso;
                   first [ destruct Hours as [? ?]; [assumption|discriminate]
                         | destruct Hpartner as [? ?]; [assumption|discriminate] ] ].
Qed.

(** ** The dispatcher *)

(** An [if]/[elif]/[else] chain runs the first of the branches whose
    condition holds. *)
Lemma first_branch_matching (branches : list (bool * M unit)) (otherwise : M unit) :
  first_branch branches otherwise =
  match filter (fun branch => fst branch = true) branches with
  | [] => otherwise
  | (_, body) :: _ => body
  end.
Proof.
  induction branches as [|[condition body] branches IH]; [reflexivity|].
  destruct condition; cbn [first_branch].
  - rewrite filter_cons_True by reflexivity. reflexivity.
  - rewrite filter_cons_False by discriminate. exact IH.
Qed.

Ltac refute_by_computation :=
  lazymatch goal with
  | |- ?P -> False => apply (bool_decide_eq_false_1 P); vm_compute; reflexivity
  | |- ¬ ?P => apply (bool_decide_eq_false_1 P); vm_compute; reflexivity
  end.

(** C7.  For every event at most one branch of the dispatcher has a true
    condition, and the dispatcher runs the body of that branch: no variant
    matches two handlers.  Every member of the intent union (the message
    intents, the contract intents, the uneventful markers) matches exactly
    one branch, and a class of [UNEVENTFUL_EVENTS] does nothing at all.  An
    event matches no branch exactly when its class is neither one of those
    the dispatcher names nor one of [UNEVENTFUL_EVENTS], and no class is
    named twice; dispatching such an event logs one error, changes nothing
    and raises nothing. *)
Theorem dispatch_matches_one_branch raiden chain_state ev reg :
  let matching := matching_branches raiden chain_state ev in
  (length matching <= 1)%nat
  ∧ (forall body, matching = [(true, body)] ->
     on_raiden_event raiden chain_state ev = body)
  ∧ (type ev ∈ INTENT_UNION -> length matching = 1%nat)
  ∧ (type ev ∈ UNEVENTFUL_EVENTS ->
     on_raiden_event raiden chain_state ev reg =
     {| result := Ok (); registry := reg; calls := [] |})
  ∧ NoDup (HANDLED_EVENTS ++ UNEVENTFUL_EVENTS)
  ∧ (matching = [] <-> type ev ∉ HANDLED_EVENTS ++ UNEVENTFUL_EVENTS)
  ∧ (matching = [] ->
     on_raiden_event raiden chain_state ev reg =
     {| result := Ok (); registry := reg; calls := [Call_log ERROR "Unknown event"] |}).
Proof.
  cbv zeta. unfold on_raiden_event, matching_branches.
  rewrite first_branch_matching.
  split; [|split; [|split; [|split; [|split; [|split]]]]].
  - destruct ev; vm_compute; lia.
  - intros body ->. reflexivity.
  - destruct ev;
      first [ intros _; reflexivity | intros Hin; exfalso; revert Hin; refute_by_computation ].
  - destruct ev;
      first [ intros _; reflexivity | intros Hin; exfalso; revert Hin; refute_by_computation ].
  - apply (bool_decide_unpack _). vm_compute. exact I.
  - destruct ev;
      (split;
       [ intros Hnone; first [ discriminate Hnone | refute_by_computation ]
       | intros Hnot; first [ reflexivity
                            | exfalso; apply Hnot; apply (bool_decide_unpack _);
                              vm_compute; exact I ] ]).
  - intros ->. reflexivity.
Qed.

(** ** The payment-status registry *)

(** The status recorded for a target and a payment identifier. *)
Lemma pop_run (target : TargetAddress) (key : PaymentID) (reg : Registry) :
  pop target key reg =
  match reg !! target with
  | Some statuses =>
      match statuses !! key with
      | Some payment_status =>
          {| result := Ok payment_status;
             registry := <[target := delete key statuses]> reg;
             calls := [] |}
      | None => {| result := Raise (KeyError key); registry := reg; calls := [] |}
      end
  | None =>
      {| result := Raise (KeyError key); registry := <[target := ∅]> reg; calls := [] |}
  end.
Proof.
  unfold pop, statuses_of_target, remove_status.
  cbv [mbind M_bind mret M_ret raise result registry calls app].
  destruct (reg !! target) as [statuses|]; cbv beta iota zeta.
  - destruct (statuses !! key); reflexivity.
  - rewrite lookup_empty. reflexivity.
Qed.

Lemma pop_default_run (target : TargetAddress) (key : PaymentID) (reg : Registry) :
  pop_default target key reg =
  match reg !! target with
  | Some statuses =>
      match statuses !! key with
      | Some payment_status =>
          {| result := Ok (Some payment_status);
             registry := <[target := delete key statuses]> reg;
             calls := [] |}
      | None => {| result := Ok None; registry := reg; calls := [] |}
      end
  | None => {| result := Ok None; registry := <[target := ∅]> reg; calls := [] |}
  end.
Proof.
  unfold pop_default, statuses_of_target, remove_status.
  cbv [mbind M_bind mret M_ret raise result registry calls app].
  destruct (reg !! target) as [statuses|]; cbv beta iota zeta.
  - destruct (statuses !! key); reflexivity.
  - rewrite lookup_empty. reflexivity.
Qed.

Lemma handle_paymentsentsuccess_result (raiden : RaidenService)
    (e : EventPaymentSentSuccess.t) (reg : Registry) :
  result (handle_paymentsentsuccess raiden e reg) =
  match reg !! EventPaymentSentSuccess.target e
        ≫= (fun statuses => statuses !! EventPaymentSentSuccess.identifier e) with
  | Some _ => Ok ()
  | None => Raise (KeyError (EventPaymentSentSuccess.identifier e))
  end.
Proof.
  unfold handle_paymentsentsuccess. cbv [mbind M_bind]. rewrite pop_run.
  destruct (reg !! EventPaymentSentSuccess.target e) as [statuses|]; cbn; [|reflexivity].
  destruct (statuses !! EventPaymentSentSuccess.identifier e); reflexivity.
Qed.

Lemma handle_paymentsentfailed_result (raiden : RaidenService)
    (e : EventPaymentSentFailed.t) (reg : Registry) :
  result (handle_paymentsentfailed raiden e reg) = Ok ().
Proof.
  unfold handle_paymentsentfailed. cbv [mbind M_bind]. rewrite pop_default_run.
  destruct (reg !! EventPaymentSentFailed.target e) as [statuses|]; cbn; [|reflexivity].
  destruct (statuses !! EventPaymentSentFailed.identifier e); reflexivity.
Qed.

(** The chain of type tests amounts to a pattern match on the event. *)
Lemma on_raiden_event_dispatch raiden chain_state ev :
  on_raiden_event raiden chain_state ev =
  match ev with
  | Event_SendLockExpired e => handle_send_lockexpired raiden e
  | Event_SendLockedTransfer e => handle_send_lockedtransfer raiden e
  | Event_SendSecretReveal e => handle_send_secretreveal raiden e
  | Event_SendBalanceProof e => handle_send_balanceproof raiden e
  | Event_SendSecretRequest e => handle_send_secretrequest raiden e
  | Event_SendRefundTransfer e => handle_send_refundtransfer raiden e
  | Event_SendProcessed e => handle_send_processed raiden e
  | Event_EventPaymentSentSuccess e => handle_paymentsentsuccess raiden e
  | Event_EventPaymentSentFailed e => handle_paymentsentfailed raiden e
  | Event_EventUnlockFailed e => handle_unlockfailed raiden e
  | Event_ContractSendSecretReveal e => handle_contract_send_secretreveal raiden e
  | Event_ContractSendChannelClose e => handle_contract_send_channelclose raiden chain_state e
  | Event_ContractSendChannelUpdateTransfer e => handle_contract_send_channelupdate raiden e
  | Event_ContractSendChannelBatchUnlock e =>
      handle_contract_send_channelunlock raiden chain_state e
  | Event_ContractSendChannelSettle e => handle_contract_send_channelsettle raiden e
  | Event_EventPaymentReceivedSuccess | Event_EventUnlockSuccess _
  | Event_EventUnlockClaimFailed _ | Event_EventUnlockClaimSuccess _
  | Event_EventInvalidReceivedLockedTransfer | Event_EventInvalidReceivedLockExpired
  | Event_EventInvalidReceivedTransferRefund | Event_EventInvalidReceivedUnlock => mret ()
  | Event_EventUnexpectedSecretReveal _ | Event_EventRouteFailed _ | OtherEvent _ =>
      log_error "Unknown event"
  end.
Proof. destruct ev; reflexivity. Qed.

(** A lookup among the calls found nothing. *)
Ltac failed_lookup :=
  match goal with
  | Hnone : get_state_change_with_balance_proof_by_locksroot_returns ?s ?i ?l ?a = None
    |- _ => exists (Call_get_state_change_with_balance_proof_by_locksroot s i l a)
  | Hnone : get_event_with_balance_proof_by_locksroot_returns ?s ?i ?l ?a = None
    |- _ => exists (Call_get_event_with_balance_proof_by_locksroot s i l a)
  | Hnone : get_state_change_with_balance_proof_by_balance_hash_returns ?s ?i ?h ?a = None
    |- _ => exists (Call_get_state_change_with_balance_proof_by_balance_hash s i h a)
  | Hnone : get_event_with_balance_proof_by_balance_hash_returns ?s ?i ?h = None
    |- _ => exists (Call_get_event_with_balance_proof_by_balance_hash s i h)
  end;
  split; [cbn [In]; tauto|];
  cbn [lookup_found_nothing];
  match goal with
  | Hnone : ?lookup = None |- context [?lookup] => rewrite Hnone; reflexivity
  end.

(** C6, as amended.  An exception escapes the dispatcher only in these
    cases: the intent is a batch-unlock or settle intent and the exception
    is either the assertion error of one of the three assertions of these
    handlers (write-ahead log initialised, snapshot reconstructed, lock list
    not empty) or the unrecoverable error, raised because the live channel
    state is missing or because a history lookup of the run found no
    record; or the intent is an [EventPaymentSentSuccess] for whose target
    and payment identifier no status is recorded, and the exception is the
    [KeyError] of that identifier.  Handling an [EventPaymentSentFailed]
    intent completes for every state of the registry; handling an
    [EventPaymentSentSuccess] intent completes exactly when a status is
    recorded for its target and payment identifier. *)
Theorem dispatch_raises_only_in_listed_cases (raiden : RaidenService)
    (chain_state : ChainState) (ev : Event) (reg : Registry) :
  let out := on_raiden_event raiden chain_state ev reg in
  let recorded (target : TargetAddress) (identifier : PaymentID) : option PaymentStatus :=
    reg !! target ≫= (fun statuses => statuses !! identifier) in
  (forall exc,
      result out = Raise exc ->
      (exists e,
          ev = Event_EventPaymentSentSuccess e
          ∧ exc = KeyError (EventPaymentSentSuccess.identifier e)
          ∧ recorded (EventPaymentSentSuccess.target e)
              (EventPaymentSentSuccess.identifier e) = None)
      ∨ ((type ev = ContractSendChannelBatchUnlock ∨ type ev = ContractSendChannelSettle)
         ∧ ((exists message,
                exc = AssertionError message
                ∧ In message
                    [ "The Raiden Service must be initialize to handle events";
                      ""; "merkle tree is missing" ]%string)
            ∨ (exists message,
                  exc = RaidenUnrecoverableError message
                  ∧ ((exists e,
                         ev = Event_ContractSendChannelBatchUnlock e
                         ∧ get_channelstate_by_token_network_and_partner chain_state
                             (token_network_address
                                (ContractSendChannelBatchUnlock.canonical_identifier e))
                             (ContractSendChannelBatchUnlock.sender e) = None)
                     ∨ (exists c, In c (calls out) ∧ lookup_found_nothing c = true))))))
  ∧ (forall e, ev = Event_EventPaymentSentFailed e -> result out = Ok ())
  ∧ (forall e,
        ev = Event_EventPaymentSentSuccess e ->
        (result out = Ok ()
         <-> is_Some (recorded (EventPaymentSentSuccess.target e)
                        (EventPaymentSentSuccess.identifier e)))).
Proof.
  cbv zeta. rewrite on_raiden_event_dispatch.
  split; [|split].
  - intros exc. destruct ev as [e|e|e|e|e|e|e|e|e|e|e|e|e|e|e| |e|e|e| | | | |e|e|name].
    all: try (unfold handle_send_lockexpired, handle_send_lockedtransfer,
                handle_send_secretreveal, handle_send_balanceproof,
                handle_send_refundtransfer, handle_send_processed, handle_unlockfailed,
                handle_contract_send_secretreveal; run; discriminate).
    + rewrite handle_send_secretrequest_run.
      destruct (reveal_secret_with_resolver_returns raiden e); discriminate.
    + rewrite handle_paymentsentsuccess_result.
      destruct (_ ≫= _) eqn:Hrecorded; [discriminate|].
      intros [= <-]. left. exists e. auto.
    + rewrite handle_paymentsentfailed_result. discriminate.
    + unfold handle_contract_send_channelclose.
      destruct (ContractSendChannelClose.balance_proof e); run; discriminate.
    + unfold handle_contract_send_channelupdate.
      destruct (ContractSendChannelUpdateTransfer.balance_proof e); run; discriminate.
    + unfold handle_contract_send_channelunlock.
      destruct (wal raiden) as [w|]; run;
        [|intros [= <-]; right; split; [left; reflexivity|left; eexists; split;
                                                         [reflexivity|cbn [In]; tauto]]].
      destruct (get_channelstate_by_token_network_and_partner _ _ _) as [live|] eqn:Hlive;
        run; [|intros [= <-]; right; split; [left; reflexivity|right; eauto 10]].
      unlock_paths; intros Hres; try discriminate Hres; injection Hres as <-;
        right; (split; [left; reflexivity|]);
        first [ left; eexists; split; [reflexivity|cbn [In]; tauto]
              | right; eexists; split; [reflexivity|]; right; failed_lookup ].
    + unfold handle_contract_send_channelsettle.
      destruct (wal raiden) as [w|]; run;
        [|intros [= <-]; right; split; [right; reflexivity|left; eexists; split;
                                                          [reflexivity|cbn [In]; tauto]]].
      repeat (case_match; run); intros Hres; try discriminate Hres; injection Hres as <-;
        right; (split; [right; reflexivity|]);
        right; eexists; (split; [reflexivity|]); right; failed_lookup.
  - intros e ->. apply handle_paymentsentfailed_result.
  - intros e ->. rewrite handle_paymentsentsuccess_result.
    destruct (_ ≫= _) eqn:Hrecorded.
    + split; [eauto|reflexivity].
    + split; [discriminate|]. intros [? ?]; discriminate.
Qed.

(** ** The events that carry a secret *)

(** C10.  A [SendSecretReveal] and a [SendBalanceProof], once
    constructed, have as secret hash the sha256 digest of their secret,
    whatever secret hash was given to the constructor (or none), and the
    secret is the one given.  The records are values: nothing changes them
    afterwards, and the handler to which the dispatcher passes such an
    event builds the message from that very event, signs it and sends
    it. *)
Theorem secrethash_is_digest_of_secret (sha256 : bytes -> bytes)
    (EMPTY_SECRETHASH : SecretHash) (raiden : RaidenService) (chain_state : ChainState)
    (reg : Registry) (recipient : Address) (channel_identifier : ChannelID)
    (message_identifier : MessageID) (payment_identifier : PaymentID)
    (token_address : TokenAddress) (balance_proof : BalanceProof) (secret : Secret)
    (given_secrethash : option SecretHash) :
  let reveal :=
    SendSecretReveal_init sha256 EMPTY_SECRETHASH recipient channel_identifier
      message_identifier secret given_secrethash in
  let proof :=
    SendBalanceProof_init sha256 EMPTY_SECRETHASH recipient channel_identifier
      message_identifier payment_identifier token_address balance_proof secret
      given_secrethash in
  let sent (event : Event) (base : SendMessageEvent.t) :=
    [ Call_message_from_sendevent event;
      Call_sign (message_from_sendevent_returns event);
      Call_send_async (SendMessageEvent.queue_identifier base)
        (sign_returns raiden (message_from_sendevent_returns event)) ] in
  SendSecretReveal.secret reveal = secret
  ∧ SendSecretReveal.secrethash reveal = sha256 secret
  ∧ SendBalanceProof.secret proof = secret
  ∧ SendBalanceProof.secrethash proof = sha256 secret
  ∧ calls (on_raiden_event raiden chain_state (Event_SendSecretReveal reveal) reg) =
      sent (Event_SendSecretReveal reveal) (SendSecretReveal.base reveal)
  ∧ calls (on_raiden_event raiden chain_state (Event_SendBalanceProof proof) reg) =
      sent (Event_SendBalanceProof proof) (SendBalanceProof.base proof).
Proof.
  cbv zeta. rewrite !on_raiden_event_dispatch.
  unfold handle_send_secretreveal, handle_send_balanceproof. run.
  repeat split; reflexivity.
Qed.

(** * Further properties of the handlers *)

Lemma handle_paymentsentsuccess_run (raiden : RaidenService)
    (e : EventPaymentSentSuccess.t) (reg : Registry) :
  handle_paymentsentsuccess raiden e reg =
  let target := EventPaymentSentSuccess.target e in
  let identifier := EventPaymentSentSuccess.identifier e in
  match reg !! target with
  | Some statuses =>
      match statuses !! identifier with
      | Some payment_status =>
          {| result := Ok ();
             registry := <[target := delete identifier statuses]> reg;
             calls := [Call_payment_done_set payment_status (Event_EventPaymentSentSuccess e)] |}
      | None => {| result := Raise (KeyError identifier); registry := reg; calls := [] |}
      end
  | None =>
      {| result := Raise (KeyError identifier); registry := <[target := ∅]> reg; calls := [] |}
  end.
Proof.
  unfold handle_paymentsentsuccess. cbv [mbind M_bind]. rewrite pop_run. cbv zeta.
  destruct (reg !! EventPaymentSentSuccess.target e) as [statuses|]; cbn; [|reflexivity].
  destruct (statuses !! EventPaymentSentSuccess.identifier e); reflexivity.
Qed.

Lemma handle_paymentsentfailed_run (raiden : RaidenService)
    (e : EventPaymentSentFailed.t) (reg : Registry) :
  handle_paymentsentfailed raiden e reg =
  let target := EventPaymentSentFailed.target e in
  let identifier := EventPaymentSentFailed.identifier e in
  match reg !! target with
  | Some statuses =>
      match statuses !! identifier with
      | Some payment_status =>
          {| result := Ok ();
             registry := <[target := delete identifier statuses]> reg;
             calls := [Call_payment_done_set payment_status (Event_EventPaymentSentFailed e)] |}
      | None => {| result := Ok (); registry := reg; calls := [] |}
      end
  | None => {| result := Ok (); registry := <[target := ∅]> reg; calls := [] |}
  end.
Proof.
  unfold handle_paymentsentfailed. cbv [mbind M_bind]. rewrite pop_default_run. cbv zeta.
  destruct (reg !! EventPaymentSentFailed.target e) as [statuses|]; cbn; [|reflexivity].
  destruct (statuses !! EventPaymentSentFailed.identifier e); reflexivity.
Qed.

(** Every path of the dispatcher, for an event whose class is known. *)
Ltac dispatch_paths :=
  rewrite ?on_raiden_event_dispatch;
  unfold handle_send_lockexpired, handle_send_lockedtransfer, handle_send_secretreveal,
    handle_send_balanceproof, handle_send_secretrequest, handle_send_refundtransfer,
    handle_send_processed, handle_unlockfailed, handle_contract_send_secretreveal,
    handle_contract_send_channelclose, handle_contract_send_channelupdate,
    handle_contract_send_channelunlock, handle_contract_send_channelsettle;
  rewrite ?handle_paymentsentsuccess_run, ?handle_paymentsentfailed_run;
  cbv zeta; run; repeat (case_match; run).

Ltac which_call :=
  repeat match goal with
    | Hor : _ ∨ _ |- _ => destruct Hor as [Hor|Hor]
    | Hf : False |- _ => destruct Hf
    | Heq : @eq Call _ _ |- _ => first [ discriminate Heq | injection Heq as ? ]
    end.

(** X1.  A message intent other than a secret request is handled in three
    calls, without error and without touching the registry: the message is
    built from the intent, signed, and the signed message is handed to the
    transport on the queue of the intent.  Whatever the event, a message that
    reaches the transport is the signed message built from that very event,
    on the queue of that event, and it is the only one sent for it. *)
Theorem message_intent_is_built_signed_and_sent raiden chain_state ev reg :
  let out := on_raiden_event raiden chain_state ev reg in
  let message := message_from_sendevent_returns ev in
  (forall queue,
      send_queue ev = Some queue ->
      type ev ≠ SendSecretRequest ->
      out =
        {| result := Ok (); registry := reg;
           calls :=
             [ Call_message_from_sendevent ev; Call_sign message;
               Call_send_async queue (sign_returns raiden message) ] |})
  ∧ (forall queue sent,
        In (Call_send_async queue sent) (calls out) ->
        send_queue ev = Some queue
        ∧ sent = sign_returns raiden message
        ∧ List.filter is_send_async (calls out) = [Call_send_async queue sent]
        ∧ In (Call_sign message) (calls out)).
Proof.
  cbv zeta. split.
  - intros queue Hqueue Hclass.
    destruct ev; try discriminate Hqueue; try (exfalso; apply Hclass; reflexivity);
      cbn [send_queue] in Hqueue; injection Hqueue as <-; dispatch_paths; reflexivity.
  - intros queue sent.
    destruct ev; dispatch_paths; cbn [In]; intros Hin; which_call; subst;
      cbn [send_queue List.filter is_send_async In]; auto 10.
Qed.

(** X2.  Whatever the event and whichever path its handler takes, a
    transaction is submitted only for the contract intent of its own kind:
    the secret registration for [ContractSendSecretReveal], close for
    [ContractSendChannelClose], the balance-proof update for
    [ContractSendChannelUpdateTransfer], unlock for
    [ContractSendChannelBatchUnlock] and settle for
    [ContractSendChannelSettle].  The history log is queried only for the
    last two, and a payment is resolved only for the two payment-sent
    events. *)
Theorem transaction_only_for_its_contract_intent raiden chain_state ev reg :
  let out := on_raiden_event raiden chain_state ev reg in
  (forall c class, In c (calls out) -> transaction_intent c = Some class -> type ev = class)
  ∧ (forall c,
        In c (calls out) ->
        is_history_lookup c = true ->
        type ev = ContractSendChannelBatchUnlock ∨ type ev = ContractSendChannelSettle)
  ∧ (forall c,
        In c (calls out) ->
        is_payment_done_set c = true ->
        type ev = EventPaymentSentSuccess ∨ type ev = EventPaymentSentFailed).
Proof.
  cbv zeta. split; [|split].
  - intros c class.
    destruct ev; dispatch_paths; cbn [In]; intros Hin Hkind; which_call; subst;
      cbn [transaction_intent] in Hkind; try discriminate Hkind;
      injection Hkind as <-; reflexivity.
  - intros c.
    destruct ev; dispatch_paths; cbn [In]; intros Hin Hkind; which_call; subst;
      cbn [is_history_lookup] in Hkind; try discriminate Hkind; auto.
  - intros c.
    destruct ev; dispatch_paths; cbn [In]; intros Hin Hkind; which_call; subst;
      cbn [is_payment_done_set] in Hkind; try discriminate Hkind; auto.
Qed.

(** X3.  Only the two payment-sent events change the payment-status
    registry: for every other event the dispatcher leaves the registry as it
    found it, on every path, also on those that end in an exception. *)
Theorem registry_changed_only_by_payment_sent_events raiden chain_state ev reg :
  type ev ≠ EventPaymentSentSuccess ->
  type ev ≠ EventPaymentSentFailed ->
  registry (on_raiden_event raiden chain_state ev reg) = reg.
Proof.
  intros Hsuccess Hfailed.
  destruct ev; try (exfalso; apply Hsuccess; reflexivity);
    try (exfalso; apply Hfailed; reflexivity); dispatch_paths; reflexivity.
Qed.

(** The run of a payment-sent event in terms of the recorded status. *)
Lemma payment_sent_run (raiden : RaidenService) (chain_state : ChainState) (ev : Event)
    (reg : Registry) (target : TargetAddress) (identifier : PaymentID) :
  payment_sent_key ev = Some (target, identifier) ->
  let out := on_raiden_event raiden chain_state ev reg in
  calls out =
    match recorded_status reg target identifier with
    | Some payment_status => [Call_payment_done_set payment_status ev]
    | None => []
    end
  ∧ (exists statuses,
        registry out !! target = Some statuses
        ∧ statuses !! identifier = None
        ∧ forall i, i ≠ identifier -> statuses !! i = recorded_status reg target i)
  ∧ (forall t, t ≠ target -> registry out !! t = reg !! t)
  ∧ (is_Some (reg !! target) -> recorded_status reg target identifier = None ->
     registry out = reg)
  ∧ result out =
      match recorded_status reg target identifier with
      | Some _ => Ok ()
      | None =>
          if bool_decide (type ev = EventPaymentSentSuccess)
          then Raise (KeyError identifier) else Ok ()
      end.
Proof.
  intros Hkey. cbv zeta. unfold recorded_status.
  destruct ev; try discriminate Hkey; cbn [payment_sent_key] in Hkey;
    injection Hkey as <- <-; rewrite on_raiden_event_dispatch;
    rewrite ?handle_paymentsentsuccess_run, ?handle_paymentsentfailed_run; cbv zeta;
    repeat (case_match; cbn [mbind option_bind result registry calls] in * );
    simplify_eq.
  all: repeat split; try reflexivity.
  all: try (intros t Ht; rewrite lookup_insert_ne by congruence; reflexivity).
  all: try (intros [? ?]; discriminate).
  all: try discriminate.
  all: try (eexists; split; [apply lookup_insert_eq|]; split;
            [first [apply lookup_delete_eq | apply lookup_empty]|];
            intros i Hi; first [apply lookup_delete_ne; congruence | apply lookup_empty]).
  all: try (eexists; split; [eassumption|]; split; [assumption|]; reflexivity).
Qed.

(** X4.  Handling a payment-sent event, success or failure, resolves the
    payment whose status is recorded under the target and payment identifier
    of the event: [payment_done] of exactly that status is set with the
    event, once, and nothing is called when no status is recorded.
    Afterwards no status is recorded under that target and identifier, and
    the status recorded under any other target or identifier is the one that
    was there before. *)
Theorem payment_sent_resolves_the_recorded_status (raiden : RaidenService)
    (chain_state : ChainState) (ev : Event) (reg : Registry)
    (target : TargetAddress) (identifier : PaymentID) :
  payment_sent_key ev = Some (target, identifier) ->
  let out := on_raiden_event raiden chain_state ev reg in
  calls out =
    match recorded_status reg target identifier with
    | Some payment_status => [Call_payment_done_set payment_status ev]
    | None => []
    end
  ∧ recorded_status (registry out) target identifier = None
  ∧ forall (t : TargetAddress) (i : PaymentID),
      t ≠ target ∨ i ≠ identifier ->
      recorded_status (registry out) t i = recorded_status reg t i.
Proof.
  intros Hkey. cbv zeta.
  destruct (payment_sent_run raiden chain_state ev reg target identifier Hkey)
    as (Hcalls & (statuses & Hafter & Hgone & Hkept) & Hothers & _ & _).
  split; [exact Hcalls|]. split.
  - unfold recorded_status. rewrite Hafter. exact Hgone.
  - intros t i Hother. unfold recorded_status at 1.
    destruct (decide (t = target)) as [->|Htarget].
    + rewrite Hafter. cbn. apply Hkept. destruct Hother; congruence.
    + rewrite Hothers by assumption. reflexivity.
Qed.

(** X5.  A payment is resolved at most once.  After a payment-sent event
    for a target and payment identifier has been handled, a further
    payment-sent event for the same target and identifier sets no
    [payment_done] and leaves the registry as it is: a further failure is
    ignored, and a further success raises [KeyError]. *)
Theorem payment_is_resolved_at_most_once (raiden : RaidenService)
    (chain_state : ChainState) (ev later : Event) (reg : Registry)
    (target : TargetAddress) (identifier : PaymentID) :
  payment_sent_key ev = Some (target, identifier) ->
  payment_sent_key later = Some (target, identifier) ->
  let first := on_raiden_event raiden chain_state ev reg in
  let second := on_raiden_event raiden chain_state later (registry first) in
  calls second = []
  ∧ registry second = registry first
  ∧ result second =
      if bool_decide (type later = EventPaymentSentSuccess)
      then Raise (KeyError identifier) else Ok ().
Proof.
  intros Hkey Hlater. cbv zeta.
  destruct (payment_sent_run raiden chain_state ev reg target identifier Hkey)
    as (_ & (statuses & Hafter & Hgone & _) & _).
  assert (Hnone : recorded_status (registry (on_raiden_event raiden chain_state ev reg))
                    target identifier = None)
    by (unfold recorded_status; rewrite Hafter; exact Hgone).
  destruct (payment_sent_run raiden chain_state later
              (registry (on_raiden_event raiden chain_state ev reg)) target identifier Hlater)
    as (Hcalls & _ & _ & Hsame & Hresult).
  rewrite Hnone in Hcalls, Hresult.
  split; [exact Hcalls|]. split; [|exact Hresult].
  apply Hsame; [rewrite Hafter; eauto|exact Hnone].
Qed.

(** ** Close and update *)

(** X6.  Close and update agree on what they take from a balance proof.
    For a close intent and an update intent that carry the same balance
    proof, both handlers complete with one transaction each, and they submit
    the same nonce, the same balance hash and the same additional hash (the
    message hash of the balance proof); the signature of the balance proof is
    the closing signature for close and the partner signature for update,
    whose own signature is the one our signer gives for the packed update of
    exactly these values.  Without a balance proof the two differ: close
    still submits one transaction, with nonce 0 and the empty balance hash,
    message hash and signature, while update calls nothing at all. *)
Theorem close_and_update_submit_the_balance_proof raiden chain_state close update reg :
  let closed := handle_contract_send_channelclose raiden chain_state close reg in
  let updated := handle_contract_send_channelupdate raiden update reg in
  let close_proxy :=
    payment_channel_returns raiden
      {| chain_identifier := chain_id chain_state;
         token_network_address := ContractSendChannelClose.token_network_address close;
         channel_identifier := ContractSendChannelClose.channel_identifier close |} in
  result closed = Ok ()
  ∧ result updated = Ok ()
  ∧ (forall balance_proof,
        ContractSendChannelClose.balance_proof close = Some balance_proof ->
        ContractSendChannelUpdateTransfer.balance_proof update = Some balance_proof ->
        let update_proxy :=
          payment_channel_returns raiden (canonical_identifier balance_proof) in
        let packed :=
          pack_balance_proof_update (nonce balance_proof) (balance_hash balance_proof)
            (message_hash balance_proof) (canonical_identifier balance_proof)
            (signature balance_proof) in
        List.filter is_chain_proxy_call (calls closed) =
          [ Call_close close_proxy (nonce balance_proof) (balance_hash balance_proof)
              (message_hash balance_proof) (signature balance_proof)
              (ContractSendChannelClose.triggered_by_block_hash close) ]
        ∧ List.filter is_chain_proxy_call (calls updated) =
            [ Call_update_transfer update_proxy (nonce balance_proof)
                (balance_hash balance_proof) (message_hash balance_proof)
                (signature balance_proof) (signer_sign_returns raiden packed)
                (ContractSendChannelUpdateTransfer.triggered_by_block_hash update) ]
        ∧ In (Call_signer_sign packed) (calls updated))
  ∧ (ContractSendChannelClose.balance_proof close = None ->
     List.filter is_chain_proxy_call (calls closed) =
       [ Call_close close_proxy 0 EMPTY_BALANCE_HASH EMPTY_MESSAGE_HASH EMPTY_SIGNATURE
           (ContractSendChannelClose.triggered_by_block_hash close) ])
  ∧ (ContractSendChannelUpdateTransfer.balance_proof update = None -> calls updated = []).
Proof.
  cbv zeta. unfold handle_contract_send_channelclose, handle_contract_send_channelupdate.
  destruct (ContractSendChannelClose.balance_proof close) as [proof|];
    destruct (ContractSendChannelUpdateTransfer.balance_proof update) as [proof'|]; run;
    (split; [reflexivity|]); (split; [reflexivity|]);
    (split; [|split; intros Hnone; first [discriminate Hnone | reflexivity]]);
    intros balance_proof Hclose Hupdate; try discriminate Hclose; try discriminate Hupdate;
    injection Hclose as <-; injection Hupdate as <-;
    cbn [List.filter is_chain_proxy_call In]; auto.
Qed.

(** ** Settle *)

(** X7.  With the write-ahead log initialised, the settle handler first
    obtains the proxy and asks whether the state at the trigger block can be
    queried; only if it cannot, it asks for the hash of the latest block.  It
    then reads the participant details at the block so chosen, for the two
    participants of the proxy and the channel of the intent.  All that
    follows are lookups in the log, logs and the settle call, and the settle
    call is made at the very block at which the details were read. *)
Theorem settle_reads_details_at_the_settle_block raiden ev reg w :
  wal raiden = Some w ->
  let canonical_identifier :=
    {| chain_identifier := network_id raiden;
       token_network_address := ContractSendChannelSettle.token_network_address ev;
       channel_identifier := ContractSendChannelSettle.channel_identifier ev |} in
  let trigger := ContractSendChannelSettle.triggered_by_block_hash ev in
  let proxy := payment_channel_returns raiden canonical_identifier in
  let queryable := can_query_state_for_block_returns proxy trigger in
  let block := if queryable then trigger else blockhash_from_blocknumber_returns proxy in
  let out := handle_contract_send_channelsettle raiden ev reg in
  exists rest,
    calls out =
      [ Call_payment_channel canonical_identifier;
        Call_can_query_state_for_block proxy trigger ]
      ++ (if queryable then [] else [Call_blockhash_from_blocknumber proxy "latest"])
      ++ [ Call_detail_participants proxy (participant1 proxy) (participant2 proxy) block
             (ContractSendChannelSettle.channel_identifier ev) ]
      ++ rest
    ∧ (forall c,
          In c rest ->
          is_history_lookup c = true ∨ is_log c = true ∨ is_settle_call c = true)
    ∧ (forall p ours_transferred ours_locked ours_locksroot
              partners_transferred partners_locked partners_locksroot at_block,
          In (Call_settle p ours_transferred ours_locked ours_locksroot
                partners_transferred partners_locked partners_locksroot at_block) rest ->
          at_block = block).
Proof.
  intros Hwal. cbv zeta.
  unfold handle_contract_send_channelsettle. rewrite Hwal. run.
  destruct (can_query_state_for_block_returns _ _); cbn [negb]; run;
    repeat (case_match; run); cbn [app];
    eexists; (split; [reflexivity|]); cbn [In]; (split; [intros c Hin|intros * Hin]);
    which_call; subst; cbn [is_history_lookup is_log is_settle_call]; auto.
Qed.

(** X8.  With the write-ahead log initialised, the settle handler submits
    the settle transaction exactly when it completes: a run that ends in an
    exception has made no settle call.  If our balance hash recorded
    on-chain is not empty and the log holds no event for it, the run ends
    with the unrecoverable error right after the critical log that reports
    it, and the partner's balance proof has not been looked up.  If our side
    is settled (empty hash, or record found), the partner's balance hash is
    not empty and the log holds no state change for it, the run ends in the
    same way with the partner's critical log. *)
Theorem settle_submits_nothing_without_its_records raiden ev reg w :
  wal raiden = Some w ->
  let canonical_identifier :=
    {| chain_identifier := network_id raiden;
       token_network_address := ContractSendChannelSettle.token_network_address ev;
       channel_identifier := ContractSendChannelSettle.channel_identifier ev |} in
  let trigger := ContractSendChannelSettle.triggered_by_block_hash ev in
  let proxy := payment_channel_returns raiden canonical_identifier in
  let block :=
    if can_query_state_for_block_returns proxy trigger then trigger
    else blockhash_from_blocknumber_returns proxy in
  let details :=
    detail_participants_returns proxy (participant1 proxy) (participant2 proxy) block
      (ContractSendChannelSettle.channel_identifier ev) in
  let our_hash := ParticipantDetails.balance_hash (our_details details) in
  let partner_hash := ParticipantDetails.balance_hash (partner_details details) in
  let our_record :=
    get_event_with_balance_proof_by_balance_hash_returns (storage w) canonical_identifier
      our_hash in
  let partner_record :=
    get_state_change_with_balance_proof_by_balance_hash_returns (storage w)
      canonical_identifier partner_hash
      (ParticipantDetails.address (partner_details details)) in
  let out := handle_contract_send_channelsettle raiden ev reg in
  (result out = Ok () <-> length (List.filter is_settle_call (calls out)) = 1%nat)
  ∧ (result out ≠ Ok () -> List.filter is_settle_call (calls out) = [])
  ∧ (our_hash ≠ EMPTY_HASH ->
     our_record = None ->
     result out =
       Raise (RaidenUnrecoverableError "Our balance proof could not be found in the database")
     ∧ last (calls out) = Some (Call_log CRITICAL "our balance proof not found")
     ∧ List.filter is_state_change_lookup (calls out) = [])
  ∧ (our_hash = EMPTY_HASH ∨ is_Some our_record ->
     partner_hash ≠ EMPTY_HASH ->
     partner_record = None ->
     result out =
       Raise (RaidenUnrecoverableError
                "Partner balance proof could not be found in the database")
     ∧ last (calls out) = Some (Call_log CRITICAL "partner balance proof not found")).
Proof.
  intros Hwal. cbv zeta.
  unfold handle_contract_send_channelsettle. rewrite Hwal. run.
  destruct (can_query_state_for_block_returns _ _); cbn [negb]; run;
    repeat (case_match; run);
    cbn [List.filter is_settle_call is_state_change_lookup length];
    repeat match goal with
      | Hd : bool_decide _ = true |- _ => apply bool_decide_eq_true in Hd
      | Hd : bool_decide _ = false |- _ => apply bool_decide_eq_false in Hd
      end;
    (split; [split; intros Hok; first [reflexivity | discriminate Hok]|]);
    (split; [intros Hnot; first [reflexivity | exfalso; apply Hnot; reflexivity]|]);
    (split;
     [ intros Hhash Hnone; first [contradiction | discriminate Hnone | auto]
     | intros Hours Hhash Hnone;
       first [ contradiction | discriminate Hnone
             | destruct Hours as [?|[? ?]]; first [contradiction | discriminate]
             | auto ] ]).
Qed.

(** ** Batch unlock, beyond the lock sets *)

(** X9.  Whatever the state of the node, one run of the batch-unlock
    handler makes at most two unlock calls, each on the proxy of the
    channel of the intent and at the trigger block of the intent; it looks
    up at most one state change and at most one event, and every snapshot it
    reconstructs is the one at the state change of a record that one of
    these lookups found. *)
Theorem unlock_run_is_bounded raiden chain_state ev reg :
  let canonical_identifier := ContractSendChannelBatchUnlock.canonical_identifier ev in
  let out := handle_contract_send_channelunlock raiden chain_state ev reg in
  (forall proxy sender receiver locks block,
      In (Call_unlock proxy sender receiver locks block) (calls out) ->
      proxy = payment_channel_returns raiden canonical_identifier
      ∧ block = ContractSendChannelBatchUnlock.triggered_by_block_hash ev)
  ∧ (length (List.filter is_unlock_call (calls out)) <= 2)%nat
  ∧ (length (List.filter is_state_change_lookup (calls out)) <= 1)%nat
  ∧ (length (List.filter is_event_lookup (calls out)) <= 1)%nat
  ∧ (forall identifier position,
        In (Call_channel_state_until_state_change identifier position) (calls out) ->
        identifier = canonical_identifier
        ∧ ((exists storage locksroot sender record,
               In (Call_get_state_change_with_balance_proof_by_locksroot storage
                     canonical_identifier locksroot sender) (calls out)
               ∧ get_state_change_with_balance_proof_by_locksroot_returns storage
                   canonical_identifier locksroot sender = Some record
               ∧ position = StateChangeRecord.state_change_identifier record)
           ∨ (exists storage locksroot recipient record,
                 In (Call_get_event_with_balance_proof_by_locksroot storage
                       canonical_identifier locksroot recipient) (calls out)
                 ∧ get_event_with_balance_proof_by_locksroot_returns storage
                     canonical_identifier locksroot recipient = Some record
                 ∧ position = EventRecord.state_change_identifier record))).
Proof.
  cbv zeta. unfold handle_contract_send_channelunlock.
  destruct (wal raiden) as [w|]; run;
    [destruct (get_channelstate_by_token_network_and_partner _ _ _) as [live|]; run|].
  all: unlock_paths;
    cbn [In List.filter is_unlock_call is_state_change_lookup is_event_lookup length];
    (split; [intros proxy sender receiver locks block Hin; which_call; subst; auto|]);
    (split; [lia|]); (split; [lia|]); (split; [lia|]);
    intros identifier position Hin; which_call; subst; (split; [reflexivity|]);
    first [ left; do 4 eexists; split; [|split; [eassumption|reflexivity]]; tauto
          | right; do 4 eexists; split; [|split; [eassumption|reflexivity]]; tauto ].
Qed.

(** X10.  A snapshot that cannot be reconstructed stops the batch-unlock
    handler.  If a reconstruction made in a run yields no channel state, it
    is the last call of the run and the run ends with the assertion error of
    the [assert restored_channel_state is not None]; conversely a run that
    ends with that assertion error ends on a reconstruction that yielded no
    channel state.  No unlock call is made for that side. *)
Theorem unlock_stops_when_snapshot_is_missing raiden chain_state ev reg :
  let out := handle_contract_send_channelunlock raiden chain_state ev reg in
  (forall identifier position,
      In (Call_channel_state_until_state_change identifier position) (calls out) ->
      channel_state_until_state_change_returns raiden identifier position = None ->
      result out = Raise (AssertionError "")
      ∧ last (calls out) = Some (Call_channel_state_until_state_change identifier position))
  ∧ (result out = Raise (AssertionError "") ->
     exists identifier position,
       last (calls out) = Some (Call_channel_state_until_state_change identifier position)
       ∧ channel_state_until_state_change_returns raiden identifier position = None).
Proof.
  cbv zeta. unfold handle_contract_send_channelunlock.
  destruct (wal raiden) as [w|]; run;
    [destruct (get_channelstate_by_token_network_and_partner _ _ _) as [live|]; run|].
  all: unlock_paths;
    (split;
     [|intros Hres; first [discriminate Hres | do 2 eexists; split; [reflexivity|assumption]]]).
  all: intros identifier position Hin Hnone; which_call; subst;
    repeat match goal with
      | Hret : ?restore = Some _, Hn : ?restore = None |- _ => rewrite Hret in Hn
      end;
    try discriminate Hnone; auto.
Qed.

(** X11.  What happens on our side does not keep the partner's side from
    being unlocked.  With the write-ahead log initialised and the live state
    found, if the partner's on-chain locksroot is not empty, its state change
    is found, the snapshot is reconstructed, the side is not skipped and its
    lock list is not empty, then the first unlock call of the run is the one
    from the partner to us with that lock list, whether or not our record is
    found, our snapshot is reconstructed or our lock list is empty. *)
Theorem partner_side_is_unlocked_whatever_our_side raiden chain_state ev reg w live
    record restored :
  let canonical_identifier := ContractSendChannelBatchUnlock.canonical_identifier ev in
  let participant := ContractSendChannelBatchUnlock.sender ev in
  let out := handle_contract_send_channelunlock raiden chain_state ev reg in
  wal raiden = Some w ->
  get_channelstate_by_token_network_and_partner chain_state
    (token_network_address canonical_identifier) participant = Some live ->
  onchain_locksroot (partner_state live) ≠ EMPTY_HASH ->
  get_state_change_with_balance_proof_by_locksroot_returns (storage w) canonical_identifier
    (onchain_locksroot (partner_state live)) (address (partner_state live)) = Some record ->
  channel_state_until_state_change_returns raiden canonical_identifier
    (StateChangeRecord.state_change_identifier record) = Some restored ->
  zero_gain_skip participant (partner_state restored)
    (from_partner_locks (get_batch_unlock_gain restored)) = false ->
  truthy (get_batch_unlock (partner_state restored)) = true ->
  exists later,
    List.filter is_unlock_call (calls out) =
    Call_unlock (payment_channel_returns raiden canonical_identifier)
      (address (partner_state live)) (address (our_state live))
      (get_batch_unlock (partner_state restored))
      (ContractSendChannelBatchUnlock.triggered_by_block_hash ev)
    :: later.
Proof.
  cbv zeta. intros Hwal Hlive Hroot Hrecord Hrestored Hskip Hlocks.
  rewrite zero_gain_skip_eq in Hskip.
  unfold handle_contract_send_channelunlock. rewrite Hwal. run. rewrite Hlive.
  cbv beta iota zeta.
  rewrite (bool_decide_true _ Hroot), andb_false_r. run.
  rewrite Hrecord. run. rewrite Hrestored. run. rewrite Hskip. cbn [negb]. run.
  rewrite Hlocks. run.
  unlock_paths; eexists; reflexivity.
Qed.

(** ** The refund of a locked transfer *)

(** X12.  The refund built from a locked transfer by
    [refund_from_sendmediated] keeps the recipient, the message identifier,
    the transfer and with it the balance proof of the locked transfer, and
    the channel read back from the queue identifier gives the same queue.
    Handled by the node, the refund is sent once, signed, on the queue of the
    locked transfer. *)
Theorem refund_is_sent_on_the_queue_of_the_transfer (raiden : RaidenService)
    (chain_state : ChainState) (e : SendLockedTransfer.t) (reg : Registry) :
  let refund := refund_from_sendmediated e in
  let out := on_raiden_event raiden chain_state (Event_SendRefundTransfer refund) reg in
  SendRefundTransfer.transfer refund = SendLockedTransfer.transfer e
  ∧ SendRefundTransfer.balance_proof refund = SendLockedTransfer.balance_proof e
  ∧ SendMessageEvent.recipient (SendRefundTransfer.base refund) =
      SendMessageEvent.recipient (SendLockedTransfer.base e)
  ∧ SendMessageEvent.message_identifier (SendRefundTransfer.base refund) =
      SendMessageEvent.message_identifier (SendLockedTransfer.base e)
  ∧ send_queue (Event_SendRefundTransfer refund) = send_queue (Event_SendLockedTransfer e)
  ∧ result out = Ok ()
  ∧ List.filter is_send_async (calls out) =
      [ Call_send_async (SendMessageEvent.queue_identifier (SendLockedTransfer.base e))
          (sign_returns raiden
             (message_from_sendevent_returns (Event_SendRefundTransfer refund))) ].
Proof.
  cbv zeta. rewrite on_raiden_event_dispatch. unfold handle_send_refundtransfer. run.
  destruct e as [[recipient channel message] transfer]. repeat split; reflexivity.
Qed.
End HandlerProperties.

(** * Properties of the feedback decorator *)

Section DecoratorProperties.
Context {collaborators : Collaborators} {feedback : FeedbackCollaborators}.

Local Abbreviation FeedbackCall := (FeedbackCall Message FeedbackToken ServiceConfig).

(** The decorator's own calls before the wrapped handler runs. *)
Lemma decorator_run (wrapped : RaidenService -> ChainState -> Event -> M Message unit)
    (raiden : RaidenService) (chain_state : ChainState) (ev : Event) (reg : Registry) :
  let inner := wrapped raiden chain_state ev reg in
  let own : list FeedbackCall :=
    match feedback_subject ev with
    | Some (token_network_address, route, succesful) =>
        match route_to_feeback_token raiden !! route with
        | Some token =>
            [ Call_log_debug
                (if succesful then "Received payment success event"
                 else "Received event for failed route");
              Call_post_pfs_feedback token_network_address route token succesful
                (config_get_services raiden) ]
        | None => []
        end
    | None => []
    end in
  PFSFeedbackEventHandler.on_raiden_event wrapped raiden chain_state ev reg =
  {| feedback_result := result inner;
     feedback_registry := registry inner;
     feedback_calls := own ++ map Call_wrapped (calls inner) |}.
Proof.
  cbv zeta. unfold PFSFeedbackEventHandler.on_raiden_event.
  destruct ev; cbn [type feedback_subject]; try reflexivity.
  all: unfold PFSFeedbackEventHandler.handle_routefailed,
         PFSFeedbackEventHandler.handle_paymentsentsuccess.
  all: cbv zeta; match goal with |- context [?m !! ?k] => destruct (m !! k) end;
    reflexivity.
Qed.


(** X13.  The decorator forwards every event to the handler it wraps,
    whatever that handler is: the wrapped handler runs once, from the
    registry the decorator was given, its calls come last and in order, and
    the result and the registry of the decorated run are the ones of the
    wrapped run.  The decorator's own calls come first, and there is at most
    one feedback post among them. *)
Theorem decorator_forwards_every_event
    (wrapped : RaidenService -> ChainState -> Event -> M Message unit)
    (raiden : RaidenService) (chain_state : ChainState) (ev : Event) (reg : Registry) :
  let out := PFSFeedbackEventHandler.on_raiden_event wrapped raiden chain_state ev reg in
  let inner := wrapped raiden chain_state ev reg in
  feedback_result out = result inner
  ∧ feedback_registry out = registry inner
  ∧ exists own : list FeedbackCall,
      feedback_calls out = own ++ map Call_wrapped (calls inner)
      ∧ Forall (fun c => is_wrapped_call c = false) own
      ∧ (length (List.filter is_feedback_post own) <= 1)%nat
      ∧ (type ev ≠ EventRouteFailed -> type ev ≠ EventPaymentSentSuccess -> own = []).
Proof.
  cbv zeta. rewrite decorator_run. cbv zeta. cbn [feedback_result feedback_registry feedback_calls].
  split; [reflexivity|]. split; [reflexivity|].
  eexists. split; [reflexivity|].
  destruct (feedback_subject ev) as [[[token_network_address route] succesful]|] eqn:Hsubject.
  - destruct (route_to_feeback_token raiden !! route).
    + split; [repeat constructor|]. split; [cbn; lia|].
      destruct ev; try discriminate Hsubject; intros Hfailed Hsuccess; exfalso;
        first [apply Hfailed; reflexivity | apply Hsuccess; reflexivity].
    + split; [constructor|]. split; [cbn; lia|]. reflexivity.
  - split; [constructor|]. split; [cbn; lia|]. reflexivity.
Qed.

(** X14.  Feedback is posted exactly for a failed route or a successful
    payment whose route has a feedback token recorded on the node: the post
    carries the token network and the route of the event, that token, the
    configuration of the services, and the flag [succesful] false for the
    failed route and true for the successful payment.  No other event and no
    call of the wrapped handler posts feedback. *)
Theorem feedback_is_posted_iff_a_token_is_recorded
    (wrapped : RaidenService -> ChainState -> Event -> M Message unit)
    (raiden : RaidenService) (chain_state : ChainState) (ev : Event) (reg : Registry)
    (token_network_address : TokenNetworkAddress) (route : list Address)
    (token : FeedbackToken) (succesful : bool) (service_config : option ServiceConfig) :
  let out := PFSFeedbackEventHandler.on_raiden_event wrapped raiden chain_state ev reg in
  In (Call_post_pfs_feedback token_network_address route token succesful service_config)
    (feedback_calls out)
  <-> feedback_subject ev = Some (token_network_address, route, succesful)
      ∧ route_to_feeback_token raiden !! route = Some token
      ∧ service_config = config_get_services raiden.
Proof.
  cbv zeta. rewrite decorator_run. cbv zeta. cbn [feedback_calls].
  rewrite in_app_iff.
  assert (Hwrapped : forall made : list (Call Message),
             ~ In (Call_post_pfs_feedback token_network_address route token succesful
                     service_config : FeedbackCall)
                 (map Call_wrapped made)).
  { intros made Hin. apply in_map_iff in Hin as (c & Hc & _). discriminate Hc. }
  destruct (feedback_subject ev) as [[[subject_network subject_route] subject_flag]|].
  - destruct (route_to_feeback_token raiden !! subject_route) as [recorded|] eqn:Hrecorded.
    + split.
      * intros [[Heq|[Heq|[]]]|Hin]; [discriminate Heq| |destruct (Hwrapped _ Hin)].
        injection Heq as -> -> -> -> ->. auto.
      * intros (Heq & Htoken & ->). injection Heq as -> -> ->.
        rewrite Hrecorded in Htoken. injection Htoken as ->.
        left. right. left. reflexivity.
    + split.
      * intros [[]|Hin]. destruct (Hwrapped _ Hin).
      * intros (Heq & Htoken & _). injection Heq as -> -> ->. congruence.
  - split.
    + intros [[]|Hin]. destruct (Hwrapped _ Hin).
    + intros (Heq & _). discriminate Heq.
Qed.

Local Abbreviation decorated_handler :=
  (PFSFeedbackEventHandler.on_raiden_event on_raiden_event).

(** X15.  Over the event handler of the node, the decorator reports a
    successful payment before the payment is resolved.  With a feedback
    token recorded for the route, the run logs, posts the feedback and then
    hands the event to the wrapped handler: if a status is registered for the
    payment its completion is signalled and the run succeeds; if none is, the
    run ends with the key error of the wrapped handler, after the feedback
    was posted. *)
Theorem feedback_precedes_the_resolution_of_the_payment (raiden : RaidenService)
    (chain_state : ChainState) (e : EventPaymentSentSuccess.t) (reg : Registry)
    (token : FeedbackToken) :
  route_to_feeback_token raiden !! EventPaymentSentSuccess.route e = Some token ->
  let ev := Event_EventPaymentSentSuccess e in
  let out := decorated_handler raiden chain_state ev reg in
  let report : list FeedbackCall :=
    [ Call_log_debug "Received payment success event";
      Call_post_pfs_feedback (EventPaymentSentSuccess.token_network_address e)
        (EventPaymentSentSuccess.route e) token true (config_get_services raiden) ] in
  match recorded_status reg (EventPaymentSentSuccess.target e)
          (EventPaymentSentSuccess.identifier e) with
  | Some payment_status =>
      feedback_result out = Ok ()
      ∧ feedback_calls out = report ++ [Call_wrapped (Call_payment_done_set payment_status ev)]
  | None =>
      feedback_result out = Raise (KeyError (EventPaymentSentSuccess.identifier e))
      ∧ feedback_calls out = report
  end.
Proof.
  intros Htoken. cbv zeta. rewrite decorator_run. cbv zeta.
  cbn [feedback_subject feedback_result feedback_calls]. rewrite Htoken.
  rewrite on_raiden_event_dispatch, handle_paymentsentsuccess_run. cbv zeta.
  unfold recorded_status.
  destruct (reg !! EventPaymentSentSuccess.target e) as [statuses|]; cbn;
    [destruct (statuses !! EventPaymentSentSuccess.identifier e); cbn|]; auto.
Qed.

(** X16.  The event handler of the node has no branch for a failed route:
    a route failure given to it directly, or through the decorator, is
    logged by it as an unknown event, without error and with the registry
    unchanged.  Through the decorator, the feedback for the route is posted
    before that log whenever a token is recorded for the route. *)
Theorem route_failure_is_unknown_to_the_wrapped_handler (raiden : RaidenService)
    (chain_state : ChainState) (e : EventRouteFailed.t) (reg : Registry) :
  let ev := Event_EventRouteFailed e in
  let out := decorated_handler raiden chain_state ev reg in
  on_raiden_event raiden chain_state ev reg =
    {| result := Ok (); registry := reg; calls := [Call_log ERROR "Unknown event"] |}
  ∧ feedback_result out = Ok ()
  ∧ feedback_registry out = reg
  ∧ last (feedback_calls out) = Some (Call_wrapped (Call_log ERROR "Unknown event"))
  ∧ forall token,
      route_to_feeback_token raiden !! EventRouteFailed.route e = Some token ->
      feedback_calls out =
      [ Call_log_debug "Received event for failed route";
        Call_post_pfs_feedback (EventRouteFailed.token_network_address e)
          (EventRouteFailed.route e) token false (config_get_services raiden);
        Call_wrapped (Call_log ERROR "Unknown event") ].
Proof.
  cbv zeta. rewrite decorator_run. cbv zeta.
  cbn [feedback_subject feedback_result feedback_registry feedback_calls].
  rewrite on_raiden_event_dispatch.
  split; [reflexivity|]. split; [reflexivity|]. split; [reflexivity|]. split.
  - destruct (route_to_feeback_token raiden !! EventRouteFailed.route e); reflexivity.
  - intros token ->. reflexivity.
Qed.

End DecoratorProperties.

(** * The properties on the concrete node *)

#[local] Existing Instance Example.collaborators.

(** The lock set of the unlock call is the one of the snapshot at position
    5, while the live partner end-state holds another lock. *)
Lemma unlock_locks_from_reconstructed_snapshot_witness :
  let chain_state := Example.chain Example.ZERO32 Example.partner_root in
  let out :=
    handle_contract_send_channelunlock Example.node chain_state Example.unlock_event ∅ in
  let locks := Some [Example.lock_at_5] in
  In (Call_unlock Example.proxy Example.partner Example.us locks Example.trigger_block)
    (calls out)
  ∧ get_batch_unlock (partner_state (Example.live_channel Example.ZERO32 Example.partner_root))
    = Some [Example.live_lock]
  ∧ exists w live restored,
      wal Example.node = Some w
      ∧ get_channelstate_by_token_network_and_partner chain_state Example.token_network
          Example.partner = Some live
      ∧ ((exists record,
             get_state_change_with_balance_proof_by_locksroot_returns (storage w)
               Example.channel_id (onchain_locksroot (partner_state live))
               (address (partner_state live)) = Some record
             ∧ channel_state_until_state_change_returns Example.node Example.channel_id
                 (StateChangeRecord.state_change_identifier record) = Some restored
             ∧ locks = get_batch_unlock (partner_state restored)
             ∧ Example.partner = address (partner_state live)
             ∧ Example.us = address (our_state live))
         ∨ (exists record,
               get_event_with_balance_proof_by_locksroot_returns (storage w)
                 Example.channel_id (onchain_locksroot (our_state live))
                 (address (partner_state live)) = Some record
               ∧ channel_state_until_state_change_returns Example.node Example.channel_id
                   (EventRecord.state_change_identifier record) = Some restored
               ∧ locks = get_batch_unlock (our_state restored)
               ∧ Example.partner = address (our_state live)
               ∧ Example.us = address (partner_state live))).
Proof.
  cbv zeta.
  assert (Hin : In (Call_unlock Example.proxy Example.partner Example.us
                      (Some [Example.lock_at_5]) Example.trigger_block)
                  (calls (handle_contract_send_channelunlock Example.node
                            (Example.chain Example.ZERO32 Example.partner_root)
                            Example.unlock_event ∅)))
    by (vm_compute; tauto).
  split; [exact Hin|]. split; [reflexivity|].
  exact (proj1 (unlock_locks_from_reconstructed_snapshot Example.node
                  (Example.chain Example.ZERO32 Example.partner_root)
                  Example.unlock_event ∅) _ _ _ _ _ Hin).
Defined.

(** Both balance hashes are recorded on-chain: the amounts of the settle
    call are those of the two logged balance proofs. *)
Lemma settle_amounts_from_history_records_witness :
  let out := handle_contract_send_channelsettle Example.node (Example.settle_event 7) ∅ in
  wal Example.node = Some {| storage := Example.log |}
  ∧ In (Call_settle Example.proxy 40 20 Example.our_root 100 30 Example.partner_root
          Example.trigger_block) (calls out)
  ∧ result out = Ok ()
  ∧ registry out = ∅
  ∧ length (List.filter is_settle_call (calls out)) = 1%nat.
Proof.
  cbv zeta.
  destruct (settle_amounts_from_history_records Example.node (Example.settle_event 7) ∅
              {| storage := Example.log |} eq_refl) as (_ & _ & _ & Hcompletes).
  split; [reflexivity|]. split; [vm_compute; tauto|].
  apply Hcompletes; intros _; vm_compute; eexists; reflexivity.
Defined.

(** Both sides are searched and neither is skipped: one unlock call per
    side, each with the locks of its own snapshot. *)
Lemma zero_gain_skip_is_symmetric_witness :
  let chain_state := Example.chain Example.our_root Example.partner_root in
  let out :=
    handle_contract_send_channelunlock Example.node chain_state Example.unlock_event ∅ in
  wal Example.node = Some {| storage := Example.log |}
  ∧ get_channelstate_by_token_network_and_partner chain_state Example.token_network
      Example.partner = Some (Example.live_channel Example.our_root Example.partner_root)
  ∧ result out = Ok ()
  ∧ List.filter is_unlock_call (calls out) =
      [ Call_unlock Example.proxy Example.partner Example.us (Some [Example.lock_at_5])
          Example.trigger_block;
        Call_unlock Example.proxy Example.us Example.partner (Some [Example.lock_at_4])
          Example.trigger_block ].
Proof.
  cbv zeta.
  assert (Hwal : wal Example.node = Some {| storage := Example.log |}) by reflexivity.
  assert (Hlive : get_channelstate_by_token_network_and_partner
                    (Example.chain Example.our_root Example.partner_root)
                    Example.token_network Example.partner
                  = Some (Example.live_channel Example.our_root Example.partner_root))
    by (vm_compute; reflexivity).
  destruct (zero_gain_skip_is_symmetric Example.node
              (Example.chain Example.our_root Example.partner_root) Example.unlock_event ∅
              {| storage := Example.log |}
              (Example.live_channel Example.our_root Example.partner_root)
              Example.partner_record (Example.snapshot [] [Example.lock_at_5])
              Example.our_record (Example.snapshot [Example.lock_at_4] [])
              Hwal Hlive
              ltac:(intros _; split; vm_compute; reflexivity)
              ltac:(intros _; split; vm_compute; reflexivity))
    as (Hcalls & Hcompletes & _ & _).
  split; [exact Hwal|]. split; [exact Hlive|].
  assert (Hok : result (handle_contract_send_channelunlock Example.node
                          (Example.chain Example.our_root Example.partner_root)
                          Example.unlock_event ∅) = Ok ())
    by (apply Hcompletes; vm_compute; reflexivity).
  split; [exact Hok|].
  rewrite (Hcalls Hok). vm_compute. reflexivity.
Defined.

(** Both on-chain locksroots are empty: the proxy is obtained, one warning
    is logged, and that is all. *)
Lemma unlock_skips_sides_already_cleared_witness :
  let chain_state := Example.chain Example.ZERO32 Example.ZERO32 in
  let out :=
    handle_contract_send_channelunlock Example.node chain_state Example.unlock_event ∅ in
  wal Example.node = Some {| storage := Example.log |}
  ∧ get_channelstate_by_token_network_and_partner chain_state Example.token_network
      Example.partner = Some (Example.live_channel Example.ZERO32 Example.ZERO32)
  ∧ out =
      {| result := Ok (); registry := ∅;
         calls :=
           [ Call_payment_channel Example.channel_id;
             Call_log WARNING "Onchain unlock already mined" ] |}
  ∧ List.filter is_log (calls out) = [Call_log WARNING "Onchain unlock already mined"]
  ∧ List.filter is_chain_proxy_call (calls out) = []
  ∧ List.filter is_history_lookup (calls out) = [].
Proof.
  cbv zeta.
  assert (Hwal : wal Example.node = Some {| storage := Example.log |}) by reflexivity.
  assert (Hlive : get_channelstate_by_token_network_and_partner
                    (Example.chain Example.ZERO32 Example.ZERO32)
                    Example.token_network Example.partner
                  = Some (Example.live_channel Example.ZERO32 Example.ZERO32))
    by (vm_compute; reflexivity).
  destruct (unlock_skips_sides_already_cleared Example.node
              (Example.chain Example.ZERO32 Example.ZERO32) Example.unlock_event ∅
              {| storage := Example.log |}
              (Example.live_channel Example.ZERO32 Example.ZERO32) Hwal Hlive)
    as (_ & _ & Hboth).
  split; [exact Hwal|]. split; [exact Hlive|].
  apply Hboth; reflexivity.
Defined.

(** The node knows no channel with the partner, and then a channel
    whose partner locksroot matches no logged state change: the handler
    raises the unrecoverable error and makes no unlock call. *)
Lemma unlock_raises_without_state_or_record_witness :
  let unknown_root : Locksroot := [x99] in
  let chain_state := Example.chain Example.ZERO32 unknown_root in
  wal Example.node = Some {| storage := Example.log |}
  ∧ get_channelstate_by_token_network_and_partner Example.no_channels Example.token_network
      Example.partner = None
  ∧ handle_contract_send_channelunlock Example.node Example.no_channels
      Example.unlock_event ∅ =
      {| result := Raise (RaidenUnrecoverableError "Failed to find channel state with partner");
         registry := ∅;
         calls := [Call_payment_channel Example.channel_id] |}
  ∧ get_state_change_with_balance_proof_by_locksroot_returns Example.log Example.channel_id
      unknown_root Example.partner = None
  ∧ handle_contract_send_channelunlock Example.node chain_state Example.unlock_event ∅ =
      {| result :=
           Raise (RaidenUnrecoverableError
                    "Failed to find state that matches the current channel locksroots.");
         registry := ∅;
         calls :=
           [ Call_payment_channel Example.channel_id;
             Call_get_state_change_with_balance_proof_by_locksroot Example.log
               Example.channel_id unknown_root Example.partner ] |}.
Proof.
  cbv zeta.
  assert (Hwal : wal Example.node = Some {| storage := Example.log |}) by reflexivity.
  destruct (unlock_raises_without_state_or_record Example.node Example.no_channels
              Example.unlock_event ∅ {| storage := Example.log |} Hwal)
    as (Habsent & _).
  destruct (unlock_raises_without_state_or_record Example.node
              (Example.chain Example.ZERO32 [x99]) Example.unlock_event ∅
              {| storage := Example.log |} Hwal)
    as (_ & Hrecord & _).
  split; [exact Hwal|]. split; [reflexivity|]. split; [apply Habsent; reflexivity|].
  split; [reflexivity|].
  apply (Hrecord (Example.live_channel Example.ZERO32 [x99])).
  - vm_compute. reflexivity.
  - discriminate.
  - reflexivity.
Defined.

(** C6 as it was stated fails: on a registry that records no status for
    the target and payment identifier of the intent, dispatching an
    [EventPaymentSentSuccess] raises [KeyError] out of the handler. *)
Lemma payment_sent_success_without_status_raises :
  let out :=
    on_raiden_event Example.node Example.no_channels
      (Event_EventPaymentSentSuccess Example.payment_sent_success) ∅ in
  result out = Raise (KeyError 3) ∧ result out ≠ Ok ().
Proof. cbv zeta. split; [vm_compute; reflexivity|vm_compute; discriminate]. Qed.

(** The same intent with and without a recorded status, and the failed
    counterpart on the empty registry. *)
Lemma dispatch_raises_only_in_listed_cases_witness :
  let success := Event_EventPaymentSentSuccess Example.payment_sent_success in
  let failed := Event_EventPaymentSentFailed Example.payment_sent_failed in
  let recorded : Registry := {[ Example.partner := {[ 3 := Example.status ]} ]} in
  result (on_raiden_event Example.node Example.no_channels success ∅) = Raise (KeyError 3)
  ∧ ((exists e,
         success = Event_EventPaymentSentSuccess e
         ∧ KeyError 3 = KeyError (EventPaymentSentSuccess.identifier e)
         ∧ (∅ : Registry) !! EventPaymentSentSuccess.target e
           ≫= (fun statuses => statuses !! EventPaymentSentSuccess.identifier e) = None)
     ∨ ((type success = ContractSendChannelBatchUnlock
         ∨ type success = ContractSendChannelSettle)
        ∧ ((exists message,
               KeyError 3 = AssertionError message
               ∧ In message
                   [ "The Raiden Service must be initialize to handle events";
                     ""; "merkle tree is missing" ]%string)
           ∨ (exists message,
                 KeyError 3 = RaidenUnrecoverableError message
                 ∧ ((exists e,
                        success = Event_ContractSendChannelBatchUnlock e
                        ∧ get_channelstate_by_token_network_and_partner Example.no_channels
                            (token_network_address
                               (ContractSendChannelBatchUnlock.canonical_identifier e))
                            (ContractSendChannelBatchUnlock.sender e) = None)
                    ∨ (exists c,
                          In c (calls (on_raiden_event Example.node Example.no_channels
                                         success ∅))
                          ∧ lookup_found_nothing c = true))))))
  ∧ result (on_raiden_event Example.node Example.no_channels failed ∅) = Ok ()
  ∧ result (on_raiden_event Example.node Example.no_channels success recorded) = Ok ().
Proof.
  cbv zeta.
  assert (Hraises : result (on_raiden_event Example.node Example.no_channels
                              (Event_EventPaymentSentSuccess Example.payment_sent_success) ∅)
                    = Raise (KeyError 3))
    by (vm_compute; reflexivity).
  split; [exact Hraises|].
  split; [exact (proj1 (dispatch_raises_only_in_listed_cases Example.node Example.no_channels
                          (Event_EventPaymentSentSuccess Example.payment_sent_success) ∅)
                   _ Hraises)|].
  split.
  - exact (proj1 (proj2 (dispatch_raises_only_in_listed_cases Example.node
                           Example.no_channels
                           (Event_EventPaymentSentFailed Example.payment_sent_failed) ∅))
             _ eq_refl).
  - apply (proj2 (proj2 (dispatch_raises_only_in_listed_cases Example.node
                           Example.no_channels
                           (Event_EventPaymentSentSuccess Example.payment_sent_success)
                           {[ Example.partner := {[ 3 := Example.status ]} ]}))
             _ eq_refl).
    vm_compute. eexists. reflexivity.
Defined.

(** A batch-unlock intent matches one branch; a route-failure event
    matches none and is logged as unknown. *)
Lemma dispatch_matches_one_branch_witness :
  let unlock_intent := Event_ContractSendChannelBatchUnlock Example.unlock_event in
  let route_failed := Event_EventRouteFailed Example.route_failed in
  type unlock_intent ∈ INTENT_UNION
  ∧ length (matching_branches Example.node Example.no_channels unlock_intent) = 1%nat
  ∧ matching_branches Example.node Example.no_channels route_failed = []
  ∧ on_raiden_event Example.node Example.no_channels route_failed ∅ =
      {| result := Ok (); registry := ∅; calls := [Call_log ERROR "Unknown event"] |}.
Proof.
  cbv zeta.
  assert (Hunion : type (Event_ContractSendChannelBatchUnlock Example.unlock_event)
                   ∈ INTENT_UNION)
    by (apply (bool_decide_unpack _); vm_compute; exact I).
  destruct (dispatch_matches_one_branch Example.node Example.no_channels
              (Event_ContractSendChannelBatchUnlock Example.unlock_event) ∅)
    as (_ & _ & Hone & _).
  destruct (dispatch_matches_one_branch Example.node Example.no_channels
              (Event_EventRouteFailed Example.route_failed) ∅)
    as (_ & _ & _ & _ & _ & _ & Hunknown).
  split; [exact Hunion|]. split; [exact (Hone Hunion)|].
  split; [reflexivity|]. apply Hunknown. reflexivity.
Defined.

(** Our on-chain locksroot is the one of a logged event at whose state
    change our end-state holds no lock: the partner's side is unlocked, and
    our side ends in the assertion error right after the reconstruction. *)
Lemma unlock_call_carries_locks_witness :
  let chain_state := Example.chain Example.stale_root Example.partner_root in
  let out :=
    handle_contract_send_channelunlock Example.node chain_state Example.unlock_event ∅ in
  let locks := Some [Example.lock_at_5] in
  In (Call_unlock Example.proxy Example.partner Example.us locks Example.trigger_block)
    (calls out)
  ∧ (exists lock more_locks, locks = Some (lock :: more_locks))
  ∧ truthy (get_batch_unlock (our_state (Example.snapshot [] []))) = false
  ∧ unlock Example.proxy (our_state (Example.snapshot [] [])) Example.us Example.partner
      Example.trigger_block ∅ =
      {| result := Raise (AssertionError "merkle tree is missing"); registry := ∅;
         calls := [] |}
  ∧ result out = Raise (AssertionError "merkle tree is missing")
  ∧ is_unrecoverable (result out) = false
  ∧ exists canonical_identifier position,
      last (calls out) =
      Some (Call_channel_state_until_state_change canonical_identifier position).
Proof.
  cbv zeta.
  destruct (unlock_call_carries_locks Example.node
              (Example.chain Example.stale_root Example.partner_root)
              Example.unlock_event ∅) as (Hcarries & Hhelper & Hlast).
  assert (Hin : In (Call_unlock Example.proxy Example.partner Example.us
                      (Some [Example.lock_at_5]) Example.trigger_block)
                  (calls (handle_contract_send_channelunlock Example.node
                            (Example.chain Example.stale_root Example.partner_root)
                            Example.unlock_event ∅)))
    by (vm_compute; tauto).
  assert (Hraises : result (handle_contract_send_channelunlock Example.node
                              (Example.chain Example.stale_root Example.partner_root)
                              Example.unlock_event ∅)
                    = Raise (AssertionError "merkle tree is missing"))
    by (vm_compute; reflexivity).
  split; [exact Hin|]. split; [exact (Hcarries _ _ _ _ _ Hin)|].
  split; [reflexivity|]. split; [apply Hhelper; reflexivity|].
  split; [exact Hraises|]. exact (Hlast Hraises).
Defined.

(** ** Further runs on the concrete node *)

(** The partner's on-chain locksroot is the one logged at position 8,
    where the partner's only lock is worth nothing and the partner's address
    is the participant: the side is skipped without a call and without an
    error. *)
Example zero_gain_side_is_skipped :
  let out :=
    handle_contract_send_channelunlock Example.node
      (Example.chain Example.ZERO32 Example.spent_root) Example.unlock_event ∅ in
  result out = Ok ()
  ∧ calls out =
      [ Call_payment_channel Example.channel_id;
        Call_get_state_change_with_balance_proof_by_locksroot Example.log Example.channel_id
          Example.spent_root Example.partner;
        Call_channel_state_until_state_change Example.channel_id 8 ].
Proof. cbv zeta. split; vm_compute; reflexivity. Qed.

(** Before the service is started the write-ahead log is missing, and the
    first assertion of the handler fails. *)
Example unlock_before_start_fails_assertion :
  handle_contract_send_channelunlock Example.node_before_start
    (Example.chain Example.ZERO32 Example.ZERO32) Example.unlock_event ∅ =
  {| result :=
       Raise (AssertionError "The Raiden Service must be initialize to handle events");
     registry := ∅; calls := [] |}.
Proof. vm_compute. reflexivity. Qed.

(** On channel 8 the partner's on-chain balance hash is empty: the settle
    call passes 0, 0 and the empty hash for the partner, and the log is asked
    for our balance proof only. *)
Example settle_with_empty_partner_hash :
  let out := handle_contract_send_channelsettle Example.node (Example.settle_event 8) ∅ in
  let proxy :=
    payment_channel_returns Example.node
      {| chain_identifier := 1; token_network_address := Example.token_network;
         channel_identifier := 8 |} in
  List.filter is_settle_call (calls out) =
    [ Call_settle proxy 40 20 Example.our_root 0 0 Example.ZERO32 Example.trigger_block ]
  ∧ List.filter is_state_change_lookup (calls out) = []
  ∧ length (List.filter is_event_lookup (calls out)) = 1%nat.
Proof. cbv zeta. repeat split; vm_compute; reflexivity. Qed.

(** The resolver of the concrete node handles the requests of amount 0:
    such a request sends nothing, any other sends one signed message. *)
Example secret_request_runs :
  calls (handle_send_secretrequest Example.node (Example.secret_request 0) ∅) =
    [Call_reveal_secret_with_resolver (Example.secret_request 0)]
  ∧ List.filter is_send_async
      (calls (handle_send_secretrequest Example.node (Example.secret_request 10) ∅)) =
    [ Call_send_async
        {| queue_recipient := Example.partner; queue_channel_identifier := 7 |}
        {| Example.built_from := Event_SendSecretRequest (Example.secret_request 10);
           Example.signed_by := Some Example.us |} ].
Proof. split; vm_compute; reflexivity. Qed.

(** A second failure event for a payment whose status is already gone is
    ignored; the first one resolves the payment and removes the status. *)
Example payment_sent_failed_twice :
  let failed := Event_EventPaymentSentFailed Example.payment_sent_failed in
  let recorded : Registry := {[ Example.partner := {[ 3 := Example.status ]} ]} in
  let first := on_raiden_event Example.node Example.no_channels failed recorded in
  let second := on_raiden_event Example.node Example.no_channels failed (registry first) in
  calls first = [Call_payment_done_set Example.status failed]
  ∧ registry first !! Example.partner = Some ∅
  ∧ result second = Ok ()
  ∧ calls second = [].
Proof. cbv zeta. repeat split; vm_compute; reflexivity. Qed.

(** ** The further properties on the concrete node *)

#[local] Existing Instance FeedbackExample.feedback.

(** A processed message for the partner on channel 7 is built, signed by us
    and sent on the queue of the partner and that channel. *)
Lemma message_intent_is_built_signed_and_sent_witness :
  let ev :=
    Event_SendProcessed
      {| SendProcessed.base :=
           {| SendMessageEvent.recipient := Example.partner;
              SendMessageEvent.channel_identifier := 7;
              SendMessageEvent.message_identifier := 12 |} |} in
  let queue := {| queue_recipient := Example.partner; queue_channel_identifier := 7 |} in
  let signed := {| Example.built_from := ev; Example.signed_by := Some Example.us |} in
  let out := on_raiden_event Example.node Example.no_channels ev ∅ in
  send_queue ev = Some queue
  ∧ type ev ≠ SendSecretRequest
  ∧ out =
      {| result := Ok (); registry := ∅;
         calls :=
           [ Call_message_from_sendevent ev;
             Call_sign (message_from_sendevent_returns ev);
             Call_send_async queue (sign_returns Example.node (message_from_sendevent_returns ev)) ] |}
  ∧ In (Call_send_async queue signed) (calls out)
  ∧ List.filter is_send_async (calls out) = [Call_send_async queue signed].
Proof.
  cbv zeta.
  pose (ev := Event_SendProcessed
                {| SendProcessed.base :=
                     {| SendMessageEvent.recipient := Example.partner;
                        SendMessageEvent.channel_identifier := 7;
                        SendMessageEvent.message_identifier := 12 |} |}).
  fold ev.
  assert (Hqueue : send_queue ev =
                   Some {| queue_recipient := Example.partner; queue_channel_identifier := 7 |})
    by reflexivity.
  assert (Htype : type ev ≠ SendSecretRequest) by discriminate.
  assert (Hin : In (Call_send_async
                      {| queue_recipient := Example.partner; queue_channel_identifier := 7 |}
                      {| Example.built_from := ev; Example.signed_by := Some Example.us |})
                  (calls (on_raiden_event Example.node Example.no_channels ev ∅)))
    by (vm_compute; tauto).
  destruct (message_intent_is_built_signed_and_sent Example.node Example.no_channels ev ∅)
    as [Hrun Hsent].
  split; [exact Hqueue|]. split; [exact Htype|].
  split; [exact (Hrun _ Hqueue Htype)|].
  split; [exact Hin|].
  exact (proj1 (proj2 (proj2 (Hsent _ _ Hin)))).
Defined.

(** The settle call of the concrete node is a transaction of a settle
    intent, and the lookup of our balance proof belongs to it. *)
Lemma transaction_only_for_its_contract_intent_witness :
  let ev := Event_ContractSendChannelSettle (Example.settle_event 7) in
  let out := on_raiden_event Example.node Example.no_channels ev ∅ in
  let settle :=
    Call_settle Example.proxy 40 20 Example.our_root 100 30 Example.partner_root
      Example.trigger_block in
  let lookup :=
    Call_get_event_with_balance_proof_by_balance_hash Example.log Example.channel_id [xb2] in
  In settle (calls out)
  ∧ transaction_intent settle = Some ContractSendChannelSettle
  ∧ type ev = ContractSendChannelSettle
  ∧ In lookup (calls out)
  ∧ is_history_lookup lookup = true
  ∧ (type ev = ContractSendChannelBatchUnlock ∨ type ev = ContractSendChannelSettle).
Proof.
  cbv zeta.
  assert (Hsettle : In (Call_settle Example.proxy 40 20 Example.our_root 100 30
                          Example.partner_root Example.trigger_block)
                      (calls (on_raiden_event Example.node Example.no_channels
                                (Event_ContractSendChannelSettle (Example.settle_event 7)) ∅)))
    by (vm_compute; tauto).
  assert (Hlookup : In (Call_get_event_with_balance_proof_by_balance_hash Example.log
                          Example.channel_id [xb2])
                      (calls (on_raiden_event Example.node Example.no_channels
                                (Event_ContractSendChannelSettle (Example.settle_event 7)) ∅)))
    by (vm_compute; tauto).
  destruct (transaction_only_for_its_contract_intent Example.node Example.no_channels
              (Event_ContractSendChannelSettle (Example.settle_event 7)) ∅)
    as (Htransaction & Hhistory & _).
  split; [exact Hsettle|]. split; [reflexivity|].
  split; [exact (Htransaction _ _ Hsettle eq_refl)|].
  split; [exact Hlookup|]. split; [reflexivity|].
  exact (Hhistory _ Hlookup eq_refl).
Defined.

(** Settling channel 7 leaves the status recorded for payment 3 where it
    is. *)
Lemma registry_changed_only_by_payment_sent_events_witness :
  let ev := Event_ContractSendChannelSettle (Example.settle_event 7) in
  let recorded : Registry := {[ Example.partner := {[ 3 := Example.status ]} ]} in
  type ev ≠ EventPaymentSentSuccess
  ∧ type ev ≠ EventPaymentSentFailed
  ∧ registry (on_raiden_event Example.node Example.no_channels ev recorded) = recorded.
Proof.
  cbv zeta.
  assert (Hsuccess : type (Event_ContractSendChannelSettle (Example.settle_event 7))
                     ≠ EventPaymentSentSuccess) by discriminate.
  assert (Hfailed : type (Event_ContractSendChannelSettle (Example.settle_event 7))
                    ≠ EventPaymentSentFailed) by discriminate.
  split; [exact Hsuccess|]. split; [exact Hfailed|].
  exact (registry_changed_only_by_payment_sent_events Example.node Example.no_channels
           (Event_ContractSendChannelSettle (Example.settle_event 7))
           {[ Example.partner := {[ 3 := Example.status ]} ]} Hsuccess Hfailed).
Defined.

(** The success of payment 3 to the partner resolves the status recorded
    for it, and the status of payment 4 stays. *)
Lemma payment_sent_resolves_the_recorded_status_witness :
  let ev := Event_EventPaymentSentSuccess Example.payment_sent_success in
  let recorded : Registry :=
    {[ Example.partner := {[ 3 := Example.status; 4 := Example.status ]} ]} in
  let out := on_raiden_event Example.node Example.no_channels ev recorded in
  payment_sent_key ev = Some (Example.partner, 3)
  ∧ calls out = [Call_payment_done_set Example.status ev]
  ∧ recorded_status (registry out) Example.partner 3 = None
  ∧ recorded_status (registry out) Example.partner 4 = Some Example.status.
Proof.
  cbv zeta.
  destruct (payment_sent_resolves_the_recorded_status Example.node Example.no_channels
              (Event_EventPaymentSentSuccess Example.payment_sent_success)
              {[ Example.partner := {[ 3 := Example.status; 4 := Example.status ]} ]}
              Example.partner 3 eq_refl) as (Hcalls & Hgone & Hothers).
  split; [reflexivity|]. split; [rewrite Hcalls; vm_compute; reflexivity|].
  split; [exact Hgone|].
  rewrite (Hothers Example.partner 4) by (right; discriminate).
  vm_compute. reflexivity.
Defined.

(** After the failure of payment 3 was handled, its success finds no
    status and raises the key error. *)
Lemma payment_is_resolved_at_most_once_witness :
  let failed := Event_EventPaymentSentFailed Example.payment_sent_failed in
  let succeeded := Event_EventPaymentSentSuccess Example.payment_sent_success in
  let recorded : Registry := {[ Example.partner := {[ 3 := Example.status ]} ]} in
  let first := on_raiden_event Example.node Example.no_channels failed recorded in
  let second := on_raiden_event Example.node Example.no_channels succeeded (registry first) in
  payment_sent_key failed = Some (Example.partner, 3)
  ∧ payment_sent_key succeeded = Some (Example.partner, 3)
  ∧ calls second = []
  ∧ registry second = registry first
  ∧ result second = Raise (KeyError 3).
Proof.
  cbv zeta.
  destruct (payment_is_resolved_at_most_once Example.node Example.no_channels
              (Event_EventPaymentSentFailed Example.payment_sent_failed)
              (Event_EventPaymentSentSuccess Example.payment_sent_success)
              {[ Example.partner := {[ 3 := Example.status ]} ]}
              Example.partner 3 eq_refl eq_refl) as (Hcalls & Hregistry & Hresult).
  split; [reflexivity|]. split; [reflexivity|].
  split; [exact Hcalls|]. split; [exact Hregistry|]. exact Hresult.
Defined.

(** Close and update of channel 7 with the partner's balance proof. *)
Lemma close_and_update_submit_the_balance_proof_witness :
  let close :=
    {| ContractSendChannelClose.token_network_address := Example.token_network;
       ContractSendChannelClose.channel_identifier := 7;
       ContractSendChannelClose.balance_proof := Some Example.partner_proof;
       ContractSendChannelClose.triggered_by_block_hash := Example.trigger_block |} in
  let update :=
    {| ContractSendChannelUpdateTransfer.balance_proof := Some Example.partner_proof;
       ContractSendChannelUpdateTransfer.triggered_by_block_hash := Example.trigger_block |} in
  let closed :=
    handle_contract_send_channelclose Example.node Example.no_channels close ∅ in
  let updated := handle_contract_send_channelupdate Example.node update ∅ in
  ContractSendChannelClose.balance_proof close = Some Example.partner_proof
  ∧ ContractSendChannelUpdateTransfer.balance_proof update = Some Example.partner_proof
  ∧ List.filter is_chain_proxy_call (calls closed) =
      [ Call_close Example.proxy 5 [xb1] [xe1] [x51] Example.trigger_block ]
  ∧ List.filter is_chain_proxy_call (calls updated) =
      [ Call_update_transfer Example.proxy 5 [xb1] [xe1] [x51] [x0a; xb1; xe1; x51]
          Example.trigger_block ].
Proof.
  cbv zeta.
  destruct (close_and_update_submit_the_balance_proof Example.node Example.no_channels
              {| ContractSendChannelClose.token_network_address := Example.token_network;
                 ContractSendChannelClose.channel_identifier := 7;
                 ContractSendChannelClose.balance_proof := Some Example.partner_proof;
                 ContractSendChannelClose.triggered_by_block_hash := Example.trigger_block |}
              {| ContractSendChannelUpdateTransfer.balance_proof := Some Example.partner_proof;
                 ContractSendChannelUpdateTransfer.triggered_by_block_hash :=
                   Example.trigger_block |} ∅) as (_ & _ & Hsame & _ & _).
  destruct (Hsame Example.partner_proof eq_refl eq_refl) as (Hclose & Hupdate & _).
  split; [reflexivity|]. split; [reflexivity|].
  split; [rewrite Hclose|rewrite Hupdate]; vm_compute; reflexivity.
Defined.

(** Settling channel 7 at a pruned trigger block: the latest block is asked
    for, and the details are read and the channel settled at that block. *)
Lemma settle_reads_details_at_the_settle_block_witness :
  let ev :=
    {| ContractSendChannelSettle.token_network_address := Example.token_network;
       ContractSendChannelSettle.channel_identifier := 7;
       ContractSendChannelSettle.triggered_by_block_hash := Example.pruned_block |} in
  let out := handle_contract_send_channelsettle Example.node ev ∅ in
  wal Example.node = Some {| storage := Example.log |}
  ∧ exists rest,
      calls out =
        [ Call_payment_channel Example.channel_id;
          Call_can_query_state_for_block Example.proxy Example.pruned_block;
          Call_blockhash_from_blocknumber Example.proxy "latest";
          Call_detail_participants Example.proxy Example.us Example.partner
            Example.latest_block 7 ]
        ++ rest
      ∧ In (Call_settle Example.proxy 40 20 Example.our_root 100 30 Example.partner_root
              Example.latest_block) rest.
Proof.
  cbv zeta.
  destruct (settle_reads_details_at_the_settle_block Example.node
              {| ContractSendChannelSettle.token_network_address := Example.token_network;
                 ContractSendChannelSettle.channel_identifier := 7;
                 ContractSendChannelSettle.triggered_by_block_hash := Example.pruned_block |}
              ∅ {| storage := Example.log |} eq_refl) as (rest & Hcalls & _ & _).
  split; [reflexivity|].
  vm_compute in Hcalls. injection Hcalls as <-.
  eexists. split; [vm_compute; reflexivity|].
  vm_compute. tauto.
Defined.

(** A node whose log is empty cannot settle channel 7: our balance hash is
    recorded on-chain, no event is found for it, and no settle call is
    made. *)
Lemma settle_submits_nothing_without_its_records_witness :
  let empty_log := {| logged_state_changes := []; logged_events := [] |} in
  let node :=
    {| raiden_address := Example.us; wal := Some {| storage := empty_log |};
       network_id := 1 |} in
  let out := handle_contract_send_channelsettle node (Example.settle_event 7) ∅ in
  wal node = Some {| storage := empty_log |}
  ∧ result out =
      Raise (RaidenUnrecoverableError "Our balance proof could not be found in the database")
  ∧ last (calls out) = Some (Call_log CRITICAL "our balance proof not found")
  ∧ List.filter is_settle_call (calls out) = [].
Proof.
  cbv zeta.
  destruct (settle_submits_nothing_without_its_records
              {| raiden_address := Example.us;
                 wal := Some {| storage := {| logged_state_changes := [];
                                               logged_events := [] |} |};
                 network_id := 1 |}
              (Example.settle_event 7) ∅
              {| storage := {| logged_state_changes := []; logged_events := [] |} |} eq_refl)
    as (_ & Hnothing & Hours & _).
  destruct (Hours ltac:(vm_compute; discriminate) ltac:(vm_compute; reflexivity))
    as (Hresult & Hlast & _).
  split; [reflexivity|]. split; [exact Hresult|]. split; [exact Hlast|].
  apply Hnothing. rewrite Hresult. discriminate.
Defined.

(** Both sides of channel 7 are unlocked: the two calls are on its proxy
    and at the trigger block, and the snapshot at position 5 is the one of
    the partner's state change. *)
Lemma unlock_run_is_bounded_witness :
  let chain_state := Example.chain Example.our_root Example.partner_root in
  let out :=
    handle_contract_send_channelunlock Example.node chain_state Example.unlock_event ∅ in
  In (Call_unlock Example.proxy Example.us Example.partner (Some [Example.lock_at_4])
        Example.trigger_block) (calls out)
  ∧ Example.proxy = payment_channel_returns Example.node Example.channel_id
  ∧ In (Call_channel_state_until_state_change Example.channel_id 5) (calls out)
  ∧ length (List.filter is_unlock_call (calls out)) = 2%nat.
Proof.
  cbv zeta.
  assert (Hunlock : In (Call_unlock Example.proxy Example.us Example.partner
                          (Some [Example.lock_at_4]) Example.trigger_block)
                      (calls (handle_contract_send_channelunlock Example.node
                                (Example.chain Example.our_root Example.partner_root)
                                Example.unlock_event ∅)))
    by (vm_compute; tauto).
  assert (Hrestore : In (Call_channel_state_until_state_change Example.channel_id 5)
                       (calls (handle_contract_send_channelunlock Example.node
                                 (Example.chain Example.our_root Example.partner_root)
                                 Example.unlock_event ∅)))
    by (vm_compute; tauto).
  destruct (unlock_run_is_bounded Example.node
              (Example.chain Example.our_root Example.partner_root) Example.unlock_event ∅)
    as (Hproxy & _ & _ & _ & Hfound).
  split; [exact Hunlock|].
  split; [exact (proj1 (Hproxy _ _ _ _ _ Hunlock))|].
  split; [exact Hrestore|].
  destruct (Hfound _ _ Hrestore) as [_ _]. vm_compute. reflexivity.
Defined.

(** The log of this node holds the partner's state change at position 9,
    where no snapshot can be reconstructed: the run stops there. *)
Lemma unlock_stops_when_snapshot_is_missing_witness :
  let record :=
    {| StateChangeRecord.state_change_identifier := 9;
       StateChangeRecord.data := {| data_balance_proof := Example.partner_proof |} |} in
  let late_log := {| logged_state_changes := [record]; logged_events := [] |} in
  let node :=
    {| raiden_address := Example.us; wal := Some {| storage := late_log |};
       network_id := 1 |} in
  let chain_state := Example.chain Example.our_root Example.partner_root in
  let out := handle_contract_send_channelunlock node chain_state Example.unlock_event ∅ in
  In (Call_channel_state_until_state_change Example.channel_id 9) (calls out)
  ∧ channel_state_until_state_change_returns node Example.channel_id 9 = None
  ∧ result out = Raise (AssertionError "")
  ∧ last (calls out) = Some (Call_channel_state_until_state_change Example.channel_id 9)
  ∧ List.filter is_unlock_call (calls out) = [].
Proof.
  cbv zeta.
  pose (node :=
          {| raiden_address := Example.us;
             wal := Some {| storage :=
                              {| logged_state_changes :=
                                   [ {| StateChangeRecord.state_change_identifier := 9;
                                        StateChangeRecord.data :=
                                          {| data_balance_proof := Example.partner_proof |} |} ];
                                 logged_events := [] |} |};
             network_id := 1 |}).
  fold node.
  assert (Hin : In (Call_channel_state_until_state_change Example.channel_id 9)
                  (calls (handle_contract_send_channelunlock node
                            (Example.chain Example.our_root Example.partner_root)
                            Example.unlock_event ∅)))
    by (vm_compute; tauto).
  assert (Hnone : channel_state_until_state_change_returns node Example.channel_id 9 = None)
    by (vm_compute; reflexivity).
  destruct (proj1 (unlock_stops_when_snapshot_is_missing node
                     (Example.chain Example.our_root Example.partner_root)
                     Example.unlock_event ∅) _ _ Hin Hnone) as [Hresult Hlast].
  split; [exact Hin|]. split; [exact Hnone|]. split; [exact Hresult|].
  split; [exact Hlast|]. vm_compute. reflexivity.
Defined.

(** Our on-chain locksroot is unknown to the log, so the run ends with the
    unrecoverable error of our side; the partner's side was unlocked before
    that. *)
Lemma partner_side_is_unlocked_whatever_our_side_witness :
  let chain_state := Example.chain [x99] Example.partner_root in
  let out :=
    handle_contract_send_channelunlock Example.node chain_state Example.unlock_event ∅ in
  result out =
    Raise (RaidenUnrecoverableError
             "Failed to find event that match current channel locksroots.")
  ∧ exists later,
      List.filter is_unlock_call (calls out) =
      Call_unlock Example.proxy Example.partner Example.us (Some [Example.lock_at_5])
        Example.trigger_block
      :: later.
Proof.
  cbv zeta. split; [vm_compute; reflexivity|].
  exact (partner_side_is_unlocked_whatever_our_side
           (collaborators := Example.collaborators) Example.node
           (Example.chain [x99] Example.partner_root) Example.unlock_event ∅
           {| storage := Example.log |} (Example.live_channel [x99] Example.partner_root)
           Example.partner_record (Example.snapshot [] [Example.lock_at_5])
           eq_refl
           ltac:(vm_compute; reflexivity) ltac:(vm_compute; discriminate)
           ltac:(vm_compute; reflexivity) ltac:(vm_compute; reflexivity)
           ltac:(vm_compute; reflexivity) ltac:(vm_compute; reflexivity)).
Defined.

(** An event that is neither a route failure nor a payment success passes
    through the decorator with the calls of the wrapped handler only. *)
Lemma decorator_forwards_every_event_witness :
  let ev := Event_ContractSendChannelSettle (Example.settle_event 7) in
  let out :=
    PFSFeedbackEventHandler.on_raiden_event on_raiden_event Example.node Example.no_channels
      ev ∅ in
  let inner := on_raiden_event Example.node Example.no_channels ev ∅ in
  type ev ≠ EventRouteFailed
  ∧ type ev ≠ EventPaymentSentSuccess
  ∧ feedback_result out = Ok ()
  ∧ feedback_calls out = map Call_wrapped (calls inner).
Proof.
  cbv zeta.
  assert (Hfailed : type (Event_ContractSendChannelSettle (Example.settle_event 7))
                    ≠ EventRouteFailed) by discriminate.
  assert (Hsuccess : type (Event_ContractSendChannelSettle (Example.settle_event 7))
                     ≠ EventPaymentSentSuccess) by discriminate.
  destruct (decorator_forwards_every_event on_raiden_event Example.node Example.no_channels
              (Event_ContractSendChannelSettle (Example.settle_event 7)) ∅)
    as (Hresult & _ & own & Hcalls & _ & _ & Hnone).
  split; [exact Hfailed|]. split; [exact Hsuccess|].
  split; [rewrite Hresult; vm_compute; reflexivity|].
  rewrite Hcalls, (Hnone Hfailed Hsuccess). reflexivity.
Defined.

(** Token 77 is recorded for the route of the failed-route event: the
    feedback is posted with it, as a failure. *)
Lemma feedback_is_posted_iff_a_token_is_recorded_witness :
  let ev := Event_EventRouteFailed Example.route_failed in
  let out :=
    PFSFeedbackEventHandler.on_raiden_event on_raiden_event Example.node Example.no_channels
      ev ∅ in
  feedback_subject ev = Some (Example.token_network, [Example.us; Example.partner], false)
  ∧ route_to_feeback_token Example.node !! [Example.us; Example.partner] = Some 77
  ∧ In (Call_post_pfs_feedback Example.token_network [Example.us; Example.partner] 77 false
          (Some "pfs")) (feedback_calls out).
Proof.
  cbv zeta.
  assert (Htoken : route_to_feeback_token Example.node !! [Example.us; Example.partner]
                   = Some 77) by (vm_compute; reflexivity).
  split; [reflexivity|]. split; [exact Htoken|].
  exact (proj2 (feedback_is_posted_iff_a_token_is_recorded on_raiden_event Example.node
                  Example.no_channels (Event_EventRouteFailed Example.route_failed) ∅
                  Example.token_network [Example.us; Example.partner] 77 false (Some "pfs"))
           (conj eq_refl (conj Htoken eq_refl))).
Defined.

(** No status is registered for payment 3: the feedback for its route is
    posted, and the run ends with the key error. *)
Lemma feedback_precedes_the_resolution_of_the_payment_witness :
  let ev := Event_EventPaymentSentSuccess Example.payment_sent_success in
  let out :=
    PFSFeedbackEventHandler.on_raiden_event on_raiden_event Example.node Example.no_channels
      ev ∅ in
  route_to_feeback_token Example.node
    !! EventPaymentSentSuccess.route Example.payment_sent_success = Some 77
  ∧ feedback_result out = Raise (KeyError 3)
  ∧ feedback_calls out =
      [ Call_log_debug "Received payment success event";
        Call_post_pfs_feedback Example.token_network [Example.us; Example.partner] 77 true
          (Some "pfs") ].
Proof.
  cbv zeta.
  assert (Htoken : route_to_feeback_token Example.node
                     !! EventPaymentSentSuccess.route Example.payment_sent_success
                   = Some 77) by (vm_compute; reflexivity).
  split; [exact Htoken|].
  exact (feedback_precedes_the_resolution_of_the_payment Example.node Example.no_channels
           Example.payment_sent_success ∅ 77 Htoken).
Defined.

(** The failed route of the concrete node: debug log, feedback with token
    77, then the error log of the wrapped handler. *)
Lemma route_failure_is_unknown_to_the_wrapped_handler_witness :
  let ev := Event_EventRouteFailed Example.route_failed in
  let out :=
    PFSFeedbackEventHandler.on_raiden_event on_raiden_event Example.node Example.no_channels
      ev ∅ in
  route_to_feeback_token Example.node !! EventRouteFailed.route Example.route_failed
    = Some 77
  ∧ feedback_calls out =
      [ Call_log_debug "Received event for failed route";
        Call_post_pfs_feedback Example.token_network [Example.us; Example.partner] 77 false
          (Some "pfs");
        Call_wrapped (Call_log ERROR "Unknown event") ].
Proof.
  cbv zeta.
  assert (Htoken : route_to_feeback_token Example.node
                     !! EventRouteFailed.route Example.route_failed = Some 77)
    by (vm_compute; reflexivity).
  split; [exact Htoken|].
  exact (proj2 (proj2 (proj2 (proj2
           (route_failure_is_unknown_to_the_wrapped_handler Example.node Example.no_channels
              Example.route_failed ∅)))) 77 Htoken).
Defined.
